(** * Madurai Makkal Connect: the verification and reward engine

    A shallow embedding of the decision logic of the mobile app
    (civic-mobile): the geo utility, the location capture, the image
    identity utility, the fraud rules and the state transition function
    [applyAction] of App.tsx, followed by the properties proved about them.

    Conventions of the embedding.
    - JavaScript numbers that hold measurements (coordinates, accuracy,
      age, distance, confidence) are IEEE binary64 values: Rocq's primitive
      [float], whose arithmetic and comparisons are the ones of the JS
      engine.  [Math.sin], [Math.cos] and [Math.atan2] are left to the
      engine by ECMAScript; they are the fields of a [MathLib].
    - Numbers that hold points, risk scores and 32-bit hashes are integers
      ([Z]); wrap-around is written out with [toInt32].
    - A timestamp (an ISO-8601 string in the source, always produced by
      [toISOString] and read back with [getTime]) is the number of
      milliseconds since the epoch, a [Z].
    - Strings are byte strings; a JS object used as a map is a [gmap].
    - [Date.now], [Math.random] and [toLocaleTimeString] are read from an
      explicit environment [Env]. *)

From Stdlib Require Import ZArith Lia Bool Ascii String List.
From Stdlib Require Import Floats.PrimFloat Numbers.Cyclic.Int63.Uint63.
From stdpp Require Import base option list gmap strings.

Set Warnings "-inexact-float".

Local Open Scope string_scope.
Local Open Scope Z_scope.

(* ================================================================== *)
(** ** JavaScript primitives used by the sources *)
(* ================================================================== *)

Module JS.

(** [x | 0] : reduction of an integer to a signed 32-bit value. *)
Definition toInt32 (z : Z) : Z := (z + 2 ^ 31) mod 2 ^ 32 - 2 ^ 31.

(** [x << k] on 32-bit integers. *)
Definition shl32 (z : Z) (k : Z) : Z := toInt32 (Z.shiftl (toInt32 z) k).

Definition charCode (c : ascii) : Z := Z.of_N (N_of_ascii c).

(** Integer to double.  Exact below 2^53, rounded to nearest below 2^63. *)
Definition float_of_Z (z : Z) : float :=
  if z <? 0 then PrimFloat.opp (PrimFloat.of_uint63 (Uint63.of_Z (- z)))
  else PrimFloat.of_uint63 (Uint63.of_Z z).

Definition is_zero (x : float) : bool := PrimFloat.eqb x 0%float.

(** [Math.max] and [Math.min] of two numbers: NaN if either is NaN,
    and +0 is larger than -0. *)
Definition Math_max (a b : float) : float :=
  if PrimFloat.is_nan a || PrimFloat.is_nan b then PrimFloat.nan
  else if PrimFloat.ltb a b then b
  else if PrimFloat.ltb b a then a
  else if is_zero a then PrimFloat.add a b
  else a.

Definition Math_min (a b : float) : float :=
  if PrimFloat.is_nan a || PrimFloat.is_nan b then PrimFloat.nan
  else if PrimFloat.ltb a b then a
  else if PrimFloat.ltb b a then b
  else if is_zero a then PrimFloat.opp (PrimFloat.add (PrimFloat.opp a) (PrimFloat.opp b))
  else a.

Definition Math_PI : float := 3.141592653589793%float.

(** The part of [Math] whose results ECMAScript leaves to the engine. *)
Record MathLib : Type := {
  Math_sin : float -> float;
  Math_cos : float -> float;
  Math_atan2 : float -> float -> float
}.

(** An engine with the small-angle forms of the three functions, to run
    the model.  On the sample data below every distance is taken between
    equal coordinates, where all engines agree: [sin 0 = 0] and
    [atan2 0 1 = 0] are fixed by ECMAScript, so the distance is 0. *)
Definition smallAngleMath : MathLib := {|
  Math_sin := fun x => x;
  Math_cos := fun x => PrimFloat.sub 1 (PrimFloat.div (PrimFloat.mul x x) 2);
  Math_atan2 := fun y x => PrimFloat.div y x
|}.

(** Digits of a non-negative integer, most significant first. *)
Definition digitChar (d : Z) : ascii :=
  if d <? 10 then ascii_of_N (Z.to_N (48 + d)) else ascii_of_N (Z.to_N (87 + d)).

Fixpoint digitsFrom (fuel : nat) (radix n : Z) (acc : string) : string :=
  match fuel with
  | O => acc
  | S fuel' =>
      let acc' := String (digitChar (n mod radix)) acc in
      if n / radix =? 0 then acc' else digitsFrom fuel' radix (n / radix) acc'
  end.

(** [n.toString(radix)] for an integer [n]. *)
Definition toStringRadix (radix n : Z) : string :=
  let body := digitsFrom (S (Z.to_nat (Z.log2 (Z.abs n)))) radix (Z.abs n) "" in
  if n <? 0 then String "-" body else body.

Definition toString (n : Z) : string := toStringRadix 10 n.

Fixpoint repeatChar (n : nat) (c : ascii) : string :=
  match n with O => "" | S n' => String c (repeatChar n' c) end.

(** [s.padStart(n, c)] for a one-character filler. *)
Definition padStart (n : nat) (c : ascii) (s : string) : string :=
  repeatChar (n - String.length s) c ++ s.

Definition lowerChar (c : ascii) : ascii :=
  let n := N_of_ascii c in
  if ((65 <=? n) && (n <=? 90))%N then ascii_of_N (n + 32) else c.

Fixpoint toLowerCase (s : string) : string :=
  match s with
  | EmptyString => EmptyString
  | String c s' => String (lowerChar c) (toLowerCase s')
  end.

Definition upperChar (c : ascii) : ascii :=
let n := N_of_ascii c in
if ((97 <=? n) && (n <=? 122))%N then ascii_of_N (n - 32) else c.

Fixpoint toUpperCase (s : string) : string :=
match s with
| EmptyString => EmptyString
| String c s' => String (upperChar c) (toUpperCase s')
end.

(** [hay.includes(needle)] *)
Fixpoint includes (needle hay : string) : bool :=
  String.prefix needle hay
  || match hay with
     | EmptyString => false
     | String _ hay' => includes needle hay'
     end.

Definition isSpace (c : ascii) : bool :=
  let n := N_of_ascii c in ((n =? 32) || ((9 <=? n) && (n <=? 13)))%N.

Fixpoint trimStart (s : string) : string :=
  match s with
  | String c s' => if isSpace c then trimStart s' else s
  | EmptyString => EmptyString
  end.

Fixpoint trimEnd (s : string) : string :=
  match s with
  | EmptyString => EmptyString
  | String c s' =>
      match trimEnd s' with
      | EmptyString => if isSpace c then EmptyString else String c EmptyString
      | t => String c t
      end
  end.

(** [s.trim()] (ASCII white space). *)
Definition trim (s : string) : string := trimEnd (trimStart s).

(** [s.slice(from, to)] for [0 <= from <= to]. *)
Definition slice (from to : nat) (s : string) : string :=
  String.substring from (to - from) s.

End JS.

Import JS.

(* ================================================================== *)
(** ** src/types *)
(* ================================================================== *)

Record Coordinates : Type := {
  latitude : float;
  longitude : float
}.

Inductive LocationStrength : Type := strong | medium_strength | weak | none_strength.

Record LocationSnapshot : Type := {
  ls_location : Coordinates;
  ls_accuracyMeters : float;
  ls_timestamp : Z;
  ls_ageSeconds : float;
  ls_isMocked : bool;
  ls_strength : LocationStrength
}.

Record UserLocationSnapshot : Type := {
  uls_location : Coordinates;
  uls_accuracyMeters : float;
  uls_timestamp : Z
}.

(* ================================================================== *)
(** ** src/utils/geo.ts *)
(* ================================================================== *)

Section Geo.
Variable M : MathLib.
Local Open Scope float_scope.

Definition EARTH_RADIUS_METERS : float := 6371000.

Definition toRadians (value : float) : float := (value * Math_PI) / 180.

Definition distanceMeters (from to : Coordinates) : float :=
  let dLatitude := toRadians (latitude to - latitude from) in
  let dLongitude := toRadians (longitude to - longitude from) in
  let fromLat := toRadians (latitude from) in
  let toLat := toRadians (latitude to) in
  let a :=
    Math_sin M (dLatitude / 2) * Math_sin M (dLatitude / 2) +
    Math_sin M (dLongitude / 2) *
      Math_sin M (dLongitude / 2) *
      Math_cos M fromLat *
      Math_cos M toLat in
  let c := 2 * Math_atan2 M (PrimFloat.sqrt a) (PrimFloat.sqrt (1 - a)) in
  EARTH_RADIUS_METERS * c.
End Geo.

(* ================================================================== *)
(** ** src/services/locationEngine.ts *)
(* ================================================================== *)

Definition PREFERRED_ACCURACY_METERS : float := 5.
Definition MAX_ALLOWED_ACCURACY_METERS : float := 10.
Definition MAX_LOCATION_AGE_SECONDS : float := 30.

Definition resolveStrength (accuracyMeters : float) : LocationStrength :=
  if PrimFloat.leb accuracyMeters PREFERRED_ACCURACY_METERS then strong
  else if PrimFloat.leb accuracyMeters MAX_ALLOWED_ACCURACY_METERS then medium_strength
  else if PrimFloat.leb accuracyMeters 40 then weak
  else none_strength.

(** What the device returns to [requestForegroundPermissionsAsync] and
    [getCurrentPositionAsync].  [pos_timestamp] is [Some t] when
    [typeof position.timestamp === 'number']; [pos_accuracy] is [None] for
    [null]; [pos_mocked] is [None] when the platform does not report it. *)
Inductive PermissionStatus : Type := granted | denied | undetermined.

Record Position : Type := {
  pos_latitude : float;
  pos_longitude : float;
  pos_accuracy : option float;
  pos_mocked : option bool;
  pos_timestamp : option Z
}.

Record LocationResult : Type := {
  snapshot : option LocationSnapshot;
  error : option string
}.

Definition requestLocationPermission (status : PermissionStatus)
  : bool * option string :=
  match status with
  | granted => (true, None)
  | _ => (false, Some "Location access is required to continue.")
  end.

(** [new Date(t)] holds a valid time value only within 8.64e15 ms of the
    epoch; [toISOString] throws outside. *)
Definition validTime (t : Z) : bool := Z.abs t <=? 8640000000000000.

(** [getHighAccuracyLocation], as a function of the permission answer, of
    the outcome of [getCurrentPositionAsync] ([None] when it rejects) and
    of the clock reading [now] taken for the age. *)
Definition getHighAccuracyLocation
    (status : PermissionStatus) (fetched : option Position) (now : Z)
  : LocationResult :=
  let permission := requestLocationPermission status in
  if negb (fst permission) then {| snapshot := None; error := snd permission |}
  else
    let failed :=
      {| snapshot := None; error := Some "Failed to fetch location. Try again." |} in
    match fetched with
    | None => failed
    | Some position =>
        let timestamp :=
          match pos_timestamp position with
          | Some t => t
          | None => now
          end in
        if negb (validTime timestamp) then failed
        else
          let accuracyMeters :=
            Math_max (default 999%float (pos_accuracy position)) 0 in
          let ageSeconds :=
            Math_max (PrimFloat.div (float_of_Z (now - timestamp)) 1000) 0 in
          let snap := {|
            ls_location := {| latitude := pos_latitude position;
                              longitude := pos_longitude position |};
            ls_accuracyMeters := accuracyMeters;
            ls_timestamp := timestamp;
            ls_ageSeconds := ageSeconds;
            ls_isMocked := default false (pos_mocked position);
            ls_strength := resolveStrength accuracyMeters
          |} in
          if ls_isMocked snap then
            {| snapshot := None; error := Some "Fake GPS detected. Action blocked." |}
          else if PrimFloat.ltb MAX_ALLOWED_ACCURACY_METERS (ls_accuracyMeters snap) then
            {| snapshot := Some snap;
               error := Some "Move to an open area for better GPS accuracy." |}
          else {| snapshot := Some snap; error := None |}
    end.

Definition isLocationFresh (s : LocationSnapshot) : bool :=
  PrimFloat.leb (ls_ageSeconds s) MAX_LOCATION_AGE_SECONDS.

(* ================================================================== *)
(** ** src/services/ai.ts *)
(* ================================================================== *)

Fixpoint hashLoop (value : string) (hash : Z) : Z :=
  match value with
  | EmptyString => hash
  | String c rest =>
      hashLoop rest (toInt32 (shl32 hash 5 - hash + charCode c))
  end.

Definition hashString (value : string) : Z := Z.abs (hashLoop value 0).

Definition imageHash (value : string) : string :=
  padStart 8 "0" (toStringRadix 16 (Z.abs (hashString value))).

Definition qualityCheck (photoUri : string) : bool * option string :=
  if (String.length photoUri <? 10)%nat then
    (false, Some "Image capture failed. Please retake.")
  else
    let uri := toLowerCase photoUri in
    if includes "screenshot" uri || includes "screenrecord" uri then
      (false, Some "Screenshot-like image rejected. Use live camera only.")
    else if (String.length photoUri mod 17 =? 0)%nat then
      (false, Some "Image is blurry. Please retake.")
    else (true, None).

(** [DisposalImageValidation]; [confidence] is the value before its
    rounding to two decimals for display. *)
Record DisposalImageValidation : Type := {
  qualityPassed : bool;
  binDetected : bool;
  wasteDetected : bool;
  confidence : float;
  failureReason : option string
}.

Definition validateDisposalImage (photoUri qrCodeId : string)
  : DisposalImageValidation :=
  let quality := qualityCheck photoUri in
  if negb (fst quality) then
    {| qualityPassed := false; binDetected := false; wasteDetected := false;
       confidence := 0; failureReason := snd quality |}
  else
    let seed := hashString (photoUri ++ ":" ++ qrCodeId) in
    let conf := PrimFloat.add 0.6 (PrimFloat.div (float_of_Z (Z.rem seed 40)) 100) in
    let bin := PrimFloat.ltb 0.62 conf in
    let waste := PrimFloat.ltb 0.68 conf in
    {| qualityPassed := true; binDetected := bin; wasteDetected := waste;
       confidence := Math_min conf 0.98;
       failureReason :=
         if negb bin then Some "Dustbin not detected."
         else if negb waste then Some "Waste not detected."
         else None |}.

Definition validateCleanupConsistency (beforeUri afterUri : string) : bool :=
  negb (String.eqb (imageHash beforeUri) (imageHash afterUri)).

(* ================================================================== *)
(** ** src/services/fraud.ts *)
(* ================================================================== *)

Inductive FraudAlertType : Type :=
  | duplicate_image
  | location_anomaly
  | before_after_mismatch
  | qr_mismatch
  | geo_fence_failure
  | mock_location_detected
  | cooldown_violation
  | location_accuracy_failure
  | timestamp_invalid.

Inductive Severity : Type := severity_low | severity_medium | severity_high.
Inductive AlertStatus : Type := alert_open | alert_reviewed | alert_blocked.

Record FraudAlert : Type := {
  fa_id : string;
  fa_type : FraudAlertType;
  fa_severity : Severity;
  fa_message : string;
  fa_actionId : string;
  fa_riskScore : Z;
  fa_status : AlertStatus;
  fa_createdAt : Z
}.

Definition typeName (t : FraudAlertType) : string :=
  match t with
  | duplicate_image => "duplicate_image"
  | location_anomaly => "location_anomaly"
  | before_after_mismatch => "before_after_mismatch"
  | qr_mismatch => "qr_mismatch"
  | geo_fence_failure => "geo_fence_failure"
  | mock_location_detected => "mock_location_detected"
  | cooldown_violation => "cooldown_violation"
  | location_accuracy_failure => "location_accuracy_failure"
  | timestamp_invalid => "timestamp_invalid"
  end.

Definition LOCATION_SPEED_THRESHOLD_METERS_PER_SECOND : float := 33.33.
Definition LOCATION_JUMP_THRESHOLD_METERS : float := 2000.

Definition isDuplicateImage (usedImageHashes : list string) (hash : string) : bool :=
  existsb (String.eqb hash) usedImageHashes.

Definition isLocationAnomaly (M : MathLib)
    (previous : option UserLocationSnapshot)
    (currentLocation : Coordinates) (currentTimestamp : Z) : bool :=
  match previous with
  | None => false
  | Some prev =>
      let previousTime := uls_timestamp prev in
      let currentTime := currentTimestamp in
      let elapsedSeconds :=
        Math_max (PrimFloat.div (float_of_Z (currentTime - previousTime)) 1000) 1 in
      let travelDistance := distanceMeters M (uls_location prev) currentLocation in
      let speed := PrimFloat.div travelDistance elapsedSeconds in
      PrimFloat.ltb LOCATION_SPEED_THRESHOLD_METERS_PER_SECOND speed
      || PrimFloat.ltb LOCATION_JUMP_THRESHOLD_METERS travelDistance
  end.

Definition makeFraudAlert (type : FraudAlertType) (actionId message : string)
    (severity : Severity) (createdAt : Z) (riskScore : Z) : FraudAlert :=
  {| fa_id := "fraud-" ++ actionId ++ "-" ++ typeName type;
     fa_type := type;
     fa_severity := severity;
     fa_message := message;
     fa_actionId := actionId;
     fa_status := if 80 <=? riskScore then alert_blocked else alert_open;
     fa_createdAt := createdAt;
     fa_riskScore := riskScore |}.

Definition TYPE_SCORE (t : FraudAlertType) : Z :=
  match t with
  | duplicate_image => 40
  | location_anomaly => 50
  | before_after_mismatch => 45
  | qr_mismatch => 20
  | geo_fence_failure => 50
  | mock_location_detected => 50
  | cooldown_violation => 30
  | location_accuracy_failure => 20
  | timestamp_invalid => 20
  end.

Definition fraudRiskScore (types : list FraudAlertType) : Z :=
  fold_left (fun sum item => sum + TYPE_SCORE item) types 0.

(* ================================================================== *)
(** ** src/types (application state) *)
(* ================================================================== *)

Inductive BinStatus : Type := available | reported_full | temporarily_disabled.

Record Bin : Type := {
  bin_id : string;
  bin_name : string;
  bin_qrCodeId : string;
  bin_ward : string;
  bin_location : Coordinates;
  bin_status : BinStatus;
  bin_lastUsedAt : option Z;
  bin_createdAt : Z
}.

Inductive WasteSizeClass : Type := large | medium | small | home_daily.

Inductive WalletEntryType : Type := earn | redeem.

Inductive WalletSource : Type :=
  | ai_disposal_verified
  | first_time_bonus
  | coupon_redemption
  | manual_adjustment.

Record WalletEntry : Type := {
  we_id : string;
  we_type : WalletEntryType;
  we_points : Z;
  we_reason : string;
  we_source : WalletSource;
  we_referenceId : option string;
  we_createdAt : Z
}.

Record WalletState : Type := {
  points : Z;
  history : list WalletEntry
}.

Inductive RedemptionStatus : Type := active | used | expired.

Record RedemptionRecord : Type := {
  rr_id : string;
  rr_rewardId : string;
  rr_rewardTitle : string;
  rr_couponCode : string;
  rr_pointsUsed : Z;
  rr_createdAt : Z;
  rr_expiresAt : Z;
  rr_status : RedemptionStatus
}.

Record DisposalRecord : Type := {
  d_id : string;
  d_userId : string;
  d_binId : string;
  d_qrCodeId : string;
  d_photoUri : string;
  d_imageHash : string;
  d_location : Coordinates;
  d_accuracyMeters : float;
  d_createdAt : Z;
  d_distanceMeters : float;
  d_geoVerified : bool;
  d_qrVerified : bool;
  d_aiVerified : bool;
  d_wasteSize : WasteSizeClass;
  d_fraudFlags : list FraudAlertType;
  d_verified : bool;
  d_pointsAwarded : Z;
  d_rejectionReason : option string
}.

Inductive IssueCategory : Type :=
  | roadside_dumping
  | overflowing_bin
  | open_garbage_heap
  | blocked_drain
  | public_area_unclean.

(** The watermark string of a cleanup proof renders these three values. *)
Record Watermark : Type := {
  wm_createdAt : Z;
  wm_location : Coordinates;
  wm_complaintId : string
}.

Record CleanupProof : Type := {
  cp_id : string;
  cp_submittedBy : string;
  cp_photoUri : string;
  cp_imageHash : string;
  cp_location : Coordinates;
  cp_accuracyMeters : float;
  cp_createdAt : Z;
  cp_watermark : Watermark;
  cp_distanceFromComplaintMeters : float;
  cp_aiCleanVerified : bool;
  cp_fraudFlags : list FraudAlertType
}.

Inductive ComplaintStatus : Type :=
  | complaint_open
  | complaint_assigned
  | complaint_in_progress
  | complaint_resolved.

Record Verification : Type := {
  v_verifiedBy : string;
  v_accepted : bool;
  v_notes : option string;
  v_verifiedAt : Z
}.

Record Complaint : Type := {
  c_id : string;
  c_userId : string;
  c_category : IssueCategory;
  c_description : string;
  c_photoUri : string;
  c_imageHash : string;
  c_location : Coordinates;
  c_createdAt : Z;
  c_status : ComplaintStatus;
  c_reportFraudFlags : list FraudAlertType;
  c_cleanupProof : option CleanupProof;
  c_resolvedAt : option Z;
  c_verification : option Verification
}.

(** The payload of a pending action, by action type. *)
Record DisposePayload : Type := {
  dp_binId : string;
  dp_qrCodeId : string;
  dp_photoUri : string;
  dp_wasteSize : WasteSizeClass;
  dp_location : LocationSnapshot;
  dp_userId : string;
  dp_createdAt : Z
}.

Record ReportIssuePayload : Type := {
  ri_category : IssueCategory;
  ri_description : string;
  ri_photoUri : string;
  ri_location : LocationSnapshot;
  ri_userId : string;
  ri_createdAt : Z
}.

Record ReportBinFullPayload : Type := {
  bf_binId : string;
  bf_reason : string
}.

Record SubmitCleanupPayload : Type := {
  sc_complaintId : string;
  sc_photoUri : string;
  sc_location : LocationSnapshot;
  sc_userId : string;
  sc_createdAt : Z
}.

Record VerifyCleanupPayload : Type := {
  vc_complaintId : string;
  vc_accepted : bool;
  vc_notes : option string;
  vc_verifiedBy : string;
  vc_createdAt : Z
}.

Record RedeemRewardPayload : Type := {
  rd_rewardId : string;
  rd_rewardTitle : string;
  rd_pointsRequired : Z;
  rd_createdAt : Z
}.

(** [PendingAction]: the [type] tag and the payload it announces. *)
Inductive ActionPayload : Type :=
  | dispose (p : DisposePayload)
  | report_issue (p : ReportIssuePayload)
  | submit_cleanup (p : SubmitCleanupPayload)
  | verify_cleanup (p : VerifyCleanupPayload)
  | redeem_reward (p : RedeemRewardPayload)
  | report_bin_full (p : ReportBinFullPayload).

Record PendingAction : Type := {
  pa_id : string;
  pa_payload : ActionPayload;
  pa_createdAt : Z
}.

Definition pa_type (a : PendingAction) : string :=
  match pa_payload a with
  | dispose _ => "dispose"
  | report_issue _ => "report_issue"
  | submit_cleanup _ => "submit_cleanup"
  | verify_cleanup _ => "verify_cleanup"
  | redeem_reward _ => "redeem_reward"
  | report_bin_full _ => "report_bin_full"
  end.

Record AppState : Type := {
  isOnline : bool;
  bins : list Bin;
  disposals : list DisposalRecord;
  complaints : list Complaint;
  wallet : WalletState;
  redemptions : list RedemptionRecord;
  fraudAlerts : list FraudAlert;
  pendingActions : list PendingAction;
  usedImageHashes : list string;
  lastActionByUser : gmap string UserLocationSnapshot;
  syncLog : list string
}.

(* ================================================================== *)
(** ** src/data/bins.ts *)
(* ================================================================== *)

Definition mkBin (id qr name ward : string) (lat lng : float) (now : Z) : Bin :=
  {| bin_id := id; bin_qrCodeId := qr; bin_name := name; bin_ward := ward;
     bin_location := {| latitude := lat; longitude := lng |};
     bin_status := available; bin_lastUsedAt := None; bin_createdAt := now |}.

(** [now] is the time at which the module is loaded. *)
Definition MADURAI_BINS (now : Z) : list Bin :=
  [ mkBin "bin-001" "MMC-BIN-001" "Periyar Bus Stand Bin Hub" "Ward 12"
      9.9166 78.1194 now;
    mkBin "bin-002" "MMC-BIN-002" "Goripalayam Smart Bin" "Ward 23"
      9.9324 78.1306 now;
    mkBin "bin-003" "MMC-BIN-003" "KK Nagar Community Bin" "Ward 38"
      9.8912 78.1331 now;
    mkBin "bin-004" "MMC-BIN-004" "Mattuthavani Transport Hub Bin" "Ward 45"
      9.9287 78.1482 now;
    mkBin "bin-005" "MMC-BIN-005" "Simmakkal Riverfront Bin" "Ward 9"
      9.9255 78.1144 now ].

Definition FIRST_TIME_USER_BONUS_POINTS : Z := 50.

Definition REGULAR_REWARD_POINTS (w : WasteSizeClass) : Z :=
  match w with
  | large => 20
  | medium => 10
  | small => 3
  | home_daily => 0
  end.

Definition DISPOSAL_COOLDOWN_HOURS : Z := 2.

(* ================================================================== *)
(** ** App.tsx: helpers of the transition function *)
(* ================================================================== *)

(** What one synchronous run of the transition function reads from the
    outside: the clock ([Date.now()], also behind [nowIso()]; one reading
    stands for all the calls of the run), the wall clock text of
    [toLocaleTimeString()], and the successive results of
    [Math.random().toString(36)]. *)
Record Env : Type := {
  Date_now : Z;
  localeTime : string;
  random36 : nat -> string
}.

Definition makeId (env : Env) (k : nat) (prefix : string) : string :=
  prefix ++ "-" ++ slice 2 8 (random36 env k) ++ "-"
         ++ toStringRadix 36 (Date_now env).

Definition createCouponCode (env : Env) (k : nat) : string :=
  let segA := toUpperCase (slice 2 6 (random36 env k)) in
  let segB := toUpperCase (slice 2 6 (random36 env (S k))) in
  "CLEANMADURAI-" ++ segA ++ "-" ++ segB.

Definition set_isOnline (s : AppState) (v : bool) : AppState :=
  {| isOnline := v; bins := bins s; disposals := disposals s;
     complaints := complaints s; wallet := wallet s;
     redemptions := redemptions s; fraudAlerts := fraudAlerts s;
     pendingActions := pendingActions s; usedImageHashes := usedImageHashes s;
     lastActionByUser := lastActionByUser s; syncLog := syncLog s |}.

Definition set_bins (s : AppState) (v : list Bin) : AppState :=
  {| isOnline := isOnline s; bins := v; disposals := disposals s;
     complaints := complaints s; wallet := wallet s;
     redemptions := redemptions s; fraudAlerts := fraudAlerts s;
     pendingActions := pendingActions s; usedImageHashes := usedImageHashes s;
     lastActionByUser := lastActionByUser s; syncLog := syncLog s |}.

Definition set_disposals (s : AppState) (v : list DisposalRecord) : AppState :=
  {| isOnline := isOnline s; bins := bins s; disposals := v;
     complaints := complaints s; wallet := wallet s;
     redemptions := redemptions s; fraudAlerts := fraudAlerts s;
     pendingActions := pendingActions s; usedImageHashes := usedImageHashes s;
     lastActionByUser := lastActionByUser s; syncLog := syncLog s |}.

Definition set_complaints (s : AppState) (v : list Complaint) : AppState :=
  {| isOnline := isOnline s; bins := bins s; disposals := disposals s;
     complaints := v; wallet := wallet s;
     redemptions := redemptions s; fraudAlerts := fraudAlerts s;
     pendingActions := pendingActions s; usedImageHashes := usedImageHashes s;
     lastActionByUser := lastActionByUser s; syncLog := syncLog s |}.

Definition set_wallet (s : AppState) (v : WalletState) : AppState :=
  {| isOnline := isOnline s; bins := bins s; disposals := disposals s;
     complaints := complaints s; wallet := v;
     redemptions := redemptions s; fraudAlerts := fraudAlerts s;
     pendingActions := pendingActions s; usedImageHashes := usedImageHashes s;
     lastActionByUser := lastActionByUser s; syncLog := syncLog s |}.

Definition set_redemptions (s : AppState) (v : list RedemptionRecord) : AppState :=
  {| isOnline := isOnline s; bins := bins s; disposals := disposals s;
     complaints := complaints s; wallet := wallet s;
     redemptions := v; fraudAlerts := fraudAlerts s;
     pendingActions := pendingActions s; usedImageHashes := usedImageHashes s;
     lastActionByUser := lastActionByUser s; syncLog := syncLog s |}.

Definition set_fraudAlerts (s : AppState) (v : list FraudAlert) : AppState :=
  {| isOnline := isOnline s; bins := bins s; disposals := disposals s;
     complaints := complaints s; wallet := wallet s;
     redemptions := redemptions s; fraudAlerts := v;
     pendingActions := pendingActions s; usedImageHashes := usedImageHashes s;
     lastActionByUser := lastActionByUser s; syncLog := syncLog s |}.

Definition set_pendingActions (s : AppState) (v : list PendingAction) : AppState :=
  {| isOnline := isOnline s; bins := bins s; disposals := disposals s;
     complaints := complaints s; wallet := wallet s;
     redemptions := redemptions s; fraudAlerts := fraudAlerts s;
     pendingActions := v; usedImageHashes := usedImageHashes s;
     lastActionByUser := lastActionByUser s; syncLog := syncLog s |}.

Definition set_usedImageHashes (s : AppState) (v : list string) : AppState :=
  {| isOnline := isOnline s; bins := bins s; disposals := disposals s;
     complaints := complaints s; wallet := wallet s;
     redemptions := redemptions s; fraudAlerts := fraudAlerts s;
     pendingActions := pendingActions s; usedImageHashes := v;
     lastActionByUser := lastActionByUser s; syncLog := syncLog s |}.

Definition set_lastActionByUser (s : AppState)
    (v : gmap string UserLocationSnapshot) : AppState :=
  {| isOnline := isOnline s; bins := bins s; disposals := disposals s;
     complaints := complaints s; wallet := wallet s;
     redemptions := redemptions s; fraudAlerts := fraudAlerts s;
     pendingActions := pendingActions s; usedImageHashes := usedImageHashes s;
     lastActionByUser := v; syncLog := syncLog s |}.

Definition set_syncLog (s : AppState) (v : list string) : AppState :=
  {| isOnline := isOnline s; bins := bins s; disposals := disposals s;
     complaints := complaints s; wallet := wallet s;
     redemptions := redemptions s; fraudAlerts := fraudAlerts s;
     pendingActions := pendingActions s; usedImageHashes := usedImageHashes s;
     lastActionByUser := lastActionByUser s; syncLog := v |}.

Definition DEFAULT_STATE (loadedAt : Z) : AppState :=
  {| isOnline := true;
     bins := MADURAI_BINS loadedAt;
     disposals := [];
     complaints := [];
     wallet := {| points := 0; history := [] |};
     redemptions := [];
     fraudAlerts := [];
     pendingActions := [];
     usedImageHashes := [];
     lastActionByUser := ∅;
     syncLog := [] |}.

Definition FRAUD_SEVERITY (t : FraudAlertType) : Severity :=
  match t with
  | duplicate_image => severity_high
  | location_anomaly => severity_high
  | before_after_mismatch => severity_high
  | qr_mismatch => severity_medium
  | geo_fence_failure => severity_high
  | mock_location_detected => severity_high
  | cooldown_violation => severity_medium
  | location_accuracy_failure => severity_medium
  | timestamp_invalid => severity_medium
  end.

Definition addLog (env : Env) (state : AppState) (message : string) : AppState :=
  set_syncLog state
    (firstn 40 ((localeTime env ++ " - " ++ message) :: syncLog state)).

Definition toUserSnapshot (s : LocationSnapshot) : UserLocationSnapshot :=
  {| uls_location := ls_location s;
     uls_accuracyMeters := ls_accuracyMeters s;
     uls_timestamp := ls_timestamp s |}.

Definition appendFraudAlerts (env : Env) (state : AppState) (actionId : string)
    (types : list FraudAlertType) (messages : FraudAlertType -> string)
  : AppState :=
  match types with
  | [] => state
  | _ =>
      let score := fraudRiskScore types in
      let alerts :=
        map (fun type =>
               makeFraudAlert type actionId (messages type)
                 (FRAUD_SEVERITY type) (Date_now env) score)
            types in
      set_fraudAlerts state (alerts ++ fraudAlerts state)
  end.

(** [array.findIndex(f)]: [None] stands for -1. *)
Fixpoint findIndex {A : Type} (f : A -> bool) (l : list A) : option nat :=
  match l with
  | [] => None
  | x :: l' => if f x then Some O else option_map S (findIndex f l')
  end.

(** A conditional [fraudFlags.push(t)]. *)
Definition pushIf (b : bool) (t : FraudAlertType) (flags : list FraudAlertType)
  : list FraudAlertType :=
  if b then flags ++ [t] else flags.

(* ================================================================== *)
(** ** App.tsx: the transition function [applyAction] *)
(* ================================================================== *)

Definition BinStatus_eqb (a b : BinStatus) : bool :=
  match a, b with
  | available, available => true
  | reported_full, reported_full => true
  | temporarily_disabled, temporarily_disabled => true
  | _, _ => false
  end.

Definition wasteSizeName (w : WasteSizeClass) : string :=
  match w with
  | large => "large"
  | medium => "medium"
  | small => "small"
  | home_daily => "home_daily"
  end.

Definition disposeMessages (t : FraudAlertType) : string :=
  match t with
  | duplicate_image => "Duplicate image detected."
  | location_anomaly => "Frequent location jump detected."
  | before_after_mismatch => "Before/after mismatch detected."
  | qr_mismatch => "QR does not match selected bin."
  | geo_fence_failure => "Geo-fence validation failed."
  | mock_location_detected => "Fake GPS detected. Action blocked."
  | cooldown_violation => "Bin cooldown policy violated."
  | location_accuracy_failure => "GPS accuracy above allowed threshold."
  | timestamp_invalid => "Location timestamp is too old."
  end.

Definition reportMessages (t : FraudAlertType) : string :=
  match t with
  | duplicate_image => "Complaint image is reused."
  | location_anomaly => "Complaint submitted from suspicious movement pattern."
  | before_after_mismatch => "Before/after mismatch detected."
  | qr_mismatch => "QR mismatch detected."
  | geo_fence_failure => "Geo-fence failure detected."
  | mock_location_detected => "Fake GPS detected in complaint report."
  | cooldown_violation => "Action frequency exceeded."
  | location_accuracy_failure => "Low GPS accuracy in complaint report."
  | timestamp_invalid => "Complaint location timestamp is stale."
  end.

Definition cleanupMessages (t : FraudAlertType) : string :=
  match t with
  | duplicate_image => "Cleanup image is reused."
  | location_anomaly => "Cleanup location anomaly detected."
  | before_after_mismatch => "Cleanup proof appears identical to complaint image."
  | qr_mismatch => "QR mismatch detected."
  | geo_fence_failure => "Cleanup proof submitted outside complaint perimeter."
  | mock_location_detected => "Fake GPS detected in cleanup proof."
  | cooldown_violation => "Action frequency exceeded."
  | location_accuracy_failure => "Low GPS accuracy in cleanup proof."
  | timestamp_invalid => "Cleanup location timestamp is stale."
  end.

Section Transition.
Variable M : MathLib.

(** The flags of a disposal, in the order of the pushes. *)
Definition disposeFlags (qrVerified geoVerified isMocked duplicate
    locationAnomaly cooldownViolation lowAccuracy locationAgeTooOld : bool)
  : list FraudAlertType :=
  pushIf locationAgeTooOld timestamp_invalid
    (pushIf lowAccuracy location_accuracy_failure
      (pushIf cooldownViolation cooldown_violation
        (pushIf locationAnomaly location_anomaly
          (pushIf duplicate duplicate_image
            (pushIf isMocked mock_location_detected
              (pushIf (negb geoVerified) geo_fence_failure
                (pushIf (negb qrVerified) qr_mismatch []))))))).

Definition applyDispose (env : Env) (state : AppState) (action : PendingAction)
    (payload : DisposePayload) : AppState :=
  match List.find (fun item => String.eqb (bin_id item) (dp_binId payload))
                  (bins state) with
  | None =>
      addLog env state
        ("Disposal " ++ pa_id action ++ " failed: selected bin not found.")
  | Some bin =>
      let location := dp_location payload in
      let distance := distanceMeters M (ls_location location) (bin_location bin) in
      let qrVerified := String.eqb (trim (dp_qrCodeId payload)) (bin_qrCodeId bin) in
      let locationAgeTooOld :=
        PrimFloat.ltb MAX_LOCATION_AGE_SECONDS (ls_ageSeconds location) in
      let lowAccuracy :=
        PrimFloat.ltb MAX_ALLOWED_ACCURACY_METERS (ls_accuracyMeters location) in
      let geoVerified :=
        PrimFloat.leb distance 5
        && negb locationAgeTooOld
        && negb lowAccuracy
        && negb (ls_isMocked location) in
      let aiResult := validateDisposalImage (dp_photoUri payload) (dp_qrCodeId payload) in
      let aiVerified :=
        qualityPassed aiResult && binDetected aiResult && wasteDetected aiResult in
      let imgHash := imageHash (dp_photoUri payload) in
      let duplicate := isDuplicateImage (usedImageHashes state) imgHash in
      let locationAnomaly :=
        isLocationAnomaly M (lastActionByUser state !! dp_userId payload)
          (ls_location location) (dp_createdAt payload) in
      let cooldownCutoff :=
        Date_now env - DISPOSAL_COOLDOWN_HOURS * 60 * 60 * 1000 in
      let cooldownViolation :=
        existsb
          (fun item =>
             String.eqb (d_userId item) (dp_userId payload)
             && String.eqb (d_binId item) (dp_binId payload)
             && (cooldownCutoff <? d_createdAt item))
          (disposals state) in
      let fraudFlags :=
        disposeFlags qrVerified geoVerified (ls_isMocked location) duplicate
          locationAnomaly cooldownViolation lowAccuracy locationAgeTooOld in
      let verified :=
        BinStatus_eqb (bin_status bin) available
        && qrVerified
        && geoVerified
        && aiVerified
        && (length fraudFlags =? 0)%nat in
      let isFirstSuccessful :=
        forallb
          (fun item =>
             negb (String.eqb (d_userId item) (dp_userId payload) && d_verified item))
          (disposals state) in
      let basePoints := if verified then REGULAR_REWARD_POINTS (dp_wasteSize payload) else 0 in
      let bonusPoints :=
        if verified && isFirstSuccessful then FIRST_TIME_USER_BONUS_POINTS else 0 in
      let pointsAwarded := basePoints + bonusPoints in
      let disposal := {|
        d_id := pa_id action;
        d_userId := dp_userId payload;
        d_binId := dp_binId payload;
        d_qrCodeId := dp_qrCodeId payload;
        d_photoUri := dp_photoUri payload;
        d_imageHash := imgHash;
        d_location := ls_location location;
        d_accuracyMeters := ls_accuracyMeters location;
        d_createdAt := dp_createdAt payload;
        d_distanceMeters := distance;
        d_geoVerified := geoVerified;
        d_qrVerified := qrVerified;
        d_aiVerified := aiVerified;
        d_wasteSize := dp_wasteSize payload;
        d_fraudFlags := fraudFlags;
        d_verified := verified;
        d_pointsAwarded := pointsAwarded;
        d_rejectionReason :=
          if verified then None
          else Some (default "Validation failed" (failureReason aiResult))
      |} in
      let next :=
        set_bins
          (set_lastActionByUser
            (set_usedImageHashes
              (set_disposals state (disposal :: disposals state))
              (if duplicate then usedImageHashes state
               else imgHash :: usedImageHashes state))
            (<[dp_userId payload := toUserSnapshot location]>
               (lastActionByUser state)))
          (map (fun item =>
                  if String.eqb (bin_id item) (dp_binId payload) && verified
                  then {| bin_id := bin_id item; bin_name := bin_name item;
                          bin_qrCodeId := bin_qrCodeId item;
                          bin_ward := bin_ward item;
                          bin_location := bin_location item;
                          bin_status := bin_status item;
                          bin_lastUsedAt := Some (dp_createdAt payload);
                          bin_createdAt := bin_createdAt item |}
                  else item)
               (bins state)) in
      let next :=
        if 0 <? pointsAwarded then
          let entries :=
            {| we_id := makeId env 0 "wallet";
               we_type := earn;
               we_points := basePoints;
               we_reason := "AI verified " ++ wasteSizeName (dp_wasteSize payload)
                                           ++ " waste disposal";
               we_source := ai_disposal_verified;
               we_referenceId := Some (pa_id action);
               we_createdAt := dp_createdAt payload |}
            :: (if 0 <? bonusPoints then
                  [ {| we_id := makeId env 1 "wallet";
                       we_type := earn;
                       we_points := bonusPoints;
                       we_reason := "First successful disposal bonus";
                       we_source := first_time_bonus;
                       we_referenceId := Some (pa_id action);
                       we_createdAt := dp_createdAt payload |} ]
                else []) in
          set_wallet next
            {| points := points (wallet next) + pointsAwarded;
               history := entries ++ history (wallet next) |}
        else next in
      let next := appendFraudAlerts env next (pa_id action) fraudFlags disposeMessages in
      addLog env next
        (if verified then
           "Disposal " ++ pa_id action ++ " verified. " ++ toString pointsAwarded
                       ++ " points credited."
         else
           "Disposal " ++ pa_id action ++ " rejected. "
                       ++ default "Validation failed." (d_rejectionReason disposal))
  end.

Definition applyReportIssue (env : Env) (state : AppState) (action : PendingAction)
    (payload : ReportIssuePayload) : AppState :=
  let location := ri_location payload in
  let imgHash := imageHash (ri_photoUri payload) in
  let duplicate := isDuplicateImage (usedImageHashes state) imgHash in
  let anomaly :=
    isLocationAnomaly M (lastActionByUser state !! ri_userId payload)
      (ls_location location) (ri_createdAt payload) in
  let fraudFlags :=
    pushIf (PrimFloat.ltb MAX_LOCATION_AGE_SECONDS (ls_ageSeconds location))
      timestamp_invalid
      (pushIf (PrimFloat.ltb MAX_ALLOWED_ACCURACY_METERS (ls_accuracyMeters location))
        location_accuracy_failure
        (pushIf (ls_isMocked location) mock_location_detected
          (pushIf anomaly location_anomaly
            (pushIf duplicate duplicate_image [])))) in
  let complaint := {|
    c_id := pa_id action;
    c_userId := ri_userId payload;
    c_category := ri_category payload;
    c_description := ri_description payload;
    c_photoUri := ri_photoUri payload;
    c_imageHash := imgHash;
    c_location := ls_location location;
    c_createdAt := ri_createdAt payload;
    c_status := complaint_open;
    c_reportFraudFlags := fraudFlags;
    c_cleanupProof := None;
    c_resolvedAt := None;
    c_verification := None
  |} in
  let next :=
    set_lastActionByUser
      (set_usedImageHashes
        (set_complaints state (complaint :: complaints state))
        (if duplicate then usedImageHashes state
         else imgHash :: usedImageHashes state))
      (<[ri_userId payload := toUserSnapshot location]> (lastActionByUser state)) in
  let next := appendFraudAlerts env next (pa_id action) fraudFlags reportMessages in
  addLog env next
    ("Complaint " ++ pa_id action ++ " submitted with geo-tag evidence.").

Definition applyReportBinFull (env : Env) (state : AppState)
    (payload : ReportBinFullPayload) : AppState :=
  let next :=
    set_bins state
      (map (fun item =>
              if String.eqb (bin_id item) (bf_binId payload)
              then {| bin_id := bin_id item; bin_name := bin_name item;
                      bin_qrCodeId := bin_qrCodeId item;
                      bin_ward := bin_ward item;
                      bin_location := bin_location item;
                      bin_status := reported_full;
                      bin_lastUsedAt := bin_lastUsedAt item;
                      bin_createdAt := bin_createdAt item |}
              else item)
           (bins state)) in
  addLog env next ("Bin " ++ bf_binId payload ++ " marked as reported full.").

Definition applySubmitCleanup (env : Env) (state : AppState) (action : PendingAction)
    (payload : SubmitCleanupPayload) : AppState :=
  let notFound :=
    addLog env state ("Cleanup " ++ pa_id action ++ " failed. Complaint not found.") in
  match findIndex (fun item => String.eqb (c_id item) (sc_complaintId payload))
                  (complaints state) with
  | None => notFound
  | Some complaintIndex =>
      match complaints state !! complaintIndex with
      | None => notFound
      | Some complaint =>
          let location := sc_location payload in
          let distance :=
            distanceMeters M (ls_location location) (c_location complaint) in
          let geoOk :=
            PrimFloat.leb distance 10
            && PrimFloat.leb (ls_accuracyMeters location) MAX_ALLOWED_ACCURACY_METERS
            && PrimFloat.leb (ls_ageSeconds location) MAX_LOCATION_AGE_SECONDS
            && negb (ls_isMocked location) in
          let imgHash := imageHash (sc_photoUri payload) in
          let duplicate := isDuplicateImage (usedImageHashes state) imgHash in
          let beforeAfterMismatch :=
            negb (validateCleanupConsistency (c_photoUri complaint) (sc_photoUri payload)) in
          let fraudFlags :=
            pushIf (PrimFloat.ltb MAX_LOCATION_AGE_SECONDS (ls_ageSeconds location))
              timestamp_invalid
              (pushIf (PrimFloat.ltb MAX_ALLOWED_ACCURACY_METERS
                         (ls_accuracyMeters location))
                location_accuracy_failure
                (pushIf (ls_isMocked location) mock_location_detected
                  (pushIf beforeAfterMismatch before_after_mismatch
                    (pushIf duplicate duplicate_image
                      (pushIf (negb geoOk) geo_fence_failure []))))) in
          let proof := {|
            cp_id := pa_id action;
            cp_submittedBy := sc_userId payload;
            cp_photoUri := sc_photoUri payload;
            cp_imageHash := imgHash;
            cp_location := ls_location location;
            cp_accuracyMeters := ls_accuracyMeters location;
            cp_createdAt := sc_createdAt payload;
            cp_watermark := {| wm_createdAt := sc_createdAt payload;
                               wm_location := ls_location location;
                               wm_complaintId := sc_complaintId payload |};
            cp_distanceFromComplaintMeters := distance;
            cp_aiCleanVerified := negb beforeAfterMismatch;
            cp_fraudFlags := fraudFlags
          |} in
          let updated :=
            <[complaintIndex :=
                {| c_id := c_id complaint;
                   c_userId := c_userId complaint;
                   c_category := c_category complaint;
                   c_description := c_description complaint;
                   c_photoUri := c_photoUri complaint;
                   c_imageHash := c_imageHash complaint;
                   c_location := c_location complaint;
                   c_createdAt := c_createdAt complaint;
                   c_status := if geoOk then complaint_in_progress
                               else c_status complaint;
                   c_reportFraudFlags := c_reportFraudFlags complaint;
                   c_cleanupProof := Some proof;
                   c_resolvedAt := c_resolvedAt complaint;
                   c_verification := c_verification complaint |}]>
              (complaints state) in
          let next :=
            set_lastActionByUser
              (set_usedImageHashes
                (set_complaints state updated)
                (if duplicate then usedImageHashes state
                 else imgHash :: usedImageHashes state))
              (<[sc_userId payload := toUserSnapshot location]>
                 (lastActionByUser state)) in
          let next :=
            appendFraudAlerts env next (pa_id action) fraudFlags cleanupMessages in
          addLog env next
            (if geoOk then "Cleanup proof submitted for " ++ sc_complaintId payload ++ "."
             else "Cleanup proof rejected for " ++ sc_complaintId payload ++ ".")
      end
  end.

Definition applyVerifyCleanup (env : Env) (state : AppState) (action : PendingAction)
    (payload : VerifyCleanupPayload) : AppState :=
  let notFound :=
    addLog env state
      ("Verification " ++ pa_id action ++ " failed. Complaint not found.") in
  match findIndex (fun item => String.eqb (c_id item) (vc_complaintId payload))
                  (complaints state) with
  | None => notFound
  | Some complaintIndex =>
      match complaints state !! complaintIndex with
      | None => notFound
      | Some complaint =>
          let nextComplaints :=
            <[complaintIndex :=
                {| c_id := c_id complaint;
                   c_userId := c_userId complaint;
                   c_category := c_category complaint;
                   c_description := c_description complaint;
                   c_photoUri := c_photoUri complaint;
                   c_imageHash := c_imageHash complaint;
                   c_location := c_location complaint;
                   c_createdAt := c_createdAt complaint;
                   c_status := if vc_accepted payload then complaint_resolved
                               else complaint_open;
                   c_reportFraudFlags := c_reportFraudFlags complaint;
                   c_cleanupProof := c_cleanupProof complaint;
                   c_resolvedAt := if vc_accepted payload
                                   then Some (vc_createdAt payload) else None;
                   c_verification :=
                     Some {| v_accepted := vc_accepted payload;
                             v_notes := vc_notes payload;
                             v_verifiedBy := vc_verifiedBy payload;
                             v_verifiedAt := vc_createdAt payload |} |}]>
              (complaints state) in
          addLog env (set_complaints state nextComplaints)
            (if vc_accepted payload
             then "Complaint " ++ vc_complaintId payload ++ " resolved."
             else "Complaint " ++ vc_complaintId payload ++ " reopened.")
      end
  end.

Definition applyRedeemReward (env : Env) (state : AppState) (action : PendingAction)
    (payload : RedeemRewardPayload) : AppState :=
  if points (wallet state) <? rd_pointsRequired payload then
    addLog env state "Redemption blocked: insufficient points."
  else
    let expiresAt := Date_now env + 14 * 24 * 60 * 60 * 1000 in
    let redemption := {|
      rr_id := pa_id action;
      rr_rewardId := rd_rewardId payload;
      rr_rewardTitle := rd_rewardTitle payload;
      rr_couponCode := createCouponCode env 0;
      rr_pointsUsed := rd_pointsRequired payload;
      rr_status := active;
      rr_createdAt := rd_createdAt payload;
      rr_expiresAt := expiresAt
    |} in
    let walletEntry := {|
      we_id := makeId env 2 "wallet";
      we_type := redeem;
      we_points := rd_pointsRequired payload;
      we_reason := "Redeemed " ++ rd_rewardTitle payload;
      we_source := coupon_redemption;
      we_referenceId := Some (pa_id action);
      we_createdAt := rd_createdAt payload
    |} in
    addLog env
      (set_wallet
        (set_redemptions state (redemption :: redemptions state))
        {| points := points (wallet state) - rd_pointsRequired payload;
           history := walletEntry :: history (wallet state) |})
      ("Redeemed " ++ rd_rewardTitle payload ++ ". Coupon generated.").

Definition applyAction (env : Env) (state : AppState) (action : PendingAction)
  : AppState :=
  match pa_payload action with
  | dispose payload => applyDispose env state action payload
  | report_issue payload => applyReportIssue env state action payload
  | report_bin_full payload => applyReportBinFull env state payload
  | submit_cleanup payload => applySubmitCleanup env state action payload
  | verify_cleanup payload => applyVerifyCleanup env state action payload
  | redeem_reward payload => applyRedeemReward env state action payload
  end.

(** *** The other updates of the application state in App.tsx *)

Definition queueAction (env : Env) (state : AppState) (action : PendingAction)
  : AppState :=
  addLog env
    (set_pendingActions state (pendingActions state ++ [action]))
    ("Queued " ++ pa_type action ++ " for offline sync.").

Definition serverGeoAlert (env : Env) (state : AppState) (actionId : string)
  : AppState :=
  addLog env
    (set_fraudAlerts state
       (makeFraudAlert geo_fence_failure actionId
          "Server-side geovalidation failed." severity_high (Date_now env) 70
        :: fraudAlerts state))
    "Server-side geovalidation flagged this disposal.".

Definition markFraudReviewed (state : AppState) (alertId : string) : AppState :=
  set_fraudAlerts state
    (map (fun item =>
            if String.eqb (fa_id item) alertId
            then {| fa_id := fa_id item; fa_type := fa_type item;
                    fa_severity := fa_severity item;
                    fa_message := fa_message item;
                    fa_actionId := fa_actionId item;
                    fa_riskScore := fa_riskScore item;
                    fa_status := alert_reviewed;
                    fa_createdAt := fa_createdAt item |}
            else item)
         (fraudAlerts state)).

Definition switchOnline (env : Env) (state : AppState) (value : bool) : AppState :=
  addLog env (set_isOnline state value)
    (if value then "Switched to online mode." else "Switched to offline mode.").

(** One update of the application state: every [setAppState] of App.tsx
    (a state read back from storage is one that an earlier session wrote). *)
Inductive step (loadedAt : Z) : AppState -> AppState -> Prop :=
  | step_apply env s a : step loadedAt s (applyAction env s a)
  | step_queue env s a : step loadedAt s (queueAction env s a)
  | step_flush s : step loadedAt s (set_pendingActions s [])
  | step_bins s fetched : step loadedAt s (set_bins s fetched)
  | step_server env s actionId : step loadedAt s (serverGeoAlert env s actionId)
  | step_review s alertId : step loadedAt s (markFraudReviewed s alertId)
  | step_online env s value : step loadedAt s (switchOnline env s value)
  | step_signOut s : step loadedAt s (DEFAULT_STATE loadedAt).

Definition reachable (loadedAt : Z) (s : AppState) : Prop :=
  rtc (step loadedAt) (DEFAULT_STATE loadedAt) s.

End Transition.

(* ================================================================== *)
(** ** Vocabulary of the properties *)
(* ================================================================== *)

(** The sum of the weights of a list of flags. *)
Definition weightSum (types : list FraudAlertType) : Z :=
  foldr Z.add 0 (TYPE_SCORE <$> types).

(** The bin a disposal of bin id [binId] is checked against. *)
Definition resolveBin (state : AppState) (binId : string) : option Bin :=
  List.find (fun item => String.eqb (bin_id item) binId) (bins state).

(** The user already has a verified disposal in the state. *)
Definition hasVerifiedDisposal (state : AppState) (userId : string) : Prop :=
  exists d, In d (disposals state) /\ d_userId d = userId /\ d_verified d = true.

(** Milliseconds in the cooldown window and in the validity of a coupon. *)
Definition cooldownMillis : Z := 7200000.
Definition couponValidityMillis : Z := 1209600000.

(** Some recorded disposal of the user at the bin was created strictly
    after [since]. *)
Definition disposedSince (state : AppState) (userId binId : string) (since : Z)
  : Prop :=
  exists d, In d (disposals state)
            /\ d_userId d = userId /\ d_binId d = binId /\ since < d_createdAt d.

(** The ledger read as a balance: entries count with the sign of their type. *)
Definition signedPoints (e : WalletEntry) : Z :=
  match we_type e with
  | earn => we_points e
  | redeem => - we_points e
  end.

Definition ledgerBalance (entries : list WalletEntry) : Z :=
  foldr (fun e acc => acc + signedPoints e) 0 entries.

Definition pointsOfType (t : WalletEntryType) (entries : list WalletEntry) : Z :=
  foldr (fun e acc =>
           match t, we_type e with
           | earn, earn | redeem, redeem => we_points e + acc
           | _, _ => acc
           end) 0 entries.

(** The balance of the wallet is the balance of its ledger. *)
Definition walletConsistent (w : WalletState) : Prop :=
  points w = ledgerBalance (history w).

(** What an alert made for the action [actionId], whose flags are
    [types], carries: the sum of the weights of all the flags, and the
    status that goes with that sum. *)
Definition sharesScore (actionId : string) (types : list FraudAlertType)
    (al : FraudAlert) : Prop :=
  fa_actionId al = actionId
  /\ fa_riskScore al = weightSum types
  /\ (fa_status al = alert_blocked <-> 80 <= weightSum types)
  /\ (fa_status al = alert_open <-> weightSum types < 80).

(** The photo an action submits, if it submits one. *)
Definition submittedPhoto (a : PendingAction) : option string :=
  match pa_payload a with
  | dispose p => Some (dp_photoUri p)
  | report_issue p => Some (ri_photoUri p)
  | submit_cleanup p => Some (sc_photoUri p)
  | _ => None
  end.

(** The bin of a disposal, or the complaint of a cleanup, is in the state. *)
Definition targetFound (state : AppState) (a : PendingAction) : Prop :=
  match pa_payload a with
  | dispose p => exists bin, In bin (bins state) /\ bin_id bin = dp_binId p
  | submit_cleanup p =>
      exists c, In c (complaints state) /\ c_id c = sc_complaintId p
  | _ => True
  end.

(** The flags recorded in [state'] for the action [a] applied to [state]:
    those of the new disposal, of the new complaint, or of the proof
    attached to the complaint. *)
Definition recordedFlags (state state' : AppState) (a : PendingAction)
    (types : list FraudAlertType) : Prop :=
  match pa_payload a with
  | dispose p =>
      match resolveBin state (dp_binId p) with
      | Some _ =>
          exists d, disposals state' = d :: disposals state
                    /\ d_id d = pa_id a /\ d_fraudFlags d = types
      | None => types = []
      end
  | report_issue p =>
      exists c, complaints state' = c :: complaints state
                /\ c_id c = pa_id a /\ c_reportFraudFlags c = types
  | submit_cleanup p =>
      match findIndex (fun item => String.eqb (c_id item) (sc_complaintId p))
                      (complaints state) with
      | Some i =>
          exists c proof, complaints state' !! i = Some c
                          /\ c_cleanupProof c = Some proof
                          /\ cp_id proof = pa_id a /\ cp_fraudFlags proof = types
      | None => types = []
      end
  | _ => types = []
  end.

(* ================================================================== *)
(** ** Sample data: the scenarios of the specification *)
(* ================================================================== *)

(** 2023-11-14T22:13:20Z, and durations in milliseconds. *)
Definition T0 : Z := 1700000000000.
Definition oneHour : Z := 3600000.

Definition sampleEnv (now : Z) : Env :=
  {| Date_now := now;
     localeTime := "10:15:00 PM";
     random36 := fun k =>
       "0." ++ toStringRadix 36 (48271 * Z.of_nat (S k) + 11) ++ "k3j9x2" |}.

(** A fix taken at bin B1 (9.9166, 78.1194): accuracy 2 m, age 1 s. *)
Definition atBinOne (takenAt : Z) : LocationSnapshot :=
  {| ls_location := {| latitude := 9.9166; longitude := 78.1194 |};
     ls_accuracyMeters := 2;
     ls_timestamp := takenAt;
     ls_ageSeconds := 1;
     ls_isMocked := false;
     ls_strength := strong |}.

Definition disposePayload (qr photo : string) (size : WasteSizeClass)
    (createdAt : Z) : DisposePayload :=
  {| dp_binId := "bin-001"; dp_qrCodeId := qr; dp_photoUri := photo;
     dp_wasteSize := size; dp_location := atBinOne (createdAt - 1000);
     dp_userId := "demo-user-001"; dp_createdAt := createdAt |}.

Definition disposeAction (id qr photo : string) (size : WasteSizeClass)
    (createdAt : Z) : PendingAction :=
  {| pa_id := id;
     pa_createdAt := createdAt;
     pa_payload := dispose (disposePayload qr photo size createdAt) |}.

Definition redeemPayload (required : Z) (createdAt : Z) : RedeemRewardPayload :=
  {| rd_rewardId := "MOBILE_RECHARGE_25";
     rd_rewardTitle := "INR25 Mobile Recharge Coupon";
     rd_pointsRequired := required;
     rd_createdAt := createdAt |}.

Definition redeemAction (id : string) (required : Z) (createdAt : Z) : PendingAction :=
  {| pa_id := id;
     pa_createdAt := createdAt;
     pa_payload := redeem_reward (redeemPayload required createdAt) |}.

Definition binOne : Bin :=
  mkBin "bin-001" "MMC-BIN-001" "Periyar Bus Stand Bin Hub" "Ward 12"
    9.9166 78.1194 0.

(** First disposal at B1, applied when created. *)
Definition firstDisposal : PendingAction :=
  disposeAction "dispose-a1" "MMC-BIN-001" "file:///data/photo-001.jpg" medium T0.

Definition afterFirst : AppState :=
  applyAction smallAngleMath (sampleEnv T0) (DEFAULT_STATE 0) firstDisposal.

(** A second disposal at B1 created one hour later, while offline, and
    applied from the queue five hours after the first. *)
Definition queuedDisposal : PendingAction :=
  disposeAction "dispose-a2" "MMC-BIN-001" "file:///data/photo-002.jpg" medium
    (T0 + oneHour).

Definition afterReplay : AppState :=
  applyAction smallAngleMath (sampleEnv (T0 + 5 * oneHour)) afterFirst queuedDisposal.

(** The same second disposal applied when created. *)
Definition afterSecond : AppState :=
  applyAction smallAngleMath (sampleEnv (T0 + oneHour)) afterFirst queuedDisposal.

(** A wrong QR code with an already used photo, one second after the first. *)
Definition wrongQrDisposal : PendingAction :=
  disposeAction "dispose-a3" "WRONG-CODE" "file:///data/photo-001.jpg" medium
    (T0 + 1000).

(** On the initial state: a disposal rejected for its QR code, then one
    with the right code and a fresh photo a second later. *)
Definition afterRejected : AppState :=
  applyAction smallAngleMath (sampleEnv T0) (DEFAULT_STATE 0)
    (disposeAction "dispose-r1" "WRONG-CODE" "file:///data/photo-001.jpg" medium T0).

Definition afterRejectedThenGood : AppState :=
  applyAction smallAngleMath (sampleEnv (T0 + 1000)) afterRejected
    (disposeAction "dispose-r2" "MMC-BIN-001" "file:///data/photo-002.jpg" medium
       (T0 + 1000)).

(** The bins as fetched from the backend, under other ids. *)
Definition backendBins : list Bin :=
  [ mkBin "7f1c2a90" "MMC-BIN-001" "Periyar Bus Stand Bin Hub" "Ward" 9.9166 78.1194 0 ].

Definition afterBinsFetched : AppState := set_bins (DEFAULT_STATE 0) backendBins.

(** A wallet of 70 points: the first disposal (10 + 50) and a third one,
    three hours later, with a fresh photo (10). *)
Definition thirdDisposal : PendingAction :=
  disposeAction "dispose-a4" "MMC-BIN-001" "file:///data/photo-004.jpg" medium
    (T0 + 3 * oneHour).

Definition walletOfSeventy : AppState :=
  applyAction smallAngleMath (sampleEnv (T0 + 3 * oneHour)) afterFirst thirdDisposal.

Definition redeemFifty : PendingAction := redeemAction "redeem-b1" 50 (T0 + 4 * oneHour).
Definition redeemHundred : PendingAction := redeemAction "redeem-b2" 100 (T0 + 4 * oneHour).

Definition afterRedeem : AppState :=
  applyAction smallAngleMath (sampleEnv (T0 + 4 * oneHour)) walletOfSeventy redeemFifty.

(** Bin B1 reported full, then a disposal there that passes every check. *)
Definition binOneFull : AppState :=
  applyAction smallAngleMath (sampleEnv T0) (DEFAULT_STATE 0)
    {| pa_id := "binfull-c1"; pa_createdAt := T0;
       pa_payload :=
         report_bin_full {| bf_binId := "bin-001";
                            bf_reason := "User reported full bin from disposal flow." |} |}.

(** A fix of accuracy 25 m, just taken. *)
Definition coarsePosition : Position :=
  {| pos_latitude := 9.9166; pos_longitude := 78.1194;
     pos_accuracy := Some 25%float; pos_mocked := None;
     pos_timestamp := Some (T0 - 1000) |}.

(** A fix of accuracy 5 m taken one minute before it is read. *)
Definition stalePosition : Position :=
  {| pos_latitude := 9.9166; pos_longitude := 78.1194;
     pos_accuracy := Some 5%float; pos_mocked := Some false;
     pos_timestamp := Some (T0 - 60000) |}.

(** The redemption of 50 points created at the fourth hour, while offline,
    and applied from the queue at the ninth hour. *)
Definition afterReplayedRedeem : AppState :=
  applyAction smallAngleMath (sampleEnv (T0 + 9 * oneHour)) walletOfSeventy redeemFifty.

(** A disposal at B1 under a wrong QR code with a fix of accuracy 25 m,
    and the alert that the server-side revalidation adds for it. *)
Definition coarseWrongQrPayload : DisposePayload :=
  {| dp_binId := "bin-001"; dp_qrCodeId := "WRONG-CODE";
     dp_photoUri := "file:///data/photo-001.jpg"; dp_wasteSize := medium;
     dp_location :=
       {| ls_location := ls_location (atBinOne (T0 - 1000));
          ls_accuracyMeters := 25; ls_timestamp := T0 - 1000;
          ls_ageSeconds := 1; ls_isMocked := false; ls_strength := weak |};
     dp_userId := "demo-user-001"; dp_createdAt := T0 |}.

Definition coarseWrongQr : PendingAction :=
  {| pa_id := "dispose-g1"; pa_createdAt := T0;
     pa_payload := dispose coarseWrongQrPayload |}.

Definition afterCoarseWrongQr : AppState :=
  applyAction smallAngleMath (sampleEnv T0) (DEFAULT_STATE 0) coarseWrongQr.

Definition afterServerAlert : AppState :=
  serverGeoAlert (sampleEnv (T0 + 2000)) afterCoarseWrongQr "dispose-g1".



(* ================================================================== *)
(** ** Vocabulary of the further properties *)
(* ================================================================== *)

(** The specification of the comparisons of binary64 values. *)
From Stdlib Require Floats.

(** The points awarded by a list of disposals, and the points used by a
    list of redemptions. *)
Definition totalAwarded (ds : list DisposalRecord) : Z :=
  foldr (fun d acc => d_pointsAwarded d + acc) 0 ds.

Definition totalUsed (rs : list RedemptionRecord) : Z :=
  foldr (fun r acc => rr_pointsUsed r + acc) 0 rs.

(** Actions applied one after the other, each with its own readings of
    the clock. *)
Definition applyAll (M : MathLib) (state : AppState)
    (steps : list (Env * PendingAction)) : AppState :=
  fold_left (fun s step => applyAction M (fst step) s (snd step)) steps state.

(** Every image hash recorded in the state (on a disposal, on a complaint,
    on the cleanup proof of a complaint) is among the used hashes. *)
Definition hashesTracked (state : AppState) : Prop :=
  (forall d, In d (disposals state) -> In (d_imageHash d) (usedImageHashes state))
  /\ (forall c, In c (complaints state) ->
        In (c_imageHash c) (usedImageHashes state)
        /\ forall proof, c_cleanupProof c = Some proof ->
                         In (cp_imageHash proof) (usedImageHashes state)).

(** The image hashes of the verified disposals, newest first. *)
Definition verifiedHashes (ds : list DisposalRecord) : list string :=
  map d_imageHash (List.filter d_verified ds).

(** The status of an alert agrees with its risk score. *)
Definition alertConsistent (al : FraudAlert) : Prop :=
  (fa_status al = alert_blocked -> 80 <= fa_riskScore al)
  /\ (fa_status al = alert_open -> fa_riskScore al < 80).

(** What a disposal record says about itself: a verified one passed every
    check, carries no flag and no rejection reason, and awards the regular
    points of its waste size, with or without the bonus of 50; a rejected
    one awards nothing and carries a rejection reason. *)
Definition recordExplained (d : DisposalRecord) : Prop :=
  (d_verified d = true ->
     d_qrVerified d = true /\ d_geoVerified d = true /\ d_aiVerified d = true
     /\ d_fraudFlags d = [] /\ d_rejectionReason d = None
     /\ (d_pointsAwarded d = REGULAR_REWARD_POINTS (d_wasteSize d)
         \/ d_pointsAwarded d = REGULAR_REWARD_POINTS (d_wasteSize d) + 50))
  /\ (d_verified d = false ->
      d_pointsAwarded d = 0 /\ d_rejectionReason d <> None).

(** The life cycle of a complaint as its fields record it: a resolved
    complaint has a resolution time, a resolution time is the time of an
    accepting verification, and no complaint is ever assigned. *)
Definition complaintConsistent (c : Complaint) : Prop :=
  (c_status c = complaint_resolved -> c_resolvedAt c <> None)
  /\ (forall t, c_resolvedAt c = Some t ->
        exists v, c_verification c = Some v
                  /\ v_accepted v = true /\ v_verifiedAt v = t)
  /\ c_status c <> complaint_assigned.

(** The fraud flags of a disposal record agree with its check results:
    no flag twice, the QR and geo-fence flags exactly when the check
    failed, a geo-fence flag beside every flag on the quality of the fix,
    and never the flag of the cleanup comparison. *)
Definition flagsExplained (d : DisposalRecord) : Prop :=
  List.NoDup (d_fraudFlags d)
  /\ (In qr_mismatch (d_fraudFlags d) <-> d_qrVerified d = false)
  /\ (In geo_fence_failure (d_fraudFlags d) <-> d_geoVerified d = false)
  /\ (In mock_location_detected (d_fraudFlags d)
      \/ In location_accuracy_failure (d_fraudFlags d)
      \/ In timestamp_invalid (d_fraudFlags d) ->
      In geo_fence_failure (d_fraudFlags d))
  /\ ~ In before_after_mismatch (d_fraudFlags d).

(** The photo's hash is the hash of a recorded disposal, complaint or
    cleanup proof. *)
Definition photoRecorded (state : AppState) (photoUri : string) : Prop :=
  (exists d, In d (disposals state) /\ d_imageHash d = imageHash photoUri)
  \/ (exists c, In c (complaints state)
                /\ (c_imageHash c = imageHash photoUri
                    \/ exists proof, c_cleanupProof c = Some proof
                                     /\ cp_imageHash proof = imageHash photoUri)).

(** The action is dropped: its bin or complaint is not in the state, or
    the balance does not cover the reward. *)
Definition dropped (state : AppState) (a : PendingAction) : Prop :=
  match pa_payload a with
  | dispose p => resolveBin state (dp_binId p) = None
  | submit_cleanup p =>
      forall c, In c (complaints state) -> c_id c <> sc_complaintId p
  | verify_cleanup p =>
      forall c, In c (complaints state) -> c_id c <> vc_complaintId p
  | redeem_reward p => points (wallet state) < rd_pointsRequired p
  | report_issue _ | report_bin_full _ => False
  end.

(** Two states that differ at most in the log and in the offline queue. *)
Definition sameRecords (s s' : AppState) : Prop :=
  bins s = bins s' /\ disposals s = disposals s' /\ complaints s = complaints s'
  /\ wallet s = wallet s' /\ redemptions s = redemptions s'
  /\ fraudAlerts s = fraudAlerts s' /\ usedImageHashes s = usedImageHashes s'
  /\ lastActionByUser s = lastActionByUser s' /\ isOnline s = isOnline s'.

(** *** A complaint from its report to its resolution *)

Definition reportAction : PendingAction :=
  {| pa_id := "complaint-e1"; pa_createdAt := T0;
     pa_payload :=
       report_issue {| ri_category := overflowing_bin;
                       ri_description := "Bin overflowing at the bus stand";
                       ri_photoUri := "file:///data/before-001.jpg";
                       ri_location := atBinOne (T0 - 1000);
                       ri_userId := "demo-user-001";
                       ri_createdAt := T0 |} |}.

Definition afterReport : AppState :=
  applyAction smallAngleMath (sampleEnv T0) (DEFAULT_STATE 0) reportAction.

Definition cleanupAction (photo : string) : PendingAction :=
  {| pa_id := "cleanup-e2"; pa_createdAt := T0 + oneHour;
     pa_payload :=
       submit_cleanup {| sc_complaintId := "complaint-e1";
                         sc_photoUri := photo;
                         sc_location := atBinOne (T0 + oneHour - 1000);
                         sc_userId := "demo-worker-001";
                         sc_createdAt := T0 + oneHour |} |}.

Definition afterCleanup : AppState :=
  applyAction smallAngleMath (sampleEnv (T0 + oneHour)) afterReport
    (cleanupAction "file:///data/after-001.jpg").

Definition verifyAction (accepted : bool) : PendingAction :=
  {| pa_id := "verify-e3"; pa_createdAt := T0 + 2 * oneHour;
     pa_payload :=
       verify_cleanup {| vc_complaintId := "complaint-e1";
                         vc_accepted := accepted;
                         vc_notes := None;
                         vc_verifiedBy := "demo-admin-001";
                         vc_createdAt := T0 + 2 * oneHour |} |}.

Definition afterResolved : AppState :=
  applyAction smallAngleMath (sampleEnv (T0 + 2 * oneHour)) afterCleanup
    (verifyAction true).

(** Bin B1 after the first disposal. *)
Definition binOneUsed : Bin :=
  {| bin_id := bin_id binOne; bin_name := bin_name binOne;
     bin_qrCodeId := bin_qrCodeId binOne; bin_ward := bin_ward binOne;
     bin_location := bin_location binOne; bin_status := bin_status binOne;
     bin_lastUsedAt := Some T0; bin_createdAt := bin_createdAt binOne |}.



(** The complaint that the report files. *)
Definition reportedComplaint : Complaint :=
  {| c_id := "complaint-e1";
     c_userId := "demo-user-001";
     c_category := overflowing_bin;
     c_description := "Bin overflowing at the bus stand";
     c_photoUri := "file:///data/before-001.jpg";
     c_imageHash := imageHash "file:///data/before-001.jpg";
     c_location := ls_location (atBinOne (T0 - 1000));
     c_createdAt := T0;
     c_status := complaint_open;
     c_reportFraudFlags := [];
     c_cleanupProof := None;
     c_resolvedAt := None;
     c_verification := None |}.

(** The records of [s'] extend those of [s]: the lists of disposals,
    redemptions, ledger entries, alerts and used hashes of [s] are the
    tails of those of [s'], the complaints of [s] are still there in their
    places, and the bins are the same ones in the same order. *)
Definition recordsExtend (s s' : AppState) : Prop :=
  disposals s `suffix_of` disposals s'
  /\ redemptions s `suffix_of` redemptions s'
  /\ history (wallet s) `suffix_of` history (wallet s')
  /\ fraudAlerts s `suffix_of` fraudAlerts s'
  /\ usedImageHashes s `suffix_of` usedImageHashes s'
  /\ map c_id (complaints s) `suffix_of` map c_id (complaints s')
  /\ map bin_id (bins s') = map bin_id (bins s).

(** The bin that a disposal of bin id [binId] is checked against, if there
    is one, is reported full. *)
Definition binFull (state : AppState) (binId : string) : Prop :=
  forall bin, resolveBin state binId = Some bin -> bin_status bin = reported_full.

(** A fix of accuracy 2 m at bin B1, taken one second before it is read. *)
Definition goodPosition : Position :=
  {| pos_latitude := 9.9166; pos_longitude := 78.1194;
     pos_accuracy := Some 2%float; pos_mocked := Some false;
     pos_timestamp := Some (T0 - 1000) |}.

(* ================================================================== *)
(** ** services/backend.ts: the next available bin and the fallback of the
       server-side geo validation *)
(* ================================================================== *)

Section Backend.
Variable M : MathLib.

(** [Array.prototype.sort] with a comparator.  ECMAScript leaves the
    order to the engine wherever the comparator is not consistent (a NaN
    distance); the result is a rearrangement of the array. *)
Variable Array_sort : forall A : Type, (A -> A -> float) -> list A -> list A.

Definition suggestNextAvailableBin (bins : list Bin) (currentBinId : string)
    (origin : option Coordinates) : option Bin :=
  let candidates :=
    List.filter
      (fun item =>
         negb (String.eqb (bin_id item) currentBinId)
         && BinStatus_eqb (bin_status item) available)
      bins in
  if (List.length candidates =? 0)%nat then None
  else
    match origin with
    | None => head candidates
    | Some origin =>
        option_map fst
          (head
             (Array_sort _
                (fun left right => PrimFloat.sub (snd left) (snd right))
                (map (fun item => (item, distanceMeters M (bin_location item) origin))
                     candidates)))
    end.

Record GeoValidationPayload : Type := {
  gv_binLocation : Coordinates;
  gv_userLocation : Coordinates;
  gv_allowedRadiusMeters : float;
  gv_accuracyMeters : float;
  gv_locationAgeSeconds : float
}.

(** The body of the reply of the edge function as the client reads it:
    [Boolean(data.valid)] and [data.distance_meters], if any. *)
Record GeoValidationReply : Type := {
  gr_valid : bool;
  gr_distance_meters : option float
}.

(** [validateGeoOnServer].  [invoke] is [None] without a Supabase client;
    with one, it gives [None] when the call fails or carries no data. *)
Definition validateGeoOnServer
    (invoke : option (GeoValidationPayload -> option GeoValidationReply))
    (payload : GeoValidationPayload) : bool * float :=
  let fallbackDistance :=
    distanceMeters M (gv_userLocation payload) (gv_binLocation payload) in
  let fallbackValid :=
    PrimFloat.leb (gv_accuracyMeters payload) 10
    && PrimFloat.leb (gv_locationAgeSeconds payload) 30
    && PrimFloat.leb fallbackDistance (gv_allowedRadiusMeters payload) in
  match invoke with
  | None => (fallbackValid, fallbackDistance)
  | Some call =>
      match call payload with
      | None => (fallbackValid, fallbackDistance)
      | Some data =>
          (gr_valid data, default fallbackDistance (gr_distance_meters data))
      end
  end.

End Backend.

(** A stable insertion sort, to run the model of [sort]. *)
Fixpoint insertBy {A : Type} (compare : A -> A -> float) (x : A) (l : list A)
  : list A :=
  match l with
  | [] => [x]
  | y :: l' =>
      if PrimFloat.ltb 0 (compare x y) then y :: insertBy compare x l'
      else x :: y :: l'
  end.

Definition insertionSort (A : Type) (compare : A -> A -> float) (l : list A)
  : list A :=
  foldr (insertBy compare) [] l.

(** The request that [syncActionToBackend] sends for a disposal, with the
    bin as the state after the disposal has it. *)
Definition revalidationPayload (d : DisposalRecord) (bin : Bin)
  : GeoValidationPayload :=
  {| gv_binLocation := bin_location bin;
     gv_userLocation := d_location d;
     gv_allowedRadiusMeters := 5;
     gv_accuracyMeters := d_accuracyMeters d;
     gv_locationAgeSeconds := 0 |}.

(** There is no Supabase client, or the call fails or carries no data. *)
Definition noReply
    (invoke : option (GeoValidationPayload -> option GeoValidationReply))
    (payload : GeoValidationPayload) : Prop :=
  match invoke with
  | None => True
  | Some call => call payload = None
  end.

(* ================================================================== *)
(** ** services/analytics.ts *)
(* ================================================================== *)

Record BinUsageRow : Type := {
  bu_binId : string;
  bu_name : string;
  bu_ward : string;
  bu_totalDisposals : nat;
  bu_verifiedDisposals : nat
}.

(** [AnalyticsSnapshot], without [verificationRate], [avgResolutionHours]
    and [hotspots], whose values are made by [toFixed] and [hotspotKey]. *)
Record AnalyticsSnapshot : Type := {
  an_totalDisposals : nat;
  an_totalComplaints : nat;
  an_verifiedDisposals : nat;
  an_openComplaints : nat;
  an_resolvedComplaints : nat;
  an_activeUsers : nat;
  an_totalRewardsDistributed : Z;
  an_totalRedemptions : nat;
  an_binUsage : list BinUsageRow
}.

Definition isResolved (item : Complaint) : bool :=
  match c_status item with complaint_resolved => true | _ => false end.

Definition isEarn (entry : WalletEntry) : bool :=
  match we_type entry with earn => true | redeem => false end.

Definition buildAnalytics
    (Array_sort : forall A : Type, (A -> A -> float) -> list A -> list A)
    (disposals : list DisposalRecord) (complaints : list Complaint)
    (bins : list Bin) (walletEntries : list WalletEntry)
    (redemptions : list RedemptionRecord) : AnalyticsSnapshot :=
  let binUsage :=
    Array_sort _
      (fun left right =>
         float_of_Z (Z.of_nat (bu_totalDisposals right)
                     - Z.of_nat (bu_totalDisposals left)))
      (map (fun bin =>
              let binDisposals :=
                List.filter (fun item => String.eqb (d_binId item) (bin_id bin))
                            disposals in
              {| bu_binId := bin_id bin;
                 bu_name := bin_name bin;
                 bu_ward := bin_ward bin;
                 bu_totalDisposals := List.length binDisposals;
                 bu_verifiedDisposals :=
                   List.length
                     (List.filter (fun item => d_aiVerified item && d_geoVerified item)
                                  binDisposals) |})
           bins) in
  let verifiedDisposals := List.length (List.filter d_verified disposals) in
  let totalDisposals := List.length disposals in
  let uniqueUsers :=
    remove_dups (map d_userId disposals ++ map c_userId complaints) in
  let totalRewardsDistributed :=
    fold_left (fun sum entry => sum + we_points entry)
              (List.filter isEarn walletEntries) 0 in
  {| an_totalDisposals := totalDisposals;
     an_totalComplaints := List.length complaints;
     an_verifiedDisposals := verifiedDisposals;
     an_openComplaints :=
       List.length (List.filter (fun item => negb (isResolved item)) complaints);
     an_resolvedComplaints := List.length (List.filter isResolved complaints);
     an_activeUsers := List.length uniqueUsers;
     an_totalRewardsDistributed := totalRewardsDistributed;
     an_totalRedemptions := List.length redemptions;
     an_binUsage := binUsage |}.

(** The analytics of a state, as App.tsx computes them. *)
Definition analyticsOf
    (Array_sort : forall A : Type, (A -> A -> float) -> list A -> list A)
    (state : AppState) : AnalyticsSnapshot :=
  buildAnalytics Array_sort (disposals state) (complaints state) (bins state)
    (history (wallet state)) (redemptions state).

(** What a row of the bin usage says about a bin of the state: its total
    is the number of disposals recorded at the bin, and its count of
    verified disposals lies between the number of verified disposals at
    the bin and that total. *)
Definition rowOfBin (state : AppState) (row : BinUsageRow) (bin : Bin) : Prop :=
  let atBin :=
    List.filter (fun item => String.eqb (d_binId item) (bin_id bin))
                (disposals state) in
  bu_binId row = bin_id bin
  /\ bu_totalDisposals row = List.length atBin
  /\ (List.length (List.filter d_verified atBin) <= bu_verifiedDisposals row)%nat
  /\ (bu_verifiedDisposals row <= bu_totalDisposals row)%nat
  /\ (bu_totalDisposals row <= List.length (disposals state))%nat.

(** *** The first-time bonus over the recorded disposals *)

(** The record is verified and awards the bonus beside the regular points. *)
Definition bonusPaid (d : DisposalRecord) : bool :=
  d_verified d
  && (d_pointsAwarded d
      =? REGULAR_REWARD_POINTS (d_wasteSize d) + FIRST_TIME_USER_BONUS_POINTS).

(** The user of [d] has a verified disposal among the earlier records. *)
Definition verifiedBefore (d : DisposalRecord) (earlier : list DisposalRecord)
  : Prop :=
  exists d', In d' earlier /\ d_userId d' = d_userId d /\ d_verified d' = true.

(** Along the records, newest first: a verified disposal carries the bonus
    exactly when its user has no verified disposal before it. *)
Fixpoint bonusRule (ds : list DisposalRecord) : Prop :=
  match ds with
  | [] => True
  | d :: earlier =>
      (d_verified d = true -> (bonusPaid d = true <-> ~ verifiedBefore d earlier))
      /\ bonusRule earlier
  end.

(* ================================================================== *)
(** ** Properties of the fraud rules (services/fraud.ts) *)
(* ================================================================== *)

Lemma fold_score_acc (types : list FraudAlertType) (acc : Z) :
  fold_left (fun sum item => sum + TYPE_SCORE item) types acc
  = acc + weightSum types.
Proof.
  revert acc. induction types as [|t types IH]; intros acc; cbn.
  - lia.
  - rewrite IH. unfold weightSum. cbn. lia.
Qed.

Lemma fraudRiskScore_sum (types : list FraudAlertType) :
  fraudRiskScore types = weightSum types.
Proof. unfold fraudRiskScore. rewrite fold_score_acc. lia. Qed.

Lemma fraudRiskScore_app (xs ys : list FraudAlertType) :
  fraudRiskScore (xs ++ ys) = fraudRiskScore xs + fraudRiskScore ys.
Proof.
  rewrite !fraudRiskScore_sum. unfold weightSum.
  induction xs as [|x xs IH]; cbn; [lia|]. cbn in IH. lia.
Qed.

Lemma makeFraudAlert_status type actionId message severity createdAt score :
  fa_status (makeFraudAlert type actionId message severity createdAt score)
  = if 80 <=? score then alert_blocked else alert_open.
Proof. reflexivity. Qed.

(** C3. The risk score of no flag is 0; the risk score of a list of flags
    is the sum of the fixed weights of its flags (40, 50, 45, 20, 50, 50,
    30, 20, 20), which is not capped at 100; and an alert built with
    score [s] is blocked exactly when [s >= 80], and open otherwise. *)
Theorem C3_risk_score_and_alert_status :
  fraudRiskScore [] = 0
  /\ (forall types, fraudRiskScore types = weightSum types)
  /\ (TYPE_SCORE duplicate_image = 40
      /\ TYPE_SCORE location_anomaly = 50
      /\ TYPE_SCORE before_after_mismatch = 45
      /\ TYPE_SCORE qr_mismatch = 20
      /\ TYPE_SCORE geo_fence_failure = 50
      /\ TYPE_SCORE mock_location_detected = 50
      /\ TYPE_SCORE cooldown_violation = 30
      /\ TYPE_SCORE location_accuracy_failure = 20
      /\ TYPE_SCORE timestamp_invalid = 20)
  /\ fraudRiskScore [geo_fence_failure; mock_location_detected; location_anomaly] = 150
  /\ (forall type actionId message severity createdAt s,
        let alert := makeFraudAlert type actionId message severity createdAt s in
        fa_riskScore alert = s
        /\ (fa_status alert = alert_blocked <-> 80 <= s)
        /\ (fa_status alert = alert_open <-> s < 80)).
Proof.
  split; [reflexivity|].
  split; [apply fraudRiskScore_sum|].
  split; [repeat split|].
  split; [reflexivity|].
  intros type actionId message severity createdAt s alert.
  subst alert. rewrite makeFraudAlert_status. cbn [fa_riskScore makeFraudAlert].
  split; [reflexivity|].
  destruct (Z.leb_spec 80 s); split; split; intros; (lia || discriminate || reflexivity).
Qed.

(* ================================================================== *)
(** ** Frame lemmas of the helpers *)
(* ================================================================== *)

Section Frames.
Variables (env : Env) (state : AppState) (actionId : string).
Variables (types : list FraudAlertType) (messages : FraudAlertType -> string).

Lemma wallet_appendFraudAlerts :
  wallet (appendFraudAlerts env state actionId types messages) = wallet state.
Proof. unfold appendFraudAlerts. destruct types; reflexivity. Qed.

Lemma disposals_appendFraudAlerts :
  disposals (appendFraudAlerts env state actionId types messages) = disposals state.
Proof. unfold appendFraudAlerts. destruct types; reflexivity. Qed.

Lemma complaints_appendFraudAlerts :
  complaints (appendFraudAlerts env state actionId types messages) = complaints state.
Proof. unfold appendFraudAlerts. destruct types; reflexivity. Qed.

Lemma redemptions_appendFraudAlerts :
  redemptions (appendFraudAlerts env state actionId types messages)
  = redemptions state.
Proof. unfold appendFraudAlerts. destruct types; reflexivity. Qed.

Lemma usedImageHashes_appendFraudAlerts :
  usedImageHashes (appendFraudAlerts env state actionId types messages)
  = usedImageHashes state.
Proof. unfold appendFraudAlerts. destruct types; reflexivity. Qed.

Lemma fraudAlerts_appendFraudAlerts :
  fraudAlerts (appendFraudAlerts env state actionId types messages)
  = (map (fun type =>
            makeFraudAlert type actionId (messages type) (FRAUD_SEVERITY type)
              (Date_now env) (fraudRiskScore types)) types
     ++ fraudAlerts state)%list.
Proof. unfold appendFraudAlerts. destruct types; reflexivity. Qed.
End Frames.

(** Projections of an updated state. *)
Ltac state_proj :=
  cbn [isOnline bins disposals complaints wallet redemptions fraudAlerts
       pendingActions usedImageHashes lastActionByUser syncLog
       set_isOnline set_bins set_disposals set_complaints set_wallet
       set_redemptions set_fraudAlerts set_pendingActions
       set_usedImageHashes set_lastActionByUser set_syncLog addLog
       points history].

Lemma In_pushIf (b : bool) (t t' : FraudAlertType) (flags : list FraudAlertType) :
  In t (pushIf b t' flags) <-> In t flags \/ (b = true /\ t = t').
Proof.
  unfold pushIf. destruct b.
  - rewrite in_app_iff. cbn. intuition congruence.
  - intuition congruence.
Qed.

Lemma pushIf_nil (b : bool) (t : FraudAlertType) (flags : list FraudAlertType) :
  pushIf b t flags = [] <-> flags = [] /\ b = false.
Proof.
  unfold pushIf. destruct b.
  - split; [|intros [_ ?]; discriminate].
    intros H. destruct flags; discriminate.
  - intuition.
Qed.

Lemma length_zero_nil {A : Type} (l : list A) :
  (length l =? 0)%nat = true <-> l = [].
Proof. destruct l; cbn; split; intros; congruence. Qed.

Lemma BinStatus_eqb_eq (a b : BinStatus) : BinStatus_eqb a b = true <-> a = b.
Proof. destruct a, b; cbn; split; intros; congruence. Qed.

(* ================================================================== *)
(** ** Properties of a disposal *)
(* ================================================================== *)

(** C1. When the bin id of a dispose action resolves to a bin of the
    state, the action creates one disposal record, and that record is
    verified if and only if the bin is available, the QR code, the
    geo-fence and the image checks passed and the record carries no fraud
    flag.  In particular a disposal at a bin reported full is not verified. *)
Theorem C1_verified_iff_all_checks
    (M : MathLib) (env : Env) (state : AppState) (a : PendingAction)
    (p : DisposePayload) (bin : Bin) :
  pa_payload a = dispose p ->
  resolveBin state (dp_binId p) = Some bin ->
  exists d,
    disposals (applyAction M env state a) = d :: disposals state
    /\ d_id d = pa_id a
    /\ (d_verified d = true <->
        bin_status bin = available
        /\ d_qrVerified d = true
        /\ d_geoVerified d = true
        /\ d_aiVerified d = true
        /\ d_fraudFlags d = [])
    /\ (bin_status bin = reported_full -> d_verified d = false).
Proof.
  intros Hp Hbin. unfold applyAction. rewrite Hp.
  unfold applyDispose. unfold resolveBin in Hbin. rewrite Hbin.
  cbv zeta. cbn [disposals addLog set_syncLog].
  rewrite disposals_appendFraudAlerts.
  eexists. split.
  { match goal with
    | |- disposals (if ?c then _ else _) = _ => destruct c
    end; reflexivity. }
  cbn [d_id d_verified d_qrVerified d_geoVerified d_aiVerified d_fraudFlags].
  split; [reflexivity|].
  split.
  - rewrite !andb_true_iff, BinStatus_eqb_eq, length_zero_nil. tauto.
  - intros Hfull. rewrite Hfull. reflexivity.
Qed.

Lemma isFirstSuccessful_spec (state : AppState) (userId : string) :
  forallb (fun item => negb (String.eqb (d_userId item) userId && d_verified item))
          (disposals state) = true
  <-> ~ hasVerifiedDisposal state userId.
Proof.
  unfold hasVerifiedDisposal. rewrite forallb_forall. split.
  - intros Hall (d & Hin & Hu & Hv).
    specialize (Hall d Hin). rewrite Hv, andb_true_r in Hall.
    apply negb_true_iff in Hall. apply String.eqb_neq in Hall. congruence.
  - intros Hnone d Hin. apply negb_true_iff.
    destruct (String.eqb_spec (d_userId d) userId) as [Hu|Hu]; [|reflexivity].
    destruct (d_verified d) eqn:Hv; [|reflexivity].
    exfalso. apply Hnone. eauto.
Qed.

(** C2. A dispose action whose bin resolves creates one disposal record.
    If the record is not verified it awards 0 points and the wallet is
    unchanged.  If it is verified it awards the regular points of the
    waste size (large 20, medium 10, small 3, home_daily 0), plus the
    bonus of 50 exactly when the user has no verified disposal in the
    state so far; with the bonus, two earn entries are put in front of the
    ledger, one of the regular points and one of 50. *)
Theorem C2_points_awarded
    (M : MathLib) (env : Env) (state : AppState) (a : PendingAction)
    (p : DisposePayload) (bin : Bin) :
  pa_payload a = dispose p ->
  resolveBin state (dp_binId p) = Some bin ->
  let state' := applyAction M env state a in
  let regular := REGULAR_REWARD_POINTS (dp_wasteSize p) in
  (REGULAR_REWARD_POINTS large = 20 /\ REGULAR_REWARD_POINTS medium = 10
   /\ REGULAR_REWARD_POINTS small = 3 /\ REGULAR_REWARD_POINTS home_daily = 0)
  /\ exists d,
    disposals state' = d :: disposals state
    /\ d_id d = pa_id a
    /\ (d_verified d = false ->
        d_pointsAwarded d = 0 /\ wallet state' = wallet state)
    /\ (d_verified d = true -> hasVerifiedDisposal state (dp_userId p) ->
        d_pointsAwarded d = regular
        /\ points (wallet state') = points (wallet state) + regular)
    /\ (d_verified d = true -> ~ hasVerifiedDisposal state (dp_userId p) ->
        d_pointsAwarded d = regular + 50
        /\ points (wallet state') = points (wallet state) + (regular + 50)
        /\ exists base bonus,
            history (wallet state') = base :: bonus :: history (wallet state)
            /\ we_type base = earn /\ we_points base = regular
            /\ we_source base = ai_disposal_verified
            /\ we_referenceId base = Some (pa_id a)
            /\ we_type bonus = earn /\ we_points bonus = 50
            /\ we_source bonus = first_time_bonus
            /\ we_referenceId bonus = Some (pa_id a)).
Proof.
  intros Hp Hbin state' regular. subst state' regular.
  split; [repeat split|].
  assert (Hreg : 0 <= REGULAR_REWARD_POINTS (dp_wasteSize p))
    by (destruct (dp_wasteSize p); discriminate).
  unfold applyAction. rewrite Hp.
  unfold applyDispose. unfold resolveBin in Hbin. rewrite Hbin.
  cbv zeta.
  pose proof (isFirstSuccessful_spec state (dp_userId p)) as Hfirst.
  set (first := forallb _ (disposals state)) in *.
  set (verified := BinStatus_eqb _ _ && _ && _ && _ && _).
  set (next := set_bins _ _).
  cbn [disposals wallet addLog set_syncLog].
  rewrite disposals_appendFraudAlerts, wallet_appendFraudAlerts.
  replace (0 <? FIRST_TIME_USER_BONUS_POINTS) with true by reflexivity.
  change FIRST_TIME_USER_BONUS_POINTS with 50.
  eexists. split.
  { match goal with
    | |- disposals (if ?c then _ else _) = _ => destruct c
    end; reflexivity. }
  cbn [d_id d_verified d_pointsAwarded].
  split; [reflexivity|].
  destruct verified; cbn [andb].
  - split; [discriminate|].
    destruct first.
    + split.
      { intros _ Hprior. exfalso. apply Hfirst; [reflexivity|exact Hprior]. }
      intros _ _.
      replace (0 <? REGULAR_REWARD_POINTS (dp_wasteSize p) + 50) with true
        by (symmetry; apply Z.ltb_lt; lia).
      subst next. state_proj. cbn [app].
      repeat split; eauto 12.
    + split.
      2:{ intros _ Hnone. apply Hfirst in Hnone. discriminate. }
      intros _ _. split; [lia|].
      destruct (Z.ltb_spec 0 (REGULAR_REWARD_POINTS (dp_wasteSize p) + 0));
        subst next; state_proj; lia.
  - split; [|split; discriminate].
    intros _. split; [reflexivity|].
    replace (0 <? 0 + 0) with false by reflexivity. reflexivity.
Qed.

Lemma cooldownViolation_spec (state : AppState) (userId binId : string) (cutoff : Z) :
  existsb
    (fun item =>
       String.eqb (d_userId item) userId
       && String.eqb (d_binId item) binId
       && (cutoff <? d_createdAt item))
    (disposals state) = true
  <-> disposedSince state userId binId cutoff.
Proof.
  unfold disposedSince. rewrite existsb_exists.
  split; intros (d & Hin & H); exists d; (split; [exact Hin|]).
  - rewrite !andb_true_iff, !String.eqb_eq, Z.ltb_lt in H. tauto.
  - rewrite !andb_true_iff, !String.eqb_eq, Z.ltb_lt. tauto.
Qed.

Lemma cooldown_in_disposeFlags qr geo mocked dup anomaly cooldown lowAcc tooOld :
  In cooldown_violation
     (disposeFlags qr geo mocked dup anomaly cooldown lowAcc tooOld)
  <-> cooldown = true.
Proof.
  unfold disposeFlags. rewrite !In_pushIf. cbn [In].
  split; [|tauto].
  intros H. repeat (destruct H as [H|H]); try tauto; destruct H; congruence.
Qed.

(** C5 (as the code has it). A dispose action whose bin resolves creates a
    record that carries the cooldown_violation flag if and only if the
    state holds a disposal of the same user at the same bin whose creation
    timestamp is strictly later than two hours before the clock reading
    taken when the action is applied; whether that earlier disposal was
    verified plays no part. *)
Theorem C5_cooldown_from_clock
    (M : MathLib) (env : Env) (state : AppState) (a : PendingAction)
    (p : DisposePayload) (bin : Bin) :
  pa_payload a = dispose p ->
  resolveBin state (dp_binId p) = Some bin ->
  exists d,
    disposals (applyAction M env state a) = d :: disposals state
    /\ d_id d = pa_id a
    /\ (In cooldown_violation (d_fraudFlags d) <->
        disposedSince state (dp_userId p) (dp_binId p)
          (Date_now env - cooldownMillis)).
Proof.
  intros Hp Hbin. unfold applyAction. rewrite Hp.
  unfold applyDispose. unfold resolveBin in Hbin. rewrite Hbin.
  cbv zeta. cbn [disposals addLog set_syncLog].
  rewrite disposals_appendFraudAlerts.
  eexists. split.
  { match goal with
    | |- disposals (if ?c then _ else _) = _ => destruct c
    end; reflexivity. }
  cbn [d_id d_fraudFlags].
  split; [reflexivity|].
  rewrite cooldown_in_disposeFlags.
  apply cooldownViolation_spec.
Qed.

(** When the action is applied at its creation timestamp and no recorded
    disposal is dated after it, the flag is raised exactly for an earlier
    disposal of the user at the bin within the two hours before the
    creation timestamp of the action. *)
Lemma cooldown_when_applied_at_creation
    (M : MathLib) (env : Env) (state : AppState) (a : PendingAction)
    (p : DisposePayload) (bin : Bin) :
  pa_payload a = dispose p ->
  resolveBin state (dp_binId p) = Some bin ->
  Date_now env = dp_createdAt p ->
  (forall d, In d (disposals state) -> d_createdAt d <= dp_createdAt p) ->
  exists d,
    disposals (applyAction M env state a) = d :: disposals state
    /\ (In cooldown_violation (d_fraudFlags d) <->
        exists prior, In prior (disposals state)
                      /\ d_userId prior = dp_userId p
                      /\ d_binId prior = dp_binId p
                      /\ dp_createdAt p - cooldownMillis < d_createdAt prior
                         <= dp_createdAt p).
Proof.
  intros Hp Hbin Hnow Hpast. unfold applyAction. rewrite Hp.
  unfold applyDispose. unfold resolveBin in Hbin. rewrite Hbin.
  cbv zeta. cbn [disposals addLog set_syncLog].
  rewrite disposals_appendFraudAlerts.
  eexists. split.
  { match goal with
    | |- disposals (if ?c then _ else _) = _ => destruct c
    end; reflexivity. }
  cbn [d_fraudFlags].
  rewrite cooldown_in_disposeFlags, cooldownViolation_spec, Hnow.
  unfold disposedSince. change (DISPOSAL_COOLDOWN_HOURS * 60 * 60 * 1000)
    with cooldownMillis.
  split.
  - intros (prior & Hin & Hu & Hb & Hlt). exists prior.
    specialize (Hpast prior Hin). repeat split; (assumption || lia).
  - intros (prior & Hin & Hu & Hb & Hlt). exists prior.
    repeat split; (assumption || lia).
Qed.

(* ================================================================== *)
(** ** The set of used image hashes *)
(* ================================================================== *)

Lemma isDuplicateImage_spec (used : list string) (hash : string) :
  isDuplicateImage used hash = true <-> In hash used.
Proof.
  unfold isDuplicateImage. rewrite existsb_exists. split.
  - intros (x & Hin & Heq). apply String.eqb_eq in Heq. congruence.
  - intros Hin. exists hash. split; [exact Hin|apply String.eqb_refl].
Qed.

Lemma grows_by_hash (used : list string) (hash : string) :
  let used' := if isDuplicateImage used hash then used else hash :: used in
  (In hash used -> used' = used) /\ (~ In hash used -> used' = hash :: used).
Proof.
  cbv zeta. pose proof (isDuplicateImage_spec used hash) as Hdup.
  destruct (isDuplicateImage used hash).
  - split; [reflexivity|]. intros Hn. exfalso. apply Hn, Hdup. reflexivity.
  - split; [|reflexivity]. intros Hin. apply Hdup in Hin. discriminate.
Qed.

Lemma findIndex_Some {A : Type} (f : A -> bool) (l : list A) (i : nat) :
  findIndex f l = Some i -> exists x, l !! i = Some x /\ f x = true.
Proof.
  revert i. induction l as [|y l IH]; intros i; cbn; [discriminate|].
  destruct (f y) eqn:Hy.
  - intros [= <-]. exists y. split; [reflexivity|exact Hy].
  - destruct (findIndex f l) as [j|]; cbn; [|discriminate].
    intros [= <-]. destruct (IH j eq_refl) as (x & Hx & Hfx).
    exists x. split; [exact Hx|exact Hfx].
Qed.

Lemma findIndex_None {A : Type} (f : A -> bool) (l : list A) :
  findIndex f l = None <-> forall x, In x l -> f x = false.
Proof.
  induction l as [|y l IH]; cbn.
  - split; [intros _ x []|reflexivity].
  - destruct (f y) eqn:Hy.
    + split; [discriminate|]. intros H. specialize (H y (or_introl eq_refl)).
      congruence.
    + destruct (findIndex f l) as [j|]; cbn.
      * split; [discriminate|]. intros H.
        destruct IH as [_ IH]. discriminate IH. intros x Hx. apply H. tauto.
      * split; [|reflexivity]. intros _ x [<-|Hx]; [exact Hy|].
        apply IH; [reflexivity|exact Hx].
Qed.

Lemma resolveBin_found (state : AppState) (binId : string) :
  (exists bin, In bin (bins state) /\ bin_id bin = binId)
  <-> exists bin, resolveBin state binId = Some bin.
Proof.
  unfold resolveBin. split.
  - intros (bin & Hin & Hid).
    destruct (List.find _ (bins state)) as [b|] eqn:Hfind; [eauto|].
    eapply find_none in Hfind; [|exact Hin]. cbn in Hfind.
    rewrite Hid, String.eqb_refl in Hfind. discriminate.
  - intros (bin & Hfind). apply find_some in Hfind as [Hin Heq].
    apply String.eqb_eq in Heq. eauto.
Qed.

Lemma complaint_found (state : AppState) (complaintId : string) :
  (exists c, In c (complaints state) /\ c_id c = complaintId)
  <-> exists i c,
        findIndex (fun item => String.eqb (c_id item) complaintId)
                  (complaints state) = Some i
        /\ complaints state !! i = Some c.
Proof.
  split.
  - intros (c & Hin & Hid).
    destruct (findIndex _ (complaints state)) as [i|] eqn:Hfind.
    + destruct (findIndex_Some _ _ _ Hfind) as (x & Hx & _). eauto.
    + rewrite findIndex_None in Hfind. specialize (Hfind c Hin). cbn in Hfind.
      rewrite Hid, String.eqb_refl in Hfind. discriminate.
  - intros (i & c & Hfind & _).
    destruct (findIndex_Some _ _ _ Hfind) as (x & Hx & Hfx).
    exists x. apply String.eqb_eq in Hfx. split; [|exact Hfx].
    apply list_elem_of_In. eapply list_elem_of_lookup_2. exact Hx.
Qed.

Section UsedHashes.
Variables (M : MathLib) (env : Env) (state : AppState) (a : PendingAction).

Lemma used_applyDispose_found (p : DisposePayload) (bin : Bin) :
  resolveBin state (dp_binId p) = Some bin ->
  usedImageHashes (applyDispose M env state a p)
  = if isDuplicateImage (usedImageHashes state) (imageHash (dp_photoUri p))
    then usedImageHashes state
    else imageHash (dp_photoUri p) :: usedImageHashes state.
Proof.
  intros Hbin. unfold applyDispose. unfold resolveBin in Hbin. rewrite Hbin.
  cbv zeta. state_proj. rewrite usedImageHashes_appendFraudAlerts.
  match goal with
  | |- usedImageHashes (if ?c then _ else _) = _ => destruct c
  end; reflexivity.
Qed.

Lemma used_applyDispose_missing (p : DisposePayload) :
  resolveBin state (dp_binId p) = None ->
  usedImageHashes (applyDispose M env state a p) = usedImageHashes state.
Proof.
  intros Hbin. unfold applyDispose. unfold resolveBin in Hbin. rewrite Hbin.
  reflexivity.
Qed.

Lemma used_applyReportIssue (p : ReportIssuePayload) :
  usedImageHashes (applyReportIssue M env state a p)
  = if isDuplicateImage (usedImageHashes state) (imageHash (ri_photoUri p))
    then usedImageHashes state
    else imageHash (ri_photoUri p) :: usedImageHashes state.
Proof.
  unfold applyReportIssue. cbv zeta. state_proj.
  rewrite usedImageHashes_appendFraudAlerts. reflexivity.
Qed.

Lemma used_applySubmitCleanup_found (p : SubmitCleanupPayload) (i : nat) (c : Complaint) :
  findIndex (fun item => String.eqb (c_id item) (sc_complaintId p))
            (complaints state) = Some i ->
  complaints state !! i = Some c ->
  usedImageHashes (applySubmitCleanup M env state a p)
  = if isDuplicateImage (usedImageHashes state) (imageHash (sc_photoUri p))
    then usedImageHashes state
    else imageHash (sc_photoUri p) :: usedImageHashes state.
Proof.
  intros Hi Hc. unfold applySubmitCleanup. cbv zeta. rewrite Hi, Hc.
  state_proj. rewrite usedImageHashes_appendFraudAlerts. reflexivity.
Qed.

Lemma used_applySubmitCleanup_missing (p : SubmitCleanupPayload) :
  findIndex (fun item => String.eqb (c_id item) (sc_complaintId p))
            (complaints state) = None ->
  usedImageHashes (applySubmitCleanup M env state a p) = usedImageHashes state.
Proof.
  intros Hi. unfold applySubmitCleanup. cbv zeta. rewrite Hi. reflexivity.
Qed.
End UsedHashes.

(** C6 (as the code has it). For a dispose, report_issue or submit_cleanup
    action whose target is found (the bin of the disposal, the complaint
    of the cleanup; a report has none), the hash of the submitted photo is
    added to the used hashes whatever the outcome of the verification,
    unless it is already there: the list grows by exactly that hash when
    it is new and is unchanged when it is present.  When the target is not
    found the action is dropped and the list is unchanged. *)
Theorem C6_used_hashes_grow_when_target_found
    (M : MathLib) (env : Env) (state : AppState) (a : PendingAction)
    (photo : string) :
  submittedPhoto a = Some photo ->
  let used := usedImageHashes state in
  let used' := usedImageHashes (applyAction M env state a) in
  (targetFound state a ->
     (In (imageHash photo) used -> used' = used)
     /\ (~ In (imageHash photo) used -> used' = imageHash photo :: used))
  /\ (~ targetFound state a -> used' = used).
Proof.
  intros Hphoto used used'. subst used used'.
  unfold submittedPhoto in Hphoto. unfold targetFound, applyAction.
  destruct (pa_payload a) as [p|p|p|p|p|p]; try discriminate;
    injection Hphoto as <-.
  - split.
    + intros Hfound. apply resolveBin_found in Hfound as [bin Hbin].
      rewrite (used_applyDispose_found M env state a p bin Hbin).
      apply grows_by_hash.
    + intros Hmissing. apply used_applyDispose_missing.
      destruct (resolveBin state (dp_binId p)) as [bin|] eqn:Hbin; [|reflexivity].
      exfalso. apply Hmissing. apply resolveBin_found. eauto.
  - split; [|tauto]. intros _. rewrite used_applyReportIssue. apply grows_by_hash.
  - split.
    + intros Hfound. apply complaint_found in Hfound as (i & c & Hi & Hc).
      rewrite (used_applySubmitCleanup_found M env state a p i c Hi Hc).
      apply grows_by_hash.
    + intros Hmissing. apply used_applySubmitCleanup_missing.
      destruct (findIndex _ (complaints state)) as [i|] eqn:Hi; [|reflexivity].
      exfalso. apply Hmissing. apply complaint_found.
      destruct (findIndex_Some _ _ _ Hi) as (x & Hx & _). eauto.
Qed.

(** C6, the property as the specification words it fails: a disposal
    queued for bin-001 and applied after the bins were fetched under other
    ids is dropped; its photo hash is new and yet is not added. *)
Lemma C6_counterexample_dropped_disposal :
  submittedPhoto firstDisposal = Some "file:///data/photo-001.jpg"
  /\ ~ In (imageHash "file:///data/photo-001.jpg") (usedImageHashes afterBinsFetched)
  /\ usedImageHashes
       (applyAction smallAngleMath (sampleEnv T0) afterBinsFetched firstDisposal)
     = usedImageHashes afterBinsFetched
  /\ usedImageHashes
       (applyAction smallAngleMath (sampleEnv T0) afterBinsFetched firstDisposal)
     <> imageHash "file:///data/photo-001.jpg" :: usedImageHashes afterBinsFetched.
Proof.
  split; [reflexivity|].
  split; [intros []|].
  split; [reflexivity|].
  vm_compute. discriminate.
Qed.

(** The same disposal applied while bin-001 is in the state adds its hash,
    as the theorem says. *)
Lemma C6_witness_first_disposal :
  submittedPhoto firstDisposal = Some "file:///data/photo-001.jpg"
  /\ targetFound (DEFAULT_STATE 0) firstDisposal
  /\ ~ In (imageHash "file:///data/photo-001.jpg") (usedImageHashes (DEFAULT_STATE 0))
  /\ usedImageHashes
       (applyAction smallAngleMath (sampleEnv T0) (DEFAULT_STATE 0) firstDisposal)
     = imageHash "file:///data/photo-001.jpg" :: usedImageHashes (DEFAULT_STATE 0).
Proof.
  assert (Hfound : targetFound (DEFAULT_STATE 0) firstDisposal).
  { exists binOne. split; [left; reflexivity|reflexivity]. }
  assert (Hnew : ~ In (imageHash "file:///data/photo-001.jpg")
                      (usedImageHashes (DEFAULT_STATE 0))) by (intros []).
  split; [reflexivity|]. split; [exact Hfound|]. split; [exact Hnew|].
  exact (proj2 (proj1 (C6_used_hashes_grow_when_target_found smallAngleMath
                         (sampleEnv T0) (DEFAULT_STATE 0) firstDisposal
                         "file:///data/photo-001.jpg" eq_refl) Hfound) Hnew).
Defined.

(* ================================================================== *)
(** ** The wallet *)
(* ================================================================== *)

Lemma ledgerBalance_app (xs ys : list WalletEntry) :
  ledgerBalance (xs ++ ys) = ledgerBalance xs + ledgerBalance ys.
Proof.
  unfold ledgerBalance. induction xs as [|x xs IH]; cbn [app foldr]; lia.
Qed.

Lemma ledgerBalance_by_type (entries : list WalletEntry) :
  ledgerBalance entries = pointsOfType earn entries - pointsOfType redeem entries.
Proof.
  unfold ledgerBalance, pointsOfType, signedPoints.
  induction entries as [|e entries IH]; cbn [foldr]; [reflexivity|].
  destruct (we_type e); lia.
Qed.

Section WalletInvariant.
Variables (M : MathLib) (env : Env) (state : AppState) (a : PendingAction).
Hypothesis Hinv : walletConsistent (wallet state).

Lemma wallet_applyDispose (p : DisposePayload) :
  walletConsistent (wallet (applyDispose M env state a p)).
Proof.
  unfold applyDispose.
  destruct (List.find _ (bins state)) as [bin|]; [|exact Hinv].
  cbv zeta.
  set (first := forallb _ (disposals state)).
  set (verified := BinStatus_eqb _ _ && _ && _ && _ && _).
  set (next := set_bins _ _).
  state_proj. rewrite wallet_appendFraudAlerts.
  assert (Hnext : wallet next = wallet state) by reflexivity.
  unfold walletConsistent in *. change FIRST_TIME_USER_BONUS_POINTS with 50.
  destruct (0 <? _) eqn:Hpos; [|rewrite Hnext; exact Hinv].
  state_proj. rewrite Hnext, ledgerBalance_app, <- Hinv.
  destruct (verified && first).
  - replace (0 <? 50) with true by reflexivity.
    unfold ledgerBalance, signedPoints. cbn [foldr we_type we_points]. lia.
  - replace (0 <? 0) with false by reflexivity.
    unfold ledgerBalance, signedPoints. cbn [foldr we_type we_points]. lia.
Qed.

Lemma wallet_applyReportIssue (p : ReportIssuePayload) :
  wallet (applyReportIssue M env state a p) = wallet state.
Proof.
  unfold applyReportIssue. cbv zeta. state_proj.
  rewrite wallet_appendFraudAlerts. reflexivity.
Qed.

Lemma wallet_applySubmitCleanup (p : SubmitCleanupPayload) :
  wallet (applySubmitCleanup M env state a p) = wallet state.
Proof.
  unfold applySubmitCleanup. cbv zeta.
  destruct (findIndex _ _) as [i|]; [|reflexivity].
  destruct (complaints state !! i) as [c|]; [|reflexivity].
  state_proj. rewrite wallet_appendFraudAlerts. reflexivity.
Qed.

Lemma wallet_applyVerifyCleanup (p : VerifyCleanupPayload) :
  wallet (applyVerifyCleanup env state a p) = wallet state.
Proof.
  unfold applyVerifyCleanup. cbv zeta.
  destruct (findIndex _ _) as [i|]; [|reflexivity].
  destruct (complaints state !! i) as [c|]; reflexivity.
Qed.

Lemma wallet_applyRedeemReward (p : RedeemRewardPayload) :
  walletConsistent (wallet (applyRedeemReward env state a p)).
Proof.
  unfold applyRedeemReward.
  destruct (points (wallet state) <? rd_pointsRequired p); [exact Hinv|].
  cbv zeta. state_proj. unfold walletConsistent in *.
  cbn [points history]. unfold ledgerBalance, signedPoints in *.
  cbn [foldr we_type we_points]. lia.
Qed.

Lemma wallet_applyAction : walletConsistent (wallet (applyAction M env state a)).
Proof.
  unfold applyAction. destruct (pa_payload a) as [p|p|p|p|p|p].
  - apply wallet_applyDispose.
  - rewrite wallet_applyReportIssue. exact Hinv.
  - rewrite wallet_applySubmitCleanup. exact Hinv.
  - rewrite wallet_applyVerifyCleanup. exact Hinv.
  - apply wallet_applyRedeemReward.
  - exact Hinv.
Qed.
End WalletInvariant.

Lemma step_walletConsistent (M : MathLib) (loadedAt : Z) (s s' : AppState) :
  step M loadedAt s s' ->
  walletConsistent (wallet s) -> walletConsistent (wallet s').
Proof.
  intros Hstep Hinv. destruct Hstep; try exact Hinv.
  - apply wallet_applyAction. exact Hinv.
  - reflexivity.
Qed.

(** C7. In every state reached from the initial state by the updates of
    the application (applied actions included), the balance of the wallet
    is the fold of the ledger with the sign of each entry's type: the
    points of the earn entries minus the points of the redeem entries. *)
Theorem C7_balance_is_ledger_fold
    (M : MathLib) (loadedAt : Z) (state : AppState) :
  reachable M loadedAt state ->
  points (wallet state) = ledgerBalance (history (wallet state))
  /\ points (wallet state)
     = pointsOfType earn (history (wallet state))
       - pointsOfType redeem (history (wallet state)).
Proof.
  intros Hreach.
  assert (Hinv : walletConsistent (wallet state)).
  { unfold reachable in Hreach.
    eapply (rtc_ind_r (fun s => walletConsistent (wallet s))); [| |exact Hreach].
    - reflexivity.
    - intros y z _ Hstep Hy. eapply step_walletConsistent; eassumption. }
  split; [exact Hinv|].
  rewrite <- ledgerBalance_by_type. exact Hinv.
Qed.

(** C4. A redeem_reward action on a wallet whose balance is below the
    points required leaves the wallet (balance and ledger) and the
    redemptions unchanged and logs that the redemption is blocked for
    insufficient points.  Otherwise it debits exactly the points required,
    puts exactly one redeem entry of that many points in front of the
    ledger, and adds exactly one redemption record, active, whose expiry is
    14 days after the clock reading taken when the action is applied.  The
    createdAt field of the record is the creation timestamp carried by the
    action, so the expiry is 14 days after the creation time of the record
    plus the time that passed between the creation of the action and its
    application: exactly 14 days when the action is applied as it is
    created, more for an action replayed from the offline queue. *)
Theorem C4_redeem_reward
    (M : MathLib) (env : Env) (state : AppState) (a : PendingAction)
    (p : RedeemRewardPayload) :
  pa_payload a = redeem_reward p ->
  let state' := applyAction M env state a in
  (points (wallet state) < rd_pointsRequired p ->
     wallet state' = wallet state
     /\ redemptions state' = redemptions state
     /\ hd_error (syncLog state')
        = Some (localeTime env ++ " - Redemption blocked: insufficient points."))
  /\ (rd_pointsRequired p <= points (wallet state) ->
      points (wallet state') = points (wallet state) - rd_pointsRequired p
      /\ (exists e,
            history (wallet state') = e :: history (wallet state)
            /\ we_type e = redeem
            /\ we_points e = rd_pointsRequired p
            /\ we_referenceId e = Some (pa_id a))
      /\ (exists r,
            redemptions state' = r :: redemptions state
            /\ rr_id r = pa_id a
            /\ rr_status r = active
            /\ rr_pointsUsed r = rd_pointsRequired p
            /\ rr_createdAt r = rd_createdAt p
            /\ rr_expiresAt r = Date_now env + couponValidityMillis
            /\ rr_expiresAt r
               = rr_createdAt r + couponValidityMillis
                 + (Date_now env - rd_createdAt p)
            /\ (rr_expiresAt r = rr_createdAt r + couponValidityMillis
                <-> Date_now env = rd_createdAt p))).
Proof.
  intros Hp state'. subst state'. unfold applyAction. rewrite Hp.
  unfold applyRedeemReward.
  destruct (Z.ltb_spec (points (wallet state)) (rd_pointsRequired p)) as [Hlow|Hok].
  - split; [|lia]. intros _. repeat split.
  - split; [lia|]. intros _. cbv zeta. state_proj.
    split; [reflexivity|].
    split; [eexists; (split; [reflexivity|]); repeat split|].
    eexists. split; [reflexivity|].
    cbn [rr_id rr_status rr_pointsUsed rr_createdAt rr_expiresAt].
    unfold couponValidityMillis.
    repeat (split; [reflexivity|]). split; [lia|]. split; lia.
Qed.

(* ================================================================== *)
(** ** Fraud alerts of an action *)
(* ================================================================== *)

Lemma made_alerts_share_score
    (actionId : string) (messages : FraudAlertType -> string)
    (createdAt : Z) (types l : list FraudAlertType) :
  let alerts :=
    map (fun type =>
           makeFraudAlert type actionId (messages type) (FRAUD_SEVERITY type)
             createdAt (fraudRiskScore types)) l in
  map fa_type alerts = l /\ Forall (sharesScore actionId types) alerts.
Proof.
  cbv zeta. induction l as [|t l [IHt IHf]]; cbn [map].
  - split; [reflexivity|constructor].
  - split; [cbn [fa_type makeFraudAlert]; congruence|].
    constructor; [|exact IHf].
    unfold sharesScore. rewrite makeFraudAlert_status.
    cbn [fa_actionId fa_riskScore makeFraudAlert]. rewrite fraudRiskScore_sum.
    split; [reflexivity|]. split; [reflexivity|].
    destruct (Z.leb_spec 80 (weightSum types)); split; split; intros;
      (lia || discriminate || reflexivity).
Qed.

Lemma fraudAlerts_credit (c : bool) (next : AppState) (w : WalletState) :
  fraudAlerts (if c then set_wallet next w else next) = fraudAlerts next.
Proof. destruct c; reflexivity. Qed.

Lemma disposals_credit (c : bool) (next : AppState) (w : WalletState) :
  disposals (if c then set_wallet next w else next) = disposals next.
Proof. destruct c; reflexivity. Qed.

(** The alerts that an applied action adds are one per flag recorded for
    the action, and each of them carries the sum of the weights of all the
    flags of the action. *)
Lemma applied_alerts_share_score
    (M : MathLib) (env : Env) (state : AppState) (a : PendingAction) :
  let state' := applyAction M env state a in
  exists types alerts,
    recordedFlags state state' a types
    /\ fraudAlerts state' = (alerts ++ fraudAlerts state)%list
    /\ map fa_type alerts = types
    /\ Forall (sharesScore (pa_id a) types) alerts
    /\ Forall (fun al =>
                 fa_type al = qr_mismatch -> 80 <= weightSum types ->
                 TYPE_SCORE (fa_type al) = 20 /\ fa_status al = alert_blocked)
              alerts.
Proof.
  cbv zeta.
  assert (Hqr : forall types alerts,
             Forall (sharesScore (pa_id a) types) alerts ->
             Forall (fun al =>
                       fa_type al = qr_mismatch -> 80 <= weightSum types ->
                       TYPE_SCORE (fa_type al) = 20 /\ fa_status al = alert_blocked)
                    alerts).
  { intros types alerts Hall. eapply Forall_impl; [exact Hall|].
    cbv beta. intros al (_ & _ & Hblocked & _) -> Hsum.
    split; [reflexivity|]. apply Hblocked. exact Hsum. }
  assert (Hnone : fraudAlerts (applyAction M env state a) = fraudAlerts state ->
                  recordedFlags state (applyAction M env state a) a [] ->
                  exists types alerts,
                    recordedFlags state (applyAction M env state a) a types
                    /\ fraudAlerts (applyAction M env state a)
                       = (alerts ++ fraudAlerts state)%list
                    /\ map fa_type alerts = types
                    /\ Forall (sharesScore (pa_id a) types) alerts
                    /\ Forall (fun al =>
                                 fa_type al = qr_mismatch -> 80 <= weightSum types ->
                                 TYPE_SCORE (fa_type al) = 20
                                 /\ fa_status al = alert_blocked) alerts).
  { intros Hsame Hrec. exists [], []. repeat split; try assumption; constructor. }
  unfold recordedFlags, applyAction in *.
  destruct (pa_payload a) as [p|p|p|p|p|p].
  - (* dispose *)
    unfold resolveBin in *. unfold applyDispose in *.
    destruct (List.find _ (bins state)) as [bin|] eqn:Hbin;
      [|apply Hnone; reflexivity].
    clear Hnone. cbv zeta. state_proj.
    rewrite disposals_appendFraudAlerts, disposals_credit.
    rewrite fraudAlerts_appendFraudAlerts, fraudAlerts_credit. state_proj.
    do 2 eexists. split.
    { eexists. split; [reflexivity|]. split; reflexivity. }
    cbn [d_fraudFlags]. split; [reflexivity|].
    split; [apply made_alerts_share_score|].
    split; [apply made_alerts_share_score|apply Hqr, made_alerts_share_score].
  - (* report_issue *)
    clear Hnone. unfold applyReportIssue. cbv zeta. state_proj.
    rewrite complaints_appendFraudAlerts, fraudAlerts_appendFraudAlerts.
    state_proj. do 2 eexists. split.
    { eexists. split; [reflexivity|]. split; reflexivity. }
    cbn [c_reportFraudFlags]. split; [reflexivity|].
    split; [apply made_alerts_share_score|].
    split; [apply made_alerts_share_score|apply Hqr, made_alerts_share_score].
  - (* submit_cleanup *)
    unfold applySubmitCleanup in *. cbv zeta.
    destruct (findIndex _ (complaints state)) as [i|] eqn:Hi;
      [|apply Hnone; reflexivity].
    clear Hnone. destruct (findIndex_Some _ _ _ Hi) as (c & Hc & _). rewrite Hc.
    state_proj. rewrite complaints_appendFraudAlerts, fraudAlerts_appendFraudAlerts.
    state_proj. do 2 eexists. split.
    { do 2 eexists. split.
      { apply list_lookup_insert_eq. eapply lookup_lt_Some. exact Hc. }
      cbn [c_cleanupProof]. split; [reflexivity|]. split; reflexivity. }
    cbn [cp_fraudFlags]. split; [reflexivity|].
    split; [apply made_alerts_share_score|].
    split; [apply made_alerts_share_score|apply Hqr, made_alerts_share_score].
  - (* verify_cleanup *)
    apply Hnone; [|reflexivity].
    unfold applyVerifyCleanup. cbv zeta.
    destruct (findIndex _ _) as [i|]; [|reflexivity].
    destruct (complaints state !! i); reflexivity.
  - (* redeem_reward *)
    apply Hnone; [|reflexivity].
    unfold applyRedeemReward. destruct (_ <? _); reflexivity.
  - (* report_bin_full *)
    apply Hnone; reflexivity.
Qed.

(** C10 (as the code has it). The alerts that applying an action adds are
    one per flag recorded for the action, and each of them carries the
    same risk score, the sum of the weights of all the flags of the action
    (not the weight of its own kind); so they share one status: all
    blocked when that sum is at least 80, all open otherwise.  An alert of
    a light kind such as qr_mismatch (weight 20) is thus created blocked
    as soon as the sum reaches 80.  The alert that the server-side
    revalidation adds afterwards under an action id is not one of them: it
    is a single geo_fence_failure alert of the fixed risk score 70 and of
    status open, whatever the flags of the action. *)
Theorem C10_alerts_share_combined_score
    (M : MathLib) (env : Env) (state : AppState) (a : PendingAction) :
  let state' := applyAction M env state a in
  (exists types alerts,
     recordedFlags state state' a types
     /\ fraudAlerts state' = (alerts ++ fraudAlerts state)%list
     /\ map fa_type alerts = types
     /\ Forall (sharesScore (pa_id a) types) alerts
     /\ Forall (fun al =>
                  fa_type al = qr_mismatch -> 80 <= weightSum types ->
                  TYPE_SCORE (fa_type al) = 20 /\ fa_status al = alert_blocked)
               alerts)
  /\ (forall (later : Env) (actionId : string),
        exists al,
          fraudAlerts (serverGeoAlert later state' actionId)
          = al :: fraudAlerts state'
          /\ fa_actionId al = actionId
          /\ fa_type al = geo_fence_failure
          /\ fa_riskScore al = 70
          /\ fa_status al = alert_open).
Proof.
  cbv zeta. split; [exact (applied_alerts_share_score M env state a)|].
  intros later actionId. unfold serverGeoAlert. state_proj.
  eexists. split; [reflexivity|].
  rewrite makeFraudAlert_status. cbn [fa_actionId fa_type fa_riskScore makeFraudAlert].
  repeat split.
Qed.

(* ================================================================== *)
(** ** Location capture (services/locationEngine.ts) *)
(* ================================================================== *)

(** The age of a fix is checked when a disposal is applied: the record
    carries timestamp_invalid exactly when the age is above 30 s. *)
Lemma stale_fix_flagged_at_disposal
    (M : MathLib) (env : Env) (state : AppState) (a : PendingAction)
    (p : DisposePayload) (bin : Bin) :
  pa_payload a = dispose p ->
  resolveBin state (dp_binId p) = Some bin ->
  exists d,
    disposals (applyAction M env state a) = d :: disposals state
    /\ (In timestamp_invalid (d_fraudFlags d) <->
        PrimFloat.ltb MAX_LOCATION_AGE_SECONDS (ls_ageSeconds (dp_location p)) = true).
Proof.
  intros Hp Hbin. unfold applyAction. rewrite Hp.
  unfold applyDispose. unfold resolveBin in Hbin. rewrite Hbin.
  cbv zeta. state_proj. rewrite disposals_appendFraudAlerts, disposals_credit.
  state_proj. eexists. split; [reflexivity|].
  cbn [d_fraudFlags]. unfold disposeFlags. rewrite !In_pushIf. cbn [In].
  split; [|tauto].
  intros H. repeat (destruct H as [H|H]); try tauto; destruct H; congruence.
Qed.

(** C8 (as the code has it). With the permission granted and a fix
    obtained whose timestamp is a valid time value, the capture returns no
    snapshot and the fake GPS error when the fix is flagged as mocked;
    otherwise it returns the snapshot, together with an advisory error when
    the accuracy is above 10 m, and with no error when it is not, whatever
    the age of the fix: the capture makes no check of the age. *)
Theorem C8_capture_checks_mock_and_accuracy (position : Position) (now : Z) :
  validTime (default now (pos_timestamp position)) = true ->
  let result := getHighAccuracyLocation granted (Some position) now in
  (pos_mocked position = Some true ->
     snapshot result = None
     /\ error result = Some "Fake GPS detected. Action blocked.")
  /\ (pos_mocked position <> Some true ->
      exists snap,
        snapshot result = Some snap
        /\ ls_isMocked snap = false
        /\ ls_accuracyMeters snap = Math_max (default 999%float (pos_accuracy position)) 0
        /\ ls_ageSeconds snap
           = Math_max
               (PrimFloat.div
                  (float_of_Z (now - default now (pos_timestamp position))) 1000) 0
        /\ (PrimFloat.ltb MAX_ALLOWED_ACCURACY_METERS (ls_accuracyMeters snap) = true ->
            error result = Some "Move to an open area for better GPS accuracy.")
        /\ (PrimFloat.ltb MAX_ALLOWED_ACCURACY_METERS (ls_accuracyMeters snap) = false ->
            error result = None)).
Proof.
  intros Hvalid result. subst result. unfold getHighAccuracyLocation.
  cbn [requestLocationPermission fst snd negb].
  change (match pos_timestamp position with
          | Some t => t
          | None => now
          end) with (default now (pos_timestamp position)).
  rewrite Hvalid. cbn [negb]. cbv zeta. cbn [ls_isMocked ls_accuracyMeters].
  destruct (pos_mocked position) as [[|]|] eqn:Hmock; cbn [default].
  - split; [intros _; split; reflexivity|]. intros H. congruence.
  - split; [discriminate|]. intros _.
    destruct (PrimFloat.ltb MAX_ALLOWED_ACCURACY_METERS _) eqn:Hacc;
      eexists; (split; [reflexivity|]);
      cbn [ls_isMocked ls_accuracyMeters ls_ageSeconds default];
      rewrite Hacc; repeat split; discriminate.
  - split; [discriminate|]. intros _.
    destruct (PrimFloat.ltb MAX_ALLOWED_ACCURACY_METERS _) eqn:Hacc;
      eexists; (split; [reflexivity|]);
      cbn [ls_isMocked ls_accuracyMeters ls_ageSeconds default];
      rewrite Hacc; repeat split; discriminate.
Qed.

(* ================================================================== *)
(** ** The distance (utils/geo.ts) *)
(* ================================================================== *)






(* ================================================================== *)
(** ** The theorems on the sample data *)
(* ================================================================== *)

(** C1 on the first disposal at bin B1. *)
Lemma C1_witness_first_disposal :
  pa_payload firstDisposal
  = dispose (disposePayload "MMC-BIN-001" "file:///data/photo-001.jpg" medium T0)
  /\ resolveBin (DEFAULT_STATE 0) "bin-001" = Some binOne
  /\ exists d,
       disposals (applyAction smallAngleMath (sampleEnv T0) (DEFAULT_STATE 0)
                    firstDisposal)
       = d :: disposals (DEFAULT_STATE 0)
       /\ d_id d = pa_id firstDisposal
       /\ (d_verified d = true <->
           bin_status binOne = available
           /\ d_qrVerified d = true
           /\ d_geoVerified d = true
           /\ d_aiVerified d = true
           /\ d_fraudFlags d = [])
       /\ (bin_status binOne = reported_full -> d_verified d = false).
Proof.
  split; [reflexivity|]. split; [reflexivity|].
  apply (C1_verified_iff_all_checks smallAngleMath (sampleEnv T0) (DEFAULT_STATE 0)
           firstDisposal
           (disposePayload "MMC-BIN-001" "file:///data/photo-001.jpg" medium T0)
           binOne); reflexivity.
Defined.

(** Scenario: QR MMC-BIN-001 at bin B1, accuracy 2 m, age 1 s, not mocked,
    medium waste, fresh photo: verified, no flag, 10 + 50 points. *)
Example scenario_first_disposal :
  exists d,
    disposals afterFirst = [d]
    /\ d_verified d = true /\ d_fraudFlags d = [] /\ d_pointsAwarded d = 60
    /\ points (wallet afterFirst) = 60
    /\ usedImageHashes afterFirst = ["3759e975"].
Proof. vm_compute. eexists. repeat split. Qed.

(** Scenario: at a bin reported full, a disposal that passes every other
    check is not verified. *)
Example scenario_reported_full :
  exists d,
    disposals (applyAction smallAngleMath (sampleEnv T0) binOneFull firstDisposal) = [d]
    /\ d_qrVerified d = true /\ d_geoVerified d = true /\ d_aiVerified d = true
    /\ d_fraudFlags d = [] /\ d_verified d = false /\ d_pointsAwarded d = 0.
Proof. vm_compute. eexists. repeat split. Qed.

(** Scenario: QR WRONG-CODE with the photo of the first disposal, one
    second later: qr_mismatch, duplicate_image and cooldown_violation are
    raised (20 + 40 + 30 = 90), the record is not verified, and the
    qr_mismatch alert is created blocked. *)
Example scenario_wrong_qr :
  let state' :=
    applyAction smallAngleMath (sampleEnv (T0 + 1000)) afterFirst wrongQrDisposal in
  exists d alert rest,
    disposals state' = d :: disposals afterFirst
    /\ d_qrVerified d = false /\ d_verified d = false
    /\ d_fraudFlags d = [qr_mismatch; duplicate_image; cooldown_violation]
    /\ fraudAlerts state' = alert :: rest
    /\ fa_type alert = qr_mismatch /\ fa_riskScore alert = 90
    /\ fa_status alert = alert_blocked.
Proof. vm_compute. do 3 eexists. repeat split. Qed.

(** C2 on the first disposal at bin B1. *)
Lemma C2_witness_first_disposal :
  pa_payload firstDisposal
  = dispose (disposePayload "MMC-BIN-001" "file:///data/photo-001.jpg" medium T0)
  /\ resolveBin (DEFAULT_STATE 0) "bin-001" = Some binOne
  /\ ~ hasVerifiedDisposal (DEFAULT_STATE 0) "demo-user-001"
  /\ exists d base bonus,
       disposals afterFirst = d :: disposals (DEFAULT_STATE 0)
       /\ d_verified d = true
       /\ d_pointsAwarded d = REGULAR_REWARD_POINTS medium + 50
       /\ history (wallet afterFirst)
          = base :: bonus :: history (wallet (DEFAULT_STATE 0))
       /\ we_points base = REGULAR_REWARD_POINTS medium
       /\ we_points bonus = 50.
Proof.
  assert (Hnone : ~ hasVerifiedDisposal (DEFAULT_STATE 0) "demo-user-001").
  { intros (d & [] & _). }
  split; [reflexivity|]. split; [reflexivity|]. split; [exact Hnone|].
  destruct (C2_points_awarded smallAngleMath (sampleEnv T0) (DEFAULT_STATE 0)
              firstDisposal
              (disposePayload "MMC-BIN-001" "file:///data/photo-001.jpg" medium T0)
              binOne eq_refl eq_refl)
    as (_ & d & Hd & _ & _ & _ & Hbonus).
  assert (Hv : d_verified d = true).
  { change (applyAction smallAngleMath (sampleEnv T0) (DEFAULT_STATE 0) firstDisposal)
      with afterFirst in Hd.
    assert (Hhd : hd_error (disposals afterFirst) = Some d) by (rewrite Hd; reflexivity).
    vm_compute in Hhd. injection Hhd as <-. reflexivity. }
  destruct (Hbonus Hv Hnone) as (Hpts & _ & base & bonus & Hhist & _ & Hb & _ & _ & _ & Hbo & _).
  exists d, base, bonus. repeat split; assumption.
Defined.

(** C4 on a wallet of 70 points and a reward of 50 points. *)
Lemma C4_witness_redeem_fifty :
  pa_payload redeemFifty = redeem_reward (redeemPayload 50 (T0 + 4 * oneHour))
  /\ points (wallet walletOfSeventy) = 70
  /\ points (wallet afterRedeem) = points (wallet walletOfSeventy) - 50
  /\ (exists e,
        history (wallet afterRedeem) = e :: history (wallet walletOfSeventy)
        /\ we_type e = redeem /\ we_points e = 50
        /\ we_referenceId e = Some "redeem-b1")
  /\ (exists r,
        redemptions afterRedeem = r :: redemptions walletOfSeventy
        /\ rr_id r = "redeem-b1"
        /\ rr_status r = active
        /\ rr_pointsUsed r = 50
        /\ rr_createdAt r = T0 + 4 * oneHour
        /\ rr_expiresAt r = T0 + 4 * oneHour + couponValidityMillis
        /\ rr_expiresAt r = rr_createdAt r + couponValidityMillis).
Proof.
  assert (Hpts : points (wallet walletOfSeventy) = 70) by (vm_compute; reflexivity).
  split; [reflexivity|]. split; [exact Hpts|].
  destruct (C4_redeem_reward smallAngleMath (sampleEnv (T0 + 4 * oneHour))
              walletOfSeventy redeemFifty (redeemPayload 50 (T0 + 4 * oneHour)) eq_refl)
    as [_ Hredeem].
  destruct Hredeem as (Hbalance & Hentry & r & Hr & Hid & Hstatus & Hused & Hcreated
                       & Hexpires & _ & Hlive).
  { rewrite Hpts. cbn. discriminate. }
  split; [exact Hbalance|]. split; [exact Hentry|].
  exists r. repeat (split; [assumption|]). apply Hlive. reflexivity.
Defined.

(** C4, the property as the specification words it fails: the redemption
    of 50 points created at the fourth hour and applied from the offline
    queue at the ninth gives an active record whose expiry is 14 days and
    5 hours after its creation time. *)
Lemma C4_counterexample_replayed_redemption :
  pa_payload redeemFifty = redeem_reward (redeemPayload 50 (T0 + 4 * oneHour))
  /\ exists r,
       redemptions afterReplayedRedeem = r :: redemptions walletOfSeventy
       /\ rr_id r = "redeem-b1"
       /\ rr_status r = active
       /\ rr_createdAt r = T0 + 4 * oneHour
       /\ rr_expiresAt r = rr_createdAt r + couponValidityMillis + 5 * oneHour
       /\ rr_expiresAt r <> rr_createdAt r + couponValidityMillis.
Proof.
  split; [reflexivity|].
  assert (H : exists r,
             redemptions afterReplayedRedeem = r :: redemptions walletOfSeventy
             /\ rr_id r = "redeem-b1" /\ rr_status r = active
             /\ rr_createdAt r = 1700014400000 /\ rr_expiresAt r = 1701242000000)
    by (vm_compute; eexists; repeat split).
  destruct H as (r & Hr & Hid & Hstatus & Hcreated & Hexpires).
  exists r. rewrite Hcreated, Hexpires.
  repeat (split; [assumption|]).
  unfold T0, oneHour, couponValidityMillis. repeat split; lia.
Qed.

(** Scenario: redeeming 50 points out of 70 leaves 20, and redeeming 100
    points out of 70 changes neither the wallet nor the redemptions. *)
Example scenario_redeem :
  points (wallet afterRedeem) = 20
  /\ wallet (applyAction smallAngleMath (sampleEnv (T0 + 4 * oneHour))
               walletOfSeventy redeemHundred) = wallet walletOfSeventy
  /\ redemptions (applyAction smallAngleMath (sampleEnv (T0 + 4 * oneHour))
                    walletOfSeventy redeemHundred) = redemptions walletOfSeventy
  /\ hd_error (syncLog (applyAction smallAngleMath (sampleEnv (T0 + 4 * oneHour))
                          walletOfSeventy redeemHundred))
     = Some "10:15:00 PM - Redemption blocked: insufficient points.".
Proof. vm_compute. repeat split. Qed.

(** C5, the property as the specification words it fails: the first
    disposal at bin B1 is dated one hour before the creation timestamp of
    the queued one, within its two-hour window, and yet the queued
    disposal, applied four hours after it was created, carries no
    cooldown_violation flag and is verified. *)
Lemma C5_counterexample_replayed_disposal :
  (exists prior,
     In prior (disposals afterFirst)
     /\ d_userId prior = "demo-user-001" /\ d_binId prior = "bin-001"
     /\ T0 + oneHour - cooldownMillis < d_createdAt prior <= T0 + oneHour)
  /\ (exists d,
        disposals afterReplay = d :: disposals afterFirst
        /\ d_id d = "dispose-a2"
        /\ d_userId d = "demo-user-001" /\ d_binId d = "bin-001"
        /\ d_createdAt d = T0 + oneHour
        /\ ~ In cooldown_violation (d_fraudFlags d)
        /\ d_verified d = true).
Proof.
  split.
  - assert (H : exists r, disposals afterFirst = [r]
                          /\ d_userId r = "demo-user-001" /\ d_binId r = "bin-001"
                          /\ d_createdAt r = T0)
      by (vm_compute; eexists; repeat split).
    destruct H as (r & Hr & Hu & Hb & Ht). exists r.
    rewrite Hr, Ht. split; [left; reflexivity|]. split; [exact Hu|].
    split; [exact Hb|]. unfold T0, oneHour, cooldownMillis. lia.
  - assert (H : exists d, disposals afterReplay = d :: disposals afterFirst
                          /\ d_id d = "dispose-a2"
                          /\ d_userId d = "demo-user-001" /\ d_binId d = "bin-001"
                          /\ d_createdAt d = T0 + oneHour
                          /\ d_fraudFlags d = [] /\ d_verified d = true)
      by (vm_compute; eexists; repeat split).
    destruct H as (d & Hd & Hid & Hu & Hb & Ht & Hflags & Hv). exists d.
    rewrite Hflags. repeat split; try assumption. intros [].
Qed.

(** C5 (as the code has it) on the same queued disposal: no recorded
    disposal is dated after the clock reading less two hours. *)
Lemma C5_witness_replayed_disposal :
  pa_payload queuedDisposal
  = dispose (disposePayload "MMC-BIN-001" "file:///data/photo-002.jpg" medium
               (T0 + oneHour))
  /\ exists bin d,
       resolveBin afterFirst "bin-001" = Some bin
       /\ disposals afterReplay = d :: disposals afterFirst
       /\ d_id d = "dispose-a2"
       /\ (In cooldown_violation (d_fraudFlags d) <->
           disposedSince afterFirst "demo-user-001" "bin-001"
             (T0 + 5 * oneHour - cooldownMillis)).
Proof.
  split; [reflexivity|].
  destruct (resolveBin afterFirst "bin-001") as [bin|] eqn:Hbin;
    [|vm_compute in Hbin; discriminate].
  destruct (C5_cooldown_from_clock smallAngleMath (sampleEnv (T0 + 5 * oneHour))
              afterFirst queuedDisposal
              (disposePayload "MMC-BIN-001" "file:///data/photo-002.jpg" medium
                 (T0 + oneHour))
              bin eq_refl Hbin) as (d & Hd & Hid & Hflag).
  exists bin, d. repeat split; (assumption || apply Hflag).
Defined.

(** Applied when it is created, the same disposal carries the flag. *)
Example scenario_cooldown_at_creation :
  exists d,
    hd_error (disposals afterSecond) = Some d
    /\ d_fraudFlags d = [cooldown_violation] /\ d_verified d = false.
Proof. vm_compute. eexists. repeat split. Qed.

(** The earlier disposal need not be verified: one rejected for its QR
    code sets off the cooldown of the next one all the same. *)
Example scenario_cooldown_after_rejected :
  exists d prior,
    disposals afterRejectedThenGood = [d; prior]
    /\ d_verified prior = false
    /\ d_fraudFlags d = [cooldown_violation] /\ d_verified d = false.
Proof. vm_compute. do 2 eexists. repeat split. Qed.

(** C7 on the state reached by two verified disposals and a redemption. *)
Lemma C7_witness_after_redeem :
  reachable smallAngleMath 0 afterRedeem
  /\ points (wallet afterRedeem) = ledgerBalance (history (wallet afterRedeem))
  /\ points (wallet afterRedeem)
     = pointsOfType earn (history (wallet afterRedeem))
       - pointsOfType redeem (history (wallet afterRedeem)).
Proof.
  assert (Hreach : reachable smallAngleMath 0 afterRedeem).
  { unfold reachable.
    eapply rtc_l; [exact (step_apply smallAngleMath 0 (sampleEnv T0) _ firstDisposal)|].
    eapply rtc_l;
      [exact (step_apply smallAngleMath 0 (sampleEnv (T0 + 3 * oneHour)) afterFirst
                thirdDisposal)|].
    eapply rtc_l;
      [exact (step_apply smallAngleMath 0 (sampleEnv (T0 + 4 * oneHour))
                walletOfSeventy redeemFifty)|].
    apply rtc_refl. }
  split; [exact Hreach|].
  exact (C7_balance_is_ledger_fold smallAngleMath 0 afterRedeem Hreach).
Defined.

(** C8, the property as the specification words it fails: a fix one
    minute old, not mocked and of accuracy 5 m, is returned with its
    snapshot and with no error. *)
Lemma C8_counterexample_stale_fix :
  exists snap,
    snapshot (getHighAccuracyLocation granted (Some stalePosition) T0) = Some snap
    /\ ls_ageSeconds snap = 60%float
    /\ PrimFloat.ltb MAX_LOCATION_AGE_SECONDS (ls_ageSeconds snap) = true
    /\ isLocationFresh snap = false
    /\ error (getHighAccuracyLocation granted (Some stalePosition) T0) = None.
Proof. vm_compute. eexists. repeat split. Qed.

(** C8 (as the code has it) on a fix of accuracy 25 m. *)
Lemma C8_witness_coarse_fix :
  validTime (default T0 (pos_timestamp coarsePosition)) = true
  /\ pos_mocked coarsePosition <> Some true
  /\ exists snap,
       snapshot (getHighAccuracyLocation granted (Some coarsePosition) T0) = Some snap
       /\ ls_accuracyMeters snap = 25%float
       /\ error (getHighAccuracyLocation granted (Some coarsePosition) T0)
          = Some "Move to an open area for better GPS accuracy.".
Proof.
  assert (Hreal : pos_mocked coarsePosition <> Some true) by discriminate.
  split; [reflexivity|]. split; [exact Hreal|].
  destruct (proj2 (C8_capture_checks_mock_and_accuracy coarsePosition T0 eq_refl)
              Hreal)
    as (snap & Hsnap & _ & Hacc & _ & Hcoarse & _).
  exists snap. split; [exact Hsnap|].
  assert (H25 : ls_accuracyMeters snap = 25%float) by (rewrite Hacc; reflexivity).
  split; [exact H25|]. apply Hcoarse. rewrite H25. reflexivity.
Defined.




(** C10, the property as the specification words it fails: the disposal
    under a wrong QR code with a fix of accuracy 25 m raises three alerts
    of risk score 90, created blocked; the server-side revalidation of
    that disposal fails (accuracy above 10 m) and adds, for the same
    action, an alert of risk score 70 and of status open. *)
Lemma C10_counterexample_server_alert :
  (exists d,
     disposals afterCoarseWrongQr = [d]
     /\ d_id d = "dispose-g1"
     /\ d_fraudFlags d = [qr_mismatch; geo_fence_failure; location_accuracy_failure]
     /\ resolveBin afterCoarseWrongQr (d_binId d) = Some binOne
     /\ fst (validateGeoOnServer smallAngleMath None (revalidationPayload d binOne))
        = false)
  /\ map (fun al => (fa_actionId al, fa_type al, fa_riskScore al, fa_status al))
         (fraudAlerts afterServerAlert)
     = [ ("dispose-g1", geo_fence_failure, 70, alert_open);
         ("dispose-g1", qr_mismatch, 90, alert_blocked);
         ("dispose-g1", geo_fence_failure, 90, alert_blocked);
         ("dispose-g1", location_accuracy_failure, 90, alert_blocked) ].
Proof.
  split; [|vm_compute; reflexivity].
  vm_compute. eexists. repeat split.
Qed.

(* ================================================================== *)
(** ** Further properties: invariants of the reachable states *)
(* ================================================================== *)

Lemma reachable_invariant (M : MathLib) (loadedAt : Z) (P : AppState -> Prop) :
  P (DEFAULT_STATE loadedAt) ->
  (forall s s', step M loadedAt s s' -> P s -> P s') ->
  forall s, reachable M loadedAt s -> P s.
Proof.
  intros Hinit Hstep s Hreach. unfold reachable in Hreach.
  eapply (rtc_ind_r P); [exact Hinit| |exact Hreach].
  intros y z _ Hyz Hy. eapply Hstep; eassumption.
Qed.

Section MoreFrames.
Variables (env : Env) (state : AppState) (actionId : string).
Variables (types : list FraudAlertType) (messages : FraudAlertType -> string).

Lemma bins_appendFraudAlerts :
  bins (appendFraudAlerts env state actionId types messages) = bins state.
Proof. unfold appendFraudAlerts. destruct types; reflexivity. Qed.

Lemma isOnline_appendFraudAlerts :
  isOnline (appendFraudAlerts env state actionId types messages) = isOnline state.
Proof. unfold appendFraudAlerts. destruct types; reflexivity. Qed.

Lemma pendingActions_appendFraudAlerts :
  pendingActions (appendFraudAlerts env state actionId types messages)
  = pendingActions state.
Proof. unfold appendFraudAlerts. destruct types; reflexivity. Qed.

Lemma lastActionByUser_appendFraudAlerts :
  lastActionByUser (appendFraudAlerts env state actionId types messages)
  = lastActionByUser state.
Proof. unfold appendFraudAlerts. destruct types; reflexivity. Qed.

Lemma syncLog_appendFraudAlerts :
  syncLog (appendFraudAlerts env state actionId types messages) = syncLog state.
Proof. unfold appendFraudAlerts. destruct types; reflexivity. Qed.
End MoreFrames.

Section Credit.
Variables (c : bool) (next : AppState) (w : WalletState).

Lemma wallet_credit :
  wallet (if c then set_wallet next w else next) = if c then w else wallet next.
Proof. destruct c; reflexivity. Qed.

Lemma usedImageHashes_credit :
  usedImageHashes (if c then set_wallet next w else next) = usedImageHashes next.
Proof. destruct c; reflexivity. Qed.

Lemma redemptions_credit :
  redemptions (if c then set_wallet next w else next) = redemptions next.
Proof. destruct c; reflexivity. Qed.

Lemma complaints_credit :
  complaints (if c then set_wallet next w else next) = complaints next.
Proof. destruct c; reflexivity. Qed.

Lemma bins_credit :
  bins (if c then set_wallet next w else next) = bins next.
Proof. destruct c; reflexivity. Qed.

Lemma isOnline_credit :
  isOnline (if c then set_wallet next w else next) = isOnline next.
Proof. destruct c; reflexivity. Qed.

Lemma pendingActions_credit :
  pendingActions (if c then set_wallet next w else next) = pendingActions next.
Proof. destruct c; reflexivity. Qed.

Lemma lastActionByUser_credit :
  lastActionByUser (if c then set_wallet next w else next) = lastActionByUser next.
Proof. destruct c; reflexivity. Qed.

Lemma syncLog_credit :
  syncLog (if c then set_wallet next w else next) = syncLog next.
Proof. destruct c; reflexivity. Qed.
End Credit.

Create Rewrite HintDb state_frames.

#[local] Hint Rewrite
  wallet_appendFraudAlerts disposals_appendFraudAlerts complaints_appendFraudAlerts
  redemptions_appendFraudAlerts usedImageHashes_appendFraudAlerts
  fraudAlerts_appendFraudAlerts bins_appendFraudAlerts isOnline_appendFraudAlerts
  pendingActions_appendFraudAlerts lastActionByUser_appendFraudAlerts
  syncLog_appendFraudAlerts
  wallet_credit usedImageHashes_credit redemptions_credit complaints_credit
  bins_credit isOnline_credit pendingActions_credit lastActionByUser_credit
  syncLog_credit fraudAlerts_credit disposals_credit : state_frames.

(** Projections of the state made by a branch of the transition. *)
Ltac frames := repeat (state_proj; autorewrite with state_frames); state_proj.

(** The state made by a disposal whose bin resolves, field by field, and
    the record it adds. *)
Lemma applyDispose_found
    (M : MathLib) (env : Env) (state : AppState) (a : PendingAction)
    (p : DisposePayload) (bin : Bin) :
  resolveBin state (dp_binId p) = Some bin ->
  exists d entries,
    let state' := applyDispose M env state a p in
    let hash := imageHash (dp_photoUri p) in
    let duplicate := isDuplicateImage (usedImageHashes state) hash in
    disposals state' = d :: disposals state
    /\ usedImageHashes state'
       = (if duplicate then usedImageHashes state else hash :: usedImageHashes state)
    /\ points (wallet state') = points (wallet state) + d_pointsAwarded d
    /\ history (wallet state') = (entries ++ history (wallet state))%list
    /\ Forall (fun e => we_type e = earn /\ we_referenceId e = Some (pa_id a)) entries
    /\ pointsOfType earn entries = d_pointsAwarded d
    /\ fraudAlerts state'
       = (map (fun type =>
                 makeFraudAlert type (pa_id a) (disposeMessages type)
                   (FRAUD_SEVERITY type) (Date_now env)
                   (fraudRiskScore (d_fraudFlags d))) (d_fraudFlags d)
          ++ fraudAlerts state)%list
    /\ redemptions state' = redemptions state
    /\ complaints state' = complaints state
    /\ isOnline state' = isOnline state
    /\ pendingActions state' = pendingActions state
    /\ lastActionByUser state'
       = <[dp_userId p := toUserSnapshot (dp_location p)]> (lastActionByUser state)
    /\ d_id d = pa_id a
    /\ d_userId d = dp_userId p
    /\ d_binId d = dp_binId p
    /\ d_imageHash d = hash
    /\ d_createdAt d = dp_createdAt p
    /\ d_wasteSize d = dp_wasteSize p
    /\ d_qrVerified d = String.eqb (trim (dp_qrCodeId p)) (bin_qrCodeId bin)
    /\ d_geoVerified d
       = (PrimFloat.leb (d_distanceMeters d) 5
          && negb (PrimFloat.ltb MAX_LOCATION_AGE_SECONDS (ls_ageSeconds (dp_location p)))
          && negb (PrimFloat.ltb MAX_ALLOWED_ACCURACY_METERS
                     (ls_accuracyMeters (dp_location p)))
          && negb (ls_isMocked (dp_location p)))
    /\ d_fraudFlags d
       = disposeFlags (d_qrVerified d) (d_geoVerified d) (ls_isMocked (dp_location p))
           duplicate
           (isLocationAnomaly M (lastActionByUser state !! dp_userId p)
              (ls_location (dp_location p)) (dp_createdAt p))
           (existsb
              (fun item =>
                 String.eqb (d_userId item) (dp_userId p)
                 && String.eqb (d_binId item) (dp_binId p)
                 && (Date_now env - DISPOSAL_COOLDOWN_HOURS * 60 * 60 * 1000
                     <? d_createdAt item))
              (disposals state))
           (PrimFloat.ltb MAX_ALLOWED_ACCURACY_METERS (ls_accuracyMeters (dp_location p)))
           (PrimFloat.ltb MAX_LOCATION_AGE_SECONDS (ls_ageSeconds (dp_location p)))
    /\ d_verified d
       = (BinStatus_eqb (bin_status bin) available && d_qrVerified d
          && d_geoVerified d && d_aiVerified d && (length (d_fraudFlags d) =? 0)%nat)
    /\ d_pointsAwarded d
       = (if d_verified d then REGULAR_REWARD_POINTS (dp_wasteSize p) else 0)
         + (if d_verified d
               && forallb
                    (fun item =>
                       negb (String.eqb (d_userId item) (dp_userId p) && d_verified item))
                    (disposals state)
            then FIRST_TIME_USER_BONUS_POINTS else 0)
    /\ (d_rejectionReason d = None <-> d_verified d = true).
Proof.
  intros Hbin. unfold resolveBin in Hbin. unfold applyDispose. rewrite Hbin.
  cbv zeta.
  set (first := forallb _ (disposals state)).
  set (verified := BinStatus_eqb _ _ && _ && _ && _ && _).
  set (flags := disposeFlags _ _ _ _ _ _ _ _).
  frames.
  eexists.
  exists (if 0 <? (if verified then REGULAR_REWARD_POINTS (dp_wasteSize p) else 0)
                  + (if verified && first then FIRST_TIME_USER_BONUS_POINTS else 0)
          then
            {| we_id := makeId env 0 "wallet";
               we_type := earn;
               we_points := if verified then REGULAR_REWARD_POINTS (dp_wasteSize p) else 0;
               we_reason := "AI verified " ++ wasteSizeName (dp_wasteSize p)
                                           ++ " waste disposal";
               we_source := ai_disposal_verified;
               we_referenceId := Some (pa_id a);
               we_createdAt := dp_createdAt p |}
            :: (if 0 <? (if verified && first then FIRST_TIME_USER_BONUS_POINTS else 0)
                then
                  [ {| we_id := makeId env 1 "wallet";
                       we_type := earn;
                       we_points :=
                         if verified && first then FIRST_TIME_USER_BONUS_POINTS else 0;
                       we_reason := "First successful disposal bonus";
                       we_source := first_time_bonus;
                       we_referenceId := Some (pa_id a);
                       we_createdAt := dp_createdAt p |} ]
                else [])
          else []).
  split; [reflexivity|]. split; [reflexivity|].
  cbn [d_pointsAwarded d_fraudFlags d_id d_userId d_binId d_imageHash d_createdAt
       d_wasteSize d_qrVerified d_geoVerified d_verified d_rejectionReason
       d_distanceMeters d_aiVerified].
  assert (Hreg : 0 <= REGULAR_REWARD_POINTS (dp_wasteSize p))
    by (destruct (dp_wasteSize p); discriminate).
  change FIRST_TIME_USER_BONUS_POINTS with 50.
  split.
  { destruct (0 <? _) eqn:Hpos; state_proj; [reflexivity|].
    apply Z.ltb_ge in Hpos. destruct verified, first; cbn [andb] in *; lia. }
  split.
  { destruct (0 <? _); reflexivity. }
  split.
  { destruct (0 <? _); [|constructor].
    constructor; [split; reflexivity|].
    destruct (0 <? _); [|constructor].
    constructor; [split; reflexivity|constructor]. }
  split.
  { unfold pointsOfType.
    destruct (0 <? (if verified then _ else 0) + _) eqn:Hpos.
    - destruct (verified && first); cbn [foldr we_type we_points].
      + replace (0 <? 50) with true by reflexivity. cbn [foldr we_type we_points]. lia.
      + replace (0 <? 0) with false by reflexivity. cbn [foldr]. lia.
    - apply Z.ltb_ge in Hpos. cbn [foldr].
      destruct verified, first; cbn [andb] in *; lia. }
  repeat (split; [reflexivity|]).
  destruct verified; split; intros; (reflexivity || discriminate).
Qed.

Lemma applyDispose_missing
    (M : MathLib) (env : Env) (state : AppState) (a : PendingAction)
    (p : DisposePayload) :
  resolveBin state (dp_binId p) = None ->
  applyDispose M env state a p
  = addLog env state
      ("Disposal " ++ pa_id a ++ " failed: selected bin not found.").
Proof.
  intros Hbin. unfold resolveBin in Hbin. unfold applyDispose. rewrite Hbin.
  reflexivity.
Qed.

Lemma awarded_bounds (verified first : bool) (w : WasteSizeClass) :
  0 <= (if verified then REGULAR_REWARD_POINTS w else 0)
       + (if verified && first then FIRST_TIME_USER_BONUS_POINTS else 0) <= 70.
Proof. destruct verified, first, w; cbn; split; discriminate. Qed.

(** Case analysis of an applied action: the branches other than a
    disposal, with their lookups decided. *)
Ltac open_branch :=
  unfold applyReportIssue, applyReportBinFull, applySubmitCleanup,
    applyVerifyCleanup, applyRedeemReward;
  cbv zeta;
  repeat match goal with
         | |- context [match findIndex ?f ?l with _ => _ end] =>
             let i := fresh "i" in
             let Hi := fresh "Hi" in
             destruct (findIndex f l) as [i|] eqn:Hi
         | |- context [match ?l !! ?i with _ => _ end] =>
             let c := fresh "c" in
             let Hc := fresh "Hc" in
             destruct (l !! i) as [c|] eqn:Hc
         | |- context [if ?x <? ?y then addLog _ _ _ else _] =>
             let Hlow := fresh "Hlow" in
             destruct (Z.ltb_spec x y) as [Hlow|Hlow]
         end;
  frames.

Section BranchFrames.
Variables (M : MathLib) (env : Env) (state : AppState) (a : PendingAction).

Lemma disposals_kept :
  match pa_payload a with
  | dispose _ => True
  | _ => disposals (applyAction M env state a) = disposals state
  end.
Proof.
  unfold applyAction. destruct (pa_payload a); [exact I|..]; open_branch; reflexivity.
Qed.

Lemma redemptions_kept :
  match pa_payload a with
  | redeem_reward _ => True
  | _ => redemptions (applyAction M env state a) = redemptions state
  end.
Proof.
  unfold applyAction. destruct (pa_payload a) as [p|p|p|p|p|p];
    try exact I; try (open_branch; reflexivity).
  destruct (resolveBin state (dp_binId p)) as [bin|] eqn:Hbin.
  - destruct (applyDispose_found M env state a p bin Hbin) as (d & entries & H).
    cbv zeta in H. tauto.
  - rewrite applyDispose_missing by exact Hbin. reflexivity.
Qed.

Lemma wallet_kept :
  match pa_payload a with
  | dispose _ | redeem_reward _ => True
  | _ => wallet (applyAction M env state a) = wallet state
  end.
Proof.
  unfold applyAction. destruct (pa_payload a); try exact I; open_branch; reflexivity.
Qed.
End BranchFrames.

Lemma wallet_nonneg_applyAction
    (M : MathLib) (env : Env) (state : AppState) (a : PendingAction) :
  0 <= points (wallet state) -> 0 <= points (wallet (applyAction M env state a)).
Proof.
  intros Hpos. pose proof (wallet_kept M env state a) as Hkept.
  unfold applyAction in *. destruct (pa_payload a) as [p|p|p|p|p|p];
    try (rewrite Hkept; exact Hpos).
  - destruct (resolveBin state (dp_binId p)) as [bin|] eqn:Hbin.
    + destruct (applyDispose_found M env state a p bin Hbin) as (d & entries & H).
      cbv zeta in H. destruct H as (_ & _ & Hpts & H).
      rewrite Hpts.
      assert (Haw : d_pointsAwarded d
                    = (if d_verified d then REGULAR_REWARD_POINTS (dp_wasteSize p) else 0)
                      + (if d_verified d
                            && forallb
                                 (fun item =>
                                    negb (String.eqb (d_userId item) (dp_userId p)
                                          && d_verified item))
                                 (disposals state)
                         then FIRST_TIME_USER_BONUS_POINTS else 0)) by tauto.
      pose proof (awarded_bounds (d_verified d)
                    (forallb
                       (fun item =>
                          negb (String.eqb (d_userId item) (dp_userId p)
                                && d_verified item))
                       (disposals state)) (dp_wasteSize p)). lia.
    + rewrite applyDispose_missing by exact Hbin. exact Hpos.
  - open_branch; [exact Hpos|]. lia.
Qed.

(** X1. In every reachable state the balance of the wallet is not
    negative: a redemption is only made when the balance covers it. *)
Theorem X1_wallet_never_overdrawn (M : MathLib) (loadedAt : Z) (state : AppState) :
  reachable M loadedAt state -> 0 <= points (wallet state).
Proof.
  revert state. apply reachable_invariant.
  - cbn. lia.
  - intros s s' Hstep Hs. destruct Hstep; try exact Hs.
    + apply wallet_nonneg_applyAction. exact Hs.
    + cbn. lia.
Qed.

Lemma sample_states_reachable :
  reachable smallAngleMath 0 afterFirst
  /\ reachable smallAngleMath 0 walletOfSeventy
  /\ reachable smallAngleMath 0 afterRedeem.
Proof.
  assert (H1 : reachable smallAngleMath 0 afterFirst).
  { eapply rtc_l; [|apply rtc_refl].
    exact (step_apply smallAngleMath 0 (sampleEnv T0) _ firstDisposal). }
  assert (H2 : reachable smallAngleMath 0 walletOfSeventy).
  { eapply rtc_r; [exact H1|].
    exact (step_apply smallAngleMath 0 (sampleEnv (T0 + 3 * oneHour)) afterFirst
             thirdDisposal). }
  split; [exact H1|]. split; [exact H2|].
  eapply rtc_r; [exact H2|].
  exact (step_apply smallAngleMath 0 (sampleEnv (T0 + 4 * oneHour)) walletOfSeventy
           redeemFifty).
Qed.

(** X1 on the state reached by two verified disposals and a redemption. *)
Lemma X1_witness_after_redeem :
  reachable smallAngleMath 0 afterRedeem /\ 0 <= points (wallet afterRedeem).
Proof.
  split; [apply sample_states_reachable|].
  apply (X1_wallet_never_overdrawn smallAngleMath 0 afterRedeem).
  apply sample_states_reachable.
Defined.

Lemma balance_records_applyAction
    (M : MathLib) (env : Env) (state : AppState) (a : PendingAction) :
  points (wallet state)
  = totalAwarded (disposals state) - totalUsed (redemptions state) ->
  points (wallet (applyAction M env state a))
  = totalAwarded (disposals (applyAction M env state a))
    - totalUsed (redemptions (applyAction M env state a)).
Proof.
  intros Hinv.
  pose proof (wallet_kept M env state a) as Hw.
  pose proof (disposals_kept M env state a) as Hd.
  pose proof (redemptions_kept M env state a) as Hr.
  unfold applyAction in *. destruct (pa_payload a) as [p|p|p|p|p|p];
    try (rewrite Hw, Hd, Hr; exact Hinv).
  - destruct (resolveBin state (dp_binId p)) as [bin|] eqn:Hbin.
    + destruct (applyDispose_found M env state a p bin Hbin) as (d & entries & H).
      cbv zeta in H. destruct H as (Hds & _ & Hpts & _). rewrite Hr, Hpts, Hds.
      cbn [totalAwarded foldr]. fold (totalAwarded (disposals state)). lia.
    + rewrite applyDispose_missing by exact Hbin. exact Hinv.
  - rewrite Hd. clear Hw Hd Hr. open_branch; [exact Hinv|].
    cbn [totalUsed foldr rr_pointsUsed]. fold (totalUsed (redemptions state)). lia.
Qed.

(** X2. In every reachable state the balance of the wallet is the sum of
    the points awarded by the recorded disposals less the sum of the points
    used by the recorded redemptions. *)
Theorem X2_balance_matches_records (M : MathLib) (loadedAt : Z) (state : AppState) :
  reachable M loadedAt state ->
  points (wallet state)
  = totalAwarded (disposals state) - totalUsed (redemptions state).
Proof.
  revert state. apply reachable_invariant.
  - reflexivity.
  - intros s s' Hstep Hs. destruct Hstep; try exact Hs.
    + apply balance_records_applyAction. exact Hs.
    + reflexivity.
Qed.

(** X2 on the state reached by two verified disposals and a redemption:
    60 + 10 - 50 = 20. *)
Lemma X2_witness_after_redeem :
  reachable smallAngleMath 0 afterRedeem
  /\ points (wallet afterRedeem)
     = totalAwarded (disposals afterRedeem) - totalUsed (redemptions afterRedeem).
Proof.
  split; [apply sample_states_reachable|].
  apply (X2_balance_matches_records smallAngleMath 0 afterRedeem).
  apply sample_states_reachable.
Defined.

Lemma length_addLog (env : Env) (state : AppState) (message : string) :
  (length (syncLog (addLog env state message)) <= 40)%nat.
Proof. state_proj. apply firstn_le_length. Qed.

Lemma syncLog_applyAction
    (M : MathLib) (env : Env) (state : AppState) (a : PendingAction) :
  exists message,
    syncLog (applyAction M env state a)
    = firstn 40 ((localeTime env ++ " - " ++ message) :: syncLog state).
Proof.
  unfold applyAction. destruct (pa_payload a) as [p|p|p|p|p|p].
  - unfold applyDispose. destruct (List.find _ (bins state)); cbv zeta; frames;
      eexists; reflexivity.
  - open_branch; eexists; reflexivity.
  - open_branch; eexists; reflexivity.
  - open_branch; eexists; reflexivity.
  - open_branch; eexists; reflexivity.
  - open_branch; eexists; reflexivity.
Qed.

(** X3. In every reachable state the log holds at most 40 lines. *)
Theorem X3_log_bounded (M : MathLib) (loadedAt : Z) (state : AppState) :
  reachable M loadedAt state -> (length (syncLog state) <= 40)%nat.
Proof.
  revert state. apply reachable_invariant.
  - cbn. lia.
  - intros s s' Hstep Hs. destruct Hstep; try exact Hs; try apply length_addLog.
    + destruct (syncLog_applyAction M env s a) as [message ->].
      apply firstn_le_length.
    + cbn. lia.
Qed.

(** X3 on the state reached by two verified disposals and a redemption. *)
Lemma X3_witness_after_redeem :
  reachable smallAngleMath 0 afterRedeem
  /\ (length (syncLog afterRedeem) <= 40)%nat.
Proof.
  split; [apply sample_states_reachable|].
  apply (X3_log_bounded smallAngleMath 0 afterRedeem).
  apply sample_states_reachable.
Defined.

(** X4. Every applied action, whatever its type and its outcome, writes
    exactly one line in front of the log, stamped with the wall clock
    text, and the log keeps the 40 newest lines in their order. *)
Theorem X4_every_action_logs_one_line
    (M : MathLib) (env : Env) (state : AppState) (a : PendingAction) :
  exists message,
    syncLog (applyAction M env state a)
    = firstn 40 ((localeTime env ++ " - " ++ message) :: syncLog state)
    /\ hd_error (syncLog (applyAction M env state a))
       = Some (localeTime env ++ " - " ++ message)
    /\ tl (syncLog (applyAction M env state a)) = firstn 39 (syncLog state).
Proof.
  destruct (syncLog_applyAction M env state a) as [message Hlog].
  exists message. rewrite Hlog. repeat split.
Qed.

Lemma In_list_insert {A : Type} (l : list A) (i : nat) (x y : A) :
  In y (<[i := x]> l) -> y = x \/ In y l.
Proof.
  revert i. induction l as [|z l IH]; intros i; [intros []|].
  destruct i as [|i]; cbn.
  - intros [<-|H]; tauto.
  - intros [<-|H]; [tauto|]. destruct (IH i H); tauto.
Qed.

Lemma disposeFlags_nil qr geo mocked dup anomaly cooldown lowAcc tooOld :
  disposeFlags qr geo mocked dup anomaly cooldown lowAcc tooOld = [] ->
  qr = true /\ geo = true /\ mocked = false /\ dup = false /\ anomaly = false
  /\ cooldown = false /\ lowAcc = false /\ tooOld = false.
Proof.
  unfold disposeFlags. rewrite !pushIf_nil, !negb_false_iff. tauto.
Qed.

Lemma grown_used (used : list string) (hash : string) :
  let used' := if isDuplicateImage used hash then used else hash :: used in
  In hash used' /\ (forall h, In h used -> In h used')
  /\ (List.NoDup used -> List.NoDup used').
Proof.
  cbv zeta. pose proof (isDuplicateImage_spec used hash) as Hdup.
  destruct (isDuplicateImage used hash).
  - split; [apply Hdup; reflexivity|]. split; [tauto|tauto].
  - split; [left; reflexivity|]. split; [intros h Hh; right; exact Hh|].
    intros Hnd. constructor; [|exact Hnd].
    intros Hin. apply Hdup in Hin. discriminate.
Qed.

Lemma hashes_applyAction
    (M : MathLib) (env : Env) (state : AppState) (a : PendingAction) :
  List.NoDup (usedImageHashes state) /\ hashesTracked state
  /\ List.NoDup (verifiedHashes (disposals state)) ->
  List.NoDup (usedImageHashes (applyAction M env state a))
  /\ hashesTracked (applyAction M env state a)
  /\ List.NoDup (verifiedHashes (disposals (applyAction M env state a))).
Proof.
  intros (Hnd & (Hds & Hcs) & Hver).
  pose proof (disposals_kept M env state a) as Hd.
  unfold hashesTracked, applyAction in *.
  destruct (pa_payload a) as [p|p|p|p|p|p].
  - (* dispose *)
    destruct (resolveBin state (dp_binId p)) as [bin|] eqn:Hbin;
      [|rewrite applyDispose_missing by exact Hbin; state_proj; tauto].
    destruct (applyDispose_found M env state a p bin Hbin) as (d & entries & H).
    cbv zeta in H.
    destruct H as (Hdisp & Hused & _ & _ & _ & _ & _ & _ & Hcomp & _ & _ & _ & _ & _
                   & _ & Hhash & _ & _ & _ & _ & Hflags & Hverified & _).
    rewrite Hdisp, Hused, Hcomp.
    destruct (grown_used (usedImageHashes state) (imageHash (dp_photoUri p)))
      as (Hin & Hmono & Hkeep). cbv zeta in Hin, Hmono, Hkeep.
    split; [apply Hkeep; exact Hnd|]. split; [split|].
    + intros d' [<-|Hd']; [rewrite Hhash; exact Hin|]. apply Hmono, Hds, Hd'.
    + intros c Hc. destruct (Hcs c Hc) as [Hc1 Hc2]. split; [apply Hmono, Hc1|].
      intros proof Hp. apply Hmono, (Hc2 proof Hp).
    + unfold verifiedHashes in *. cbn [List.filter].
      destruct (d_verified d) eqn:Hv; [|exact Hver].
      cbn [map]. constructor; [|exact Hver].
      symmetry in Hverified. rewrite !andb_true_iff, length_zero_nil in Hverified.
      destruct Hverified as (_ & Hnil). rewrite Hflags in Hnil.
      apply disposeFlags_nil in Hnil. destruct Hnil as (_ & _ & _ & Hdup & _).
      intros Hin'. apply in_map_iff in Hin' as (d' & Hh' & Hd').
      apply filter_In in Hd' as [Hd' _]. apply Hds in Hd'.
      rewrite Hh', Hhash in Hd'. apply isDuplicateImage_spec in Hd'. congruence.
  - (* report_issue *)
    rewrite Hd. unfold applyReportIssue. cbv zeta. frames.
    destruct (grown_used (usedImageHashes state) (imageHash (ri_photoUri p)))
      as (Hin & Hmono & Hkeep). cbv zeta in Hin, Hmono, Hkeep.
    split; [apply Hkeep; exact Hnd|]. split; [split|exact Hver].
    + intros d' Hd'. apply Hmono, Hds, Hd'.
    + intros c [<-|Hc]; cbn [c_imageHash c_cleanupProof].
      * split; [exact Hin|discriminate].
      * destruct (Hcs c Hc) as [Hc1 Hc2]. split; [apply Hmono, Hc1|].
        intros proof Hp. apply Hmono, (Hc2 proof Hp).
  - (* submit_cleanup *)
    rewrite Hd. clear Hd. open_branch; try tauto.
    destruct (grown_used (usedImageHashes state) (imageHash (sc_photoUri p)))
      as (Hin & Hmono & Hkeep). cbv zeta in Hin, Hmono, Hkeep.
    split; [apply Hkeep; exact Hnd|]. split; [split|exact Hver].
    + intros d' Hd'. apply Hmono, Hds, Hd'.
    + intros c' Hc'. apply In_list_insert in Hc' as [->|Hc'];
        cbn [c_imageHash c_cleanupProof].
      * assert (Hcin : In c (complaints state)).
        { apply list_elem_of_In. eapply list_elem_of_lookup_2. exact Hc. }
        destruct (Hcs c Hcin) as [Hc1 _]. split; [apply Hmono, Hc1|].
        intros proof [= <-]. cbn [cp_imageHash]. exact Hin.
      * destruct (Hcs c' Hc') as [Hc1 Hc2]. split; [apply Hmono, Hc1|].
        intros proof Hp. apply Hmono, (Hc2 proof Hp).
  - (* verify_cleanup *)
    rewrite Hd. clear Hd. open_branch; try tauto.
    split; [exact Hnd|]. split; [split; [exact Hds|]|exact Hver].
    intros c' Hc'. apply In_list_insert in Hc' as [->|Hc'];
      cbn [c_imageHash c_cleanupProof]; [|apply Hcs, Hc'].
    apply Hcs. apply list_elem_of_In. eapply list_elem_of_lookup_2. exact Hc.
  - (* redeem_reward *)
    rewrite Hd. clear Hd. open_branch; tauto.
  - (* report_bin_full *)
    rewrite Hd. clear Hd. open_branch. tauto.
Qed.

Lemma hashes_reachable (M : MathLib) (loadedAt : Z) (state : AppState) :
  reachable M loadedAt state ->
  List.NoDup (usedImageHashes state) /\ hashesTracked state
  /\ List.NoDup (verifiedHashes (disposals state)).
Proof.
  revert state. apply reachable_invariant.
  - split; [constructor|]. split; [split; intros ? []|constructor].
  - intros s s' Hstep Hs. destruct Hstep; try exact Hs.
    + apply hashes_applyAction. exact Hs.
    + split; [constructor|]. split; [split; intros ? []|constructor].
Qed.

(** X5. In every reachable state no hash occurs twice among the used
    image hashes. *)
Theorem X5_used_hashes_without_repetition
    (M : MathLib) (loadedAt : Z) (state : AppState) :
  reachable M loadedAt state -> List.NoDup (usedImageHashes state).
Proof.
  intros Hreach. apply hashes_reachable in Hreach.
  destruct Hreach as (Hnd & _ & _). exact Hnd.
Qed.

(** X5 on the state reached by two verified disposals and a redemption. *)
Lemma X5_witness_after_redeem :
  reachable smallAngleMath 0 afterRedeem /\ List.NoDup (usedImageHashes afterRedeem).
Proof.
  split; [apply sample_states_reachable|].
  apply (X5_used_hashes_without_repetition smallAngleMath 0 afterRedeem).
  apply sample_states_reachable.
Defined.

(** X6. In every reachable state the image hash of every recorded
    disposal, of every complaint and of every attached cleanup proof is
    among the used hashes, whether the submission was accepted or not. *)
Theorem X6_recorded_hashes_are_used
    (M : MathLib) (loadedAt : Z) (state : AppState) :
  reachable M loadedAt state -> hashesTracked state.
Proof.
  intros Hreach. apply hashes_reachable in Hreach.
  destruct Hreach as (_ & Htracked & _). exact Htracked.
Qed.

(** X6 on the state reached by two verified disposals and a redemption. *)
Lemma X6_witness_after_redeem :
  reachable smallAngleMath 0 afterRedeem /\ hashesTracked afterRedeem.
Proof.
  split; [apply sample_states_reachable|].
  apply (X6_recorded_hashes_are_used smallAngleMath 0 afterRedeem).
  apply sample_states_reachable.
Defined.

(** X7. In every reachable state the verified disposals have pairwise
    different image hashes: a photo is verified at most once. *)
Theorem X7_photo_verified_at_most_once
    (M : MathLib) (loadedAt : Z) (state : AppState) :
  reachable M loadedAt state -> List.NoDup (verifiedHashes (disposals state)).
Proof.
  intros Hreach. apply hashes_reachable in Hreach.
  destruct Hreach as (_ & _ & Hver). exact Hver.
Qed.

(** X7 on the state reached by two verified disposals and a redemption. *)
Lemma X7_witness_after_redeem :
  reachable smallAngleMath 0 afterRedeem
  /\ List.NoDup (verifiedHashes (disposals afterRedeem)).
Proof.
  split; [apply sample_states_reachable|].
  apply (X7_photo_verified_at_most_once smallAngleMath 0 afterRedeem).
  apply sample_states_reachable.
Defined.

Lemma alerts_added
    (M : MathLib) (env : Env) (state : AppState) (a : PendingAction) :
  exists types messages,
    fraudAlerts (applyAction M env state a)
    = (map (fun type =>
              makeFraudAlert type (pa_id a) (messages type) (FRAUD_SEVERITY type)
                (Date_now env) (fraudRiskScore types)) types
       ++ fraudAlerts state)%list.
Proof.
  unfold applyAction. destruct (pa_payload a) as [p|p|p|p|p|p].
  - unfold applyDispose. destruct (List.find _ (bins state));
      [|exists [], disposeMessages; reflexivity].
    cbv zeta. frames. do 2 eexists. reflexivity.
  - unfold applyReportIssue. cbv zeta. frames. do 2 eexists. reflexivity.
  - open_branch; try (exists [], cleanupMessages; reflexivity).
    do 2 eexists. reflexivity.
  - open_branch; exists [], cleanupMessages; reflexivity.
  - open_branch; exists [], cleanupMessages; reflexivity.
  - open_branch; exists [], cleanupMessages; reflexivity.
Qed.

Lemma makeFraudAlert_consistent type actionId message severity createdAt score :
  alertConsistent (makeFraudAlert type actionId message severity createdAt score).
Proof.
  unfold alertConsistent. rewrite makeFraudAlert_status.
  cbn [fa_riskScore makeFraudAlert].
  destruct (Z.leb_spec 80 score); split; intros; (lia || discriminate).
Qed.

(** X8. In every reachable state the status of every fraud alert agrees
    with its risk score: a blocked alert has a score of at least 80 and an
    open alert a score below 80 (a reviewed alert may have any score). *)
Theorem X8_alert_status_agrees_with_score
    (M : MathLib) (loadedAt : Z) (state : AppState) :
  reachable M loadedAt state -> Forall alertConsistent (fraudAlerts state).
Proof.
  revert state. apply reachable_invariant.
  - constructor.
  - intros s s' Hstep Hs. destruct Hstep; try exact Hs.
    + destruct (alerts_added M env s a) as (types & messages & ->).
      apply Forall_app. split; [|exact Hs].
      apply Forall_forall. intros al Hal. apply list_elem_of_In in Hal.
      apply in_map_iff in Hal as (t & <- & _). apply makeFraudAlert_consistent.
    + state_proj. constructor; [apply makeFraudAlert_consistent|exact Hs].
    + unfold markFraudReviewed. state_proj.
      apply Forall_forall. intros al Hal. apply list_elem_of_In in Hal.
      apply in_map_iff in Hal as (al' & <- & Hal').
      destruct (String.eqb _ _).
      * split; discriminate.
      * rewrite Forall_forall in Hs. apply Hs, list_elem_of_In, Hal'.
    + constructor.
Qed.

Lemma rejected_states_reachable :
  reachable smallAngleMath 0 afterRejected
  /\ reachable smallAngleMath 0 afterRejectedThenGood.
Proof.
  assert (H1 : reachable smallAngleMath 0 afterRejected).
  { eapply rtc_l; [|apply rtc_refl].
    exact (step_apply smallAngleMath 0 (sampleEnv T0) _
             (disposeAction "dispose-r1" "WRONG-CODE" "file:///data/photo-001.jpg"
                medium T0)). }
  split; [exact H1|].
  eapply rtc_r; [exact H1|].
  exact (step_apply smallAngleMath 0 (sampleEnv (T0 + 1000)) afterRejected
           (disposeAction "dispose-r2" "MMC-BIN-001" "file:///data/photo-002.jpg"
              medium (T0 + 1000))).
Qed.

(** X8 on the state reached by a disposal rejected for a wrong QR code. *)
Lemma X8_witness_after_rejected :
  reachable smallAngleMath 0 afterRejected
  /\ Forall alertConsistent (fraudAlerts afterRejected).
Proof.
  split; [apply rejected_states_reachable|].
  apply (X8_alert_status_agrees_with_score smallAngleMath 0 afterRejected).
  apply rejected_states_reachable.
Defined.

Lemma recordExplained_applyAction
    (M : MathLib) (env : Env) (state : AppState) (a : PendingAction) :
  Forall recordExplained (disposals state) ->
  Forall recordExplained (disposals (applyAction M env state a)).
Proof.
  intros Hs. pose proof (disposals_kept M env state a) as Hkept.
  unfold applyAction in *. destruct (pa_payload a) as [p|p|p|p|p|p];
    try (rewrite Hkept; exact Hs).
  destruct (resolveBin state (dp_binId p)) as [bin|] eqn:Hbin;
    [|rewrite applyDispose_missing by exact Hbin; exact Hs].
  destruct (applyDispose_found M env state a p bin Hbin) as (d & entries & H).
  cbv zeta in H.
  destruct H as (Hdisp & _ & _ & _ & _ & _ & _ & _ & _ & _ & _ & _ & _ & _
                 & _ & _ & _ & Hsize & _ & _ & _ & Hverified & Hpoints & Hreason).
  rewrite Hdisp. constructor; [|exact Hs].
  split; intros Hv; rewrite Hv in Hpoints, Hverified.
  - symmetry in Hverified. rewrite !andb_true_iff, length_zero_nil in Hverified.
    destruct Hverified as ((((_ & Hqr) & Hgeo) & Hai) & Hnil).
    repeat (split; [assumption|]). split; [apply Hreason; exact Hv|].
    rewrite Hsize, Hpoints. cbn [andb].
    destruct (forallb _ _); [right|left]; unfold FIRST_TIME_USER_BONUS_POINTS; lia.
  - split; [rewrite Hpoints; reflexivity|].
    intros Hnone. apply Hreason in Hnone. congruence.
Qed.

(** X9. In every reachable state every disposal record explains itself: a
    verified record passed the QR, geo-fence and image checks, carries no
    fraud flag and no rejection reason, and awards the regular points of
    its waste size with or without the first-time bonus of 50; a rejected
    record awards no points and carries a rejection reason. *)
Theorem X9_disposal_records_explained
    (M : MathLib) (loadedAt : Z) (state : AppState) :
  reachable M loadedAt state -> Forall recordExplained (disposals state).
Proof.
  revert state. apply reachable_invariant.
  - constructor.
  - intros s s' Hstep Hs. destruct Hstep; try exact Hs.
    + apply recordExplained_applyAction. exact Hs.
    + constructor.
Qed.

(** X9 on the state reached by a rejected disposal and a verified one. *)
Lemma X9_witness_rejected_then_good :
  reachable smallAngleMath 0 afterRejectedThenGood
  /\ Forall recordExplained (disposals afterRejectedThenGood).
Proof.
  split; [apply rejected_states_reachable|].
  apply (X9_disposal_records_explained smallAngleMath 0 afterRejectedThenGood).
  apply rejected_states_reachable.
Defined.

Lemma complaintConsistent_applyAction
    (M : MathLib) (env : Env) (state : AppState) (a : PendingAction) :
  Forall complaintConsistent (complaints state) ->
  Forall complaintConsistent (complaints (applyAction M env state a)).
Proof.
  intros Hs. unfold applyAction. destruct (pa_payload a) as [p|p|p|p|p|p].
  - destruct (resolveBin state (dp_binId p)) as [bin|] eqn:Hbin;
      [|rewrite applyDispose_missing by exact Hbin; exact Hs].
    destruct (applyDispose_found M env state a p bin Hbin) as (d & entries & H).
    cbv zeta in H.
    destruct H as (_ & _ & _ & _ & _ & _ & _ & _ & -> & _). exact Hs.
  - unfold applyReportIssue. cbv zeta. frames. constructor; [|exact Hs].
    unfold complaintConsistent. cbn [c_status c_resolvedAt c_verification].
    split; [discriminate|]. split; [discriminate|discriminate].
  - open_branch; try exact Hs. apply Forall_insert; [exact Hs|].
    pose proof (Forall_lookup_1 _ _ _ _ Hs Hc) as (Hres & Hat & Hassigned).
    unfold complaintConsistent. cbn [c_status c_resolvedAt c_verification].
    destruct (_ && _ && _ && _); [|tauto].
    split; [discriminate|]. split; [exact Hat|discriminate].
  - open_branch; try exact Hs. apply Forall_insert; [exact Hs|].
    unfold complaintConsistent. cbn [c_status c_resolvedAt c_verification].
    destruct (vc_accepted p).
    + split; [discriminate|]. split; [|discriminate].
      intros t [= <-]. eexists. split; [reflexivity|]. split; reflexivity.
    + split; [discriminate|]. split; [discriminate|discriminate].
  - open_branch; exact Hs.
  - open_branch. exact Hs.
Qed.

(** X10. In every reachable state every complaint is consistent with its
    life cycle: a resolved complaint has a resolution time, a resolution
    time is the time of a verification that accepted the cleanup, and no
    complaint has the status assigned. *)
Theorem X10_complaint_life_cycle
    (M : MathLib) (loadedAt : Z) (state : AppState) :
  reachable M loadedAt state -> Forall complaintConsistent (complaints state).
Proof.
  revert state. apply reachable_invariant.
  - constructor.
  - intros s s' Hstep Hs. destruct Hstep; try exact Hs.
    + apply complaintConsistent_applyAction. exact Hs.
    + constructor.
Qed.

Lemma complaint_states_reachable :
  reachable smallAngleMath 0 afterReport
  /\ reachable smallAngleMath 0 afterCleanup
  /\ reachable smallAngleMath 0 afterResolved.
Proof.
  assert (H1 : reachable smallAngleMath 0 afterReport).
  { eapply rtc_l; [|apply rtc_refl].
    exact (step_apply smallAngleMath 0 (sampleEnv T0) _ reportAction). }
  assert (H2 : reachable smallAngleMath 0 afterCleanup).
  { eapply rtc_r; [exact H1|].
    exact (step_apply smallAngleMath 0 (sampleEnv (T0 + oneHour)) afterReport
             (cleanupAction "file:///data/after-001.jpg")). }
  split; [exact H1|]. split; [exact H2|].
  eapply rtc_r; [exact H2|].
  exact (step_apply smallAngleMath 0 (sampleEnv (T0 + 2 * oneHour)) afterCleanup
           (verifyAction true)).
Qed.

(** X10 on the state of a complaint reported, cleaned and resolved. *)
Lemma X10_witness_after_resolved :
  reachable smallAngleMath 0 afterResolved
  /\ Forall complaintConsistent (complaints afterResolved).
Proof.
  split; [apply complaint_states_reachable|].
  apply (X10_complaint_life_cycle smallAngleMath 0 afterResolved).
  apply complaint_states_reachable.
Defined.

Example scenario_complaint_resolved :
  map (fun c => (c_id c, c_status c, c_resolvedAt c)) (complaints afterCleanup)
  = [("complaint-e1", complaint_in_progress, None)]
  /\ map (fun c => (c_id c, c_status c, c_resolvedAt c)) (complaints afterResolved)
     = [("complaint-e1", complaint_resolved, Some (T0 + 2 * oneHour))].
Proof. split; vm_compute; reflexivity. Qed.

Lemma NoDup_pushIf (b : bool) (t : FraudAlertType) (flags : list FraudAlertType) :
  List.NoDup flags -> ~ In t flags -> List.NoDup (pushIf b t flags).
Proof.
  intros Hnd Hin. unfold pushIf. destruct b; [|exact Hnd].
  apply List.NoDup_app; [exact Hnd| |].
  - constructor; [intros []|constructor].
  - intros x Hx [<-|[]]. exact (Hin Hx).
Qed.

Lemma disposeFlags_explained qr distanceOk mocked dup anomaly cooldown lowAcc tooOld :
  let geo := distanceOk && negb tooOld && negb lowAcc && negb mocked in
  let flags := disposeFlags qr geo mocked dup anomaly cooldown lowAcc tooOld in
  List.NoDup flags
  /\ (In qr_mismatch flags <-> qr = false)
  /\ (In geo_fence_failure flags <-> geo = false)
  /\ (In mock_location_detected flags <-> mocked = true)
  /\ (In location_accuracy_failure flags <-> lowAcc = true)
  /\ (In timestamp_invalid flags <-> tooOld = true)
  /\ (In duplicate_image flags <-> dup = true)
  /\ (In location_anomaly flags <-> anomaly = true)
  /\ (In cooldown_violation flags <-> cooldown = true)
  /\ ~ In before_after_mismatch flags.
Proof.
  cbv zeta. unfold disposeFlags. split.
  { repeat (apply NoDup_pushIf;
            [|rewrite ?In_pushIf; cbn [In]; intuition discriminate]).
    constructor. }
  rewrite !In_pushIf. cbn [In]. rewrite !negb_true_iff.
  repeat split; intros; intuition (congruence || discriminate).
Qed.

Lemma flagsExplained_applyAction
    (M : MathLib) (env : Env) (state : AppState) (a : PendingAction) :
  Forall flagsExplained (disposals state) ->
  Forall flagsExplained (disposals (applyAction M env state a)).
Proof.
  intros Hs. pose proof (disposals_kept M env state a) as Hkept.
  unfold applyAction in *. destruct (pa_payload a) as [p|p|p|p|p|p];
    try (rewrite Hkept; exact Hs).
  destruct (resolveBin state (dp_binId p)) as [bin|] eqn:Hbin;
    [|rewrite applyDispose_missing by exact Hbin; exact Hs].
  destruct (applyDispose_found M env state a p bin Hbin) as (d & entries & H).
  cbv zeta in H.
  destruct H as (Hdisp & _ & _ & _ & _ & _ & _ & _ & _ & _ & _ & _ & _ & _
                 & _ & _ & _ & _ & _ & Hgeo & Hflags & _).
  rewrite Hdisp. constructor; [|exact Hs].
  unfold flagsExplained. rewrite Hflags, Hgeo.
  match goal with
  | |- context [disposeFlags ?qr (?dist && _ && _ && _) ?mocked ?dup ?anomaly
                  ?cooldown ?lowAcc ?tooOld] =>
      pose proof (disposeFlags_explained qr dist mocked dup anomaly cooldown
                    lowAcc tooOld) as Hex
  end.
  cbv zeta in Hex.
  destruct Hex as (Hnd & Hqr & Hgf & Hmock & Hacc & Hold & _ & _ & _ & Hbam).
  split; [exact Hnd|]. split; [exact Hqr|]. split; [exact Hgf|].
  split; [|exact Hbam].
  rewrite Hmock, Hacc, Hold, Hgf.
  intros [-> | [-> | ->]]; rewrite ?andb_false_r; reflexivity.
Qed.

(** X11. In every reachable state the fraud flags of every disposal
    record agree with its check results: no flag occurs twice, the
    qr_mismatch flag is there exactly when the QR check failed and the
    geo_fence_failure flag exactly when the geo check failed, every mock,
    accuracy or timestamp flag comes with a geo_fence_failure flag, and
    the before_after_mismatch flag never occurs. *)
Theorem X11_disposal_flags_explained
    (M : MathLib) (loadedAt : Z) (state : AppState) :
  reachable M loadedAt state -> Forall flagsExplained (disposals state).
Proof.
  revert state. apply reachable_invariant.
  - constructor.
  - intros s s' Hstep Hs. destruct Hstep; try exact Hs.
    + apply flagsExplained_applyAction. exact Hs.
    + constructor.
Qed.

(** X11 on the state reached by a rejected disposal and a verified one. *)
Lemma X11_witness_rejected_then_good :
  reachable smallAngleMath 0 afterRejectedThenGood
  /\ Forall flagsExplained (disposals afterRejectedThenGood).
Proof.
  split; [apply rejected_states_reachable|].
  apply (X11_disposal_flags_explained smallAngleMath 0 afterRejectedThenGood).
  apply rejected_states_reachable.
Defined.

Lemma unverified_changes_no_balance
    (M : MathLib) (env : Env) (state : AppState) (a : PendingAction)
    (p : DisposePayload) (bin : Bin) :
  resolveBin state (dp_binId p) = Some bin ->
  forall d, hd_error (disposals (applyDispose M env state a p)) = Some d ->
  d_verified d = false ->
  wallet (applyDispose M env state a p) = wallet state
  /\ bins (applyDispose M env state a p) = bins state.
Proof.
  intros Hbin. unfold resolveBin in Hbin. unfold applyDispose. rewrite Hbin.
  cbv zeta.
  set (first := forallb _ (disposals state)).
  set (verified := BinStatus_eqb _ _ && _ && _ && _ && _).
  set (flags := disposeFlags _ _ _ _ _ _ _ _).
  clearbody verified. frames.
  intros d [= <-]. cbn [d_verified]. intros ->. cbn [andb].
  replace (0 <? 0 + 0) with false by reflexivity. frames.
  split; [reflexivity|].
  rewrite <- (map_id (bins state)) at 2. apply map_ext.
  intros item. rewrite andb_false_r. reflexivity.
Qed.



(** A disposal at a bin of the state: the record it adds, what each of its
    flags stands for, and what it leaves untouched once it carries a flag. *)
Lemma applyDispose_flagged
    (M : MathLib) (env : Env) (state : AppState) (a : PendingAction)
    (p : DisposePayload) (bin : Bin) :
  resolveBin state (dp_binId p) = Some bin ->
  let state' := applyDispose M env state a p in
  let hash := imageHash (dp_photoUri p) in
  exists d,
    disposals state' = d :: disposals state
    /\ d_id d = pa_id a
    /\ (In duplicate_image (d_fraudFlags d)
        <-> isDuplicateImage (usedImageHashes state) hash = true)
    /\ (In mock_location_detected (d_fraudFlags d)
        <-> ls_isMocked (dp_location p) = true)
    /\ (In location_accuracy_failure (d_fraudFlags d)
        <-> PrimFloat.ltb MAX_ALLOWED_ACCURACY_METERS
              (ls_accuracyMeters (dp_location p)) = true)
    /\ (In timestamp_invalid (d_fraudFlags d)
        <-> PrimFloat.ltb MAX_LOCATION_AGE_SECONDS
              (ls_ageSeconds (dp_location p)) = true)
    /\ flagsExplained d
    /\ (d_fraudFlags d <> [] ->
        d_verified d = false /\ d_pointsAwarded d = 0
        /\ wallet state' = wallet state /\ bins state' = bins state)
    /\ fraudAlerts state'
       = (map (fun type =>
                 makeFraudAlert type (pa_id a) (disposeMessages type)
                   (FRAUD_SEVERITY type) (Date_now env)
                   (fraudRiskScore (d_fraudFlags d))) (d_fraudFlags d)
          ++ fraudAlerts state)%list
    /\ usedImageHashes state'
       = (if isDuplicateImage (usedImageHashes state) hash
          then usedImageHashes state else hash :: usedImageHashes state).
Proof.
  intros Hbin. cbv zeta.
  destruct (applyDispose_found M env state a p bin Hbin) as (d & entries & H).
  cbv zeta in H.
  destruct H as (Hdisp & Hused & _ & _ & _ & _ & Halerts & _ & _ & _ & _ & _ & Hid & _
                 & _ & _ & _ & _ & _ & Hgeo & Hflags & Hverified & Hpoints & _).
  exists d. split; [exact Hdisp|]. split; [exact Hid|].
  assert (Hex : flagsExplained d).
  { unfold flagsExplained. rewrite Hflags, Hgeo.
    match goal with
    | |- context [disposeFlags ?qr (?dist && _ && _ && _) ?mocked ?dup ?anomaly
                    ?cooldown ?lowAcc ?tooOld] =>
        pose proof (disposeFlags_explained qr dist mocked dup anomaly cooldown
                      lowAcc tooOld) as Hd
    end.
    cbv zeta in Hd.
    destruct Hd as (Hnd & Hqr & Hgf & Hmock & Hacc & Hold & _ & _ & _ & Hbam).
    split; [exact Hnd|]. split; [exact Hqr|]. split; [exact Hgf|].
    split; [|exact Hbam].
    rewrite Hmock, Hacc, Hold, Hgf.
    intros [-> | [-> | ->]]; rewrite ?andb_false_r; reflexivity. }
  pose proof Hflags as Hflags'. rewrite Hgeo in Hflags'.
  match type of Hflags' with
  | _ = disposeFlags ?qr (?dist && _ && _ && _) ?mocked ?dup ?anomaly
          ?cooldown ?lowAcc ?tooOld =>
      pose proof (disposeFlags_explained qr dist mocked dup anomaly cooldown
                    lowAcc tooOld) as Hd
  end.
  cbv zeta in Hd. rewrite <- Hflags' in Hd.
  destruct Hd as (_ & _ & _ & Hmock & Hacc & Hold & Hdup & _).
  repeat (split; [assumption|]).
  split; [|split; [exact Halerts|exact Hused]].
  intros Hne.
  assert (Hv : d_verified d = false).
  { rewrite Hverified. destruct (d_fraudFlags d); [congruence|].
    cbn [length Nat.eqb]. apply andb_false_r. }
  split; [exact Hv|]. rewrite Hv in Hpoints. split; [exact Hpoints|].
  apply (unverified_changes_no_balance M env state a p bin Hbin d);
    [rewrite Hdisp; reflexivity|exact Hv].
Qed.

(** X12. In a reachable state, a disposal at a bin of the state whose
    photo has the hash of any recorded disposal, complaint or cleanup
    proof is recorded with the duplicate_image flag: it is not verified,
    awards no points, leaves the wallet and the used hashes as they were,
    and raises a duplicate_image alert for the action. *)
Theorem X12_recorded_photo_rejected
    (M : MathLib) (loadedAt : Z) (env : Env) (state : AppState)
    (a : PendingAction) (p : DisposePayload) (bin : Bin) :
  reachable M loadedAt state ->
  pa_payload a = dispose p ->
  resolveBin state (dp_binId p) = Some bin ->
  photoRecorded state (dp_photoUri p) ->
  let state' := applyAction M env state a in
  exists d,
    disposals state' = d :: disposals state
    /\ In duplicate_image (d_fraudFlags d)
    /\ d_verified d = false /\ d_pointsAwarded d = 0
    /\ wallet state' = wallet state
    /\ usedImageHashes state' = usedImageHashes state
    /\ exists al, In al (fraudAlerts state')
                  /\ fa_type al = duplicate_image /\ fa_actionId al = pa_id a.
Proof.
  intros Hreach Hpayload Hbin Hphoto. cbv zeta. unfold applyAction. rewrite Hpayload.
  apply hashes_reachable in Hreach. destruct Hreach as (_ & (Hds & Hcs) & _).
  assert (Hused : isDuplicateImage (usedImageHashes state) (imageHash (dp_photoUri p))
                  = true).
  { apply isDuplicateImage_spec.
    destruct Hphoto as [(d0 & Hin & <-)|(c & Hin & [<-|(proof & Hproof & <-)])].
    - apply Hds, Hin.
    - apply (Hcs c Hin).
    - apply (Hcs c Hin), Hproof. }
  destruct (applyDispose_flagged M env state a p bin Hbin) as (d & H).
  cbv zeta in H.
  destruct H as (Hdisp & _ & Hdup & _ & _ & _ & _ & Hrej & Halerts & Hhashes).
  apply Hdup in Hused as Hflag.
  assert (Hne : d_fraudFlags d <> []) by (intros Hnil; rewrite Hnil in Hflag; exact Hflag).
  destruct (Hrej Hne) as (Hv & Hpts & Hwallet & _).
  exists d. repeat (split; [assumption|]).
  split; [rewrite Hhashes, Hused; reflexivity|].
  eexists. split.
  - rewrite Halerts. apply in_or_app. left. apply in_map_iff.
    exists duplicate_image. split; [reflexivity|exact Hflag].
  - split; reflexivity.
Qed.

Example scenario_photo_reused :
  resolveBin afterFirst "bin-001" = Some binOneUsed
  /\ photoRecorded afterFirst "file:///data/photo-001.jpg".
Proof.
  split; [vm_compute; reflexivity|].
  assert (Hfirst : exists d, disposals afterFirst = [d]
                             /\ d_imageHash d = imageHash "file:///data/photo-001.jpg").
  { vm_compute. eexists. split; reflexivity. }
  destruct Hfirst as (d & Hd & Hhash).
  left. exists d. split; [rewrite Hd; left; reflexivity|exact Hhash].
Qed.

(** X12 on the photo of the first disposal, submitted again. *)
Lemma X12_witness_photo_reused :
  exists d,
    disposals (applyAction smallAngleMath (sampleEnv (T0 + 3 * oneHour)) afterFirst
                 (disposeAction "dispose-a5" "MMC-BIN-001"
                    "file:///data/photo-001.jpg" medium (T0 + 3 * oneHour)))
    = d :: disposals afterFirst
    /\ In duplicate_image (d_fraudFlags d)
    /\ d_verified d = false /\ d_pointsAwarded d = 0.
Proof.
  destruct (X12_recorded_photo_rejected smallAngleMath 0
              (sampleEnv (T0 + 3 * oneHour)) afterFirst
              (disposeAction "dispose-a5" "MMC-BIN-001"
                 "file:///data/photo-001.jpg" medium (T0 + 3 * oneHour))
              (disposePayload "MMC-BIN-001" "file:///data/photo-001.jpg" medium
                 (T0 + 3 * oneHour))
              binOneUsed)
    as (d & Hd & Hflag & Hv & Hpts & _).
  - apply sample_states_reachable.
  - reflexivity.
  - apply scenario_photo_reused.
  - apply scenario_photo_reused.
  - exists d. repeat split; assumption.
Defined.



(* ================================================================== *)
(** ** Further properties: complaints and cleanups *)
(* ================================================================== *)

Lemma SFcompare_Lt_Gt (a b : SpecFloat.spec_float) :
  SpecFloat.SFcompare a b = Some Lt -> SpecFloat.SFcompare b a = Some Gt.
Proof.
  destruct a as [s|s| |s m e], b as [s'|s'| |s' m' e']; cbn;
    try discriminate; try (destruct s; try destruct s'; (discriminate || reflexivity)).
  pose proof (Pos.compare_cont_antisym m m' Eq) as Hm. cbn [CompOpp] in Hm.
  rewrite (Z.compare_antisym e e'), <- Hm.
  destruct s, s'; try (discriminate || reflexivity);
    destruct (e ?= e')%Z; cbn; try (discriminate || reflexivity);
    destruct (Pos.compare_cont Eq m m'); cbn; (discriminate || reflexivity).
Qed.

(** [x < y] excludes [y <= x], also for infinities and NaN. *)
Lemma ltb_leb_false (x y : float) :
  PrimFloat.ltb x y = true -> PrimFloat.leb y x = false.
Proof.
  rewrite FloatAxioms.ltb_spec, FloatAxioms.leb_spec.
  unfold SpecFloat.SFltb, SpecFloat.SFleb.
  destruct (SpecFloat.SFcompare (FloatOps.Prim2SF x) (FloatOps.Prim2SF y))
    as [[| |]|] eqn:H; try discriminate.
  intros _. rewrite (SFcompare_Lt_Gt _ _ H). reflexivity.
Qed.

Lemma first_match {A : Type} (f : A -> bool) (before after : list A) (x : A) :
  Forall (fun y => f y = false) before -> f x = true ->
  findIndex f (before ++ x :: after)%list = Some (List.length before)
  /\ (before ++ x :: after)%list !! List.length before = Some x
  /\ forall y, <[List.length before := y]> (before ++ x :: after)%list = (before ++ y :: after)%list.
Proof.
  intros Hbefore Hx. induction Hbefore as [|z before Hz _ IH]; cbn.
  - rewrite Hx. repeat split; reflexivity.
  - rewrite Hz. destruct IH as (-> & Hlook & Hins). split; [reflexivity|].
    split; [exact Hlook|]. intros y. rewrite Hins. reflexivity.
Qed.

Lemma first_complaint (state : AppState) (id : string)
    (before after : list Complaint) (c : Complaint) :
  complaints state = (before ++ c :: after)%list ->
  Forall (fun c' => c_id c' <> id) before ->
  c_id c = id ->
  findIndex (fun item => String.eqb (c_id item) id) (complaints state)
  = Some (List.length before)
  /\ complaints state !! List.length before = Some c
  /\ forall c', <[List.length before := c']> (complaints state)
                = (before ++ c' :: after)%list.
Proof.
  intros -> Hbefore Hid. apply first_match.
  - eapply Forall_impl; [exact Hbefore|]. intros c' Hc'. apply String.eqb_neq, Hc'.
  - apply String.eqb_eq, Hid.
Qed.

(** X14. A report of an issue is always filed, whatever its flags: the
    complaint comes first in the list with the id of the action and the
    status open, without proof, resolution or verification; the flags of
    the report are among timestamp_invalid, location_accuracy_failure,
    mock_location_detected, location_anomaly and duplicate_image, a mocked
    fix is flagged and so is a photo whose hash was used; disposals,
    wallet, redemptions and bins are left as they were. *)
Theorem X14_report_always_filed
    (M : MathLib) (env : Env) (state : AppState) (a : PendingAction)
    (p : ReportIssuePayload) :
  pa_payload a = report_issue p ->
  let state' := applyAction M env state a in
  exists c,
    complaints state' = c :: complaints state
    /\ c_id c = pa_id a /\ c_status c = complaint_open
    /\ c_cleanupProof c = None /\ c_resolvedAt c = None /\ c_verification c = None
    /\ c_imageHash c = imageHash (ri_photoUri p)
    /\ (In mock_location_detected (c_reportFraudFlags c)
        <-> ls_isMocked (ri_location p) = true)
    /\ (In duplicate_image (c_reportFraudFlags c)
        <-> In (imageHash (ri_photoUri p)) (usedImageHashes state))
    /\ (forall t, In t (c_reportFraudFlags c) ->
          In t [timestamp_invalid; location_accuracy_failure;
                mock_location_detected; location_anomaly; duplicate_image])
    /\ disposals state' = disposals state /\ wallet state' = wallet state
    /\ redemptions state' = redemptions state /\ bins state' = bins state.
Proof.
  intros Hpayload. cbv zeta. unfold applyAction. rewrite Hpayload.
  unfold applyReportIssue. cbv zeta. frames. eexists. split; [reflexivity|].
  cbn [c_id c_status c_cleanupProof c_resolvedAt c_verification c_imageHash
       c_reportFraudFlags].
  repeat (split; [reflexivity|]).
  rewrite <- isDuplicateImage_spec.
  split; [|split; [|split]].
  - rewrite !In_pushIf. cbn [In]. intuition (congruence || discriminate).
  - rewrite !In_pushIf. cbn [In]. intuition (congruence || discriminate).
  - intros t. rewrite !In_pushIf. cbn [In]. intuition (subst; tauto).
  - repeat split; reflexivity.
Qed.

(** X14 on the report of an overflowing bin in the initial state. *)
Lemma X14_witness_report :
  exists c, complaints afterReport = [c]
            /\ c_id c = "complaint-e1" /\ c_status c = complaint_open.
Proof.
  destruct (X14_report_always_filed smallAngleMath (sampleEnv T0) (DEFAULT_STATE 0)
              reportAction
              {| ri_category := overflowing_bin;
                 ri_description := "Bin overflowing at the bus stand";
                 ri_photoUri := "file:///data/before-001.jpg";
                 ri_location := atBinOne (T0 - 1000);
                 ri_userId := "demo-user-001";
                 ri_createdAt := T0 |} eq_refl)
    as (c & Hc & Hid & Hstatus & _).
  exists c. split; [exact Hc|]. split; [exact Hid|exact Hstatus].
Defined.

(** X15. A cleanup proof for a complaint of the state is always attached
    to the first complaint with that id, also when it is rejected: the
    other complaints, the complaint's resolution time and its verification
    stay as they were.  The complaint moves to in_progress exactly when
    the proof carries no geo_fence_failure flag, and keeps its status
    otherwise; a mocked, inaccurate or stale fix always carries that flag.
    The image check of the proof fails exactly when the photo has the hash
    of the complaint's photo, which is flagged before_after_mismatch.  No
    points are credited. *)
Theorem X15_cleanup_proof_attached
    (M : MathLib) (env : Env) (state : AppState) (a : PendingAction)
    (p : SubmitCleanupPayload) (before after : list Complaint) (c : Complaint) :
  pa_payload a = submit_cleanup p ->
  complaints state = (before ++ c :: after)%list ->
  Forall (fun c' => c_id c' <> sc_complaintId p) before ->
  c_id c = sc_complaintId p ->
  let state' := applyAction M env state a in
  exists c' proof,
    complaints state' = (before ++ c' :: after)%list
    /\ c_cleanupProof c' = Some proof
    /\ cp_id proof = pa_id a
    /\ cp_imageHash proof = imageHash (sc_photoUri p)
    /\ c_id c' = c_id c
    /\ c_resolvedAt c' = c_resolvedAt c
    /\ c_verification c' = c_verification c
    /\ (In geo_fence_failure (cp_fraudFlags proof) -> c_status c' = c_status c)
    /\ (~ In geo_fence_failure (cp_fraudFlags proof) ->
        c_status c' = complaint_in_progress)
    /\ (In mock_location_detected (cp_fraudFlags proof)
        \/ In location_accuracy_failure (cp_fraudFlags proof)
        \/ In timestamp_invalid (cp_fraudFlags proof) ->
        In geo_fence_failure (cp_fraudFlags proof))
    /\ (cp_aiCleanVerified proof = false
        <-> In before_after_mismatch (cp_fraudFlags proof))
    /\ (cp_aiCleanVerified proof = false
        <-> imageHash (sc_photoUri p) = imageHash (c_photoUri c))
    /\ wallet state' = wallet state /\ disposals state' = disposals state
    /\ redemptions state' = redemptions state /\ bins state' = bins state.
Proof.
  intros Hpayload Hsplit Hbefore Hid. cbv zeta.
  destruct (first_complaint state (sc_complaintId p) before after c Hsplit Hbefore Hid)
    as (Hfind & Hlook & Hins).
  unfold applyAction. rewrite Hpayload. unfold applySubmitCleanup.
  rewrite Hfind, Hlook. cbv zeta.
  set (geoOk := PrimFloat.leb _ 10 && _ && _ && _).
  assert (Hbad : ls_isMocked (sc_location p) = true
                 \/ PrimFloat.ltb MAX_ALLOWED_ACCURACY_METERS
                      (ls_accuracyMeters (sc_location p)) = true
                 \/ PrimFloat.ltb MAX_LOCATION_AGE_SECONDS
                      (ls_ageSeconds (sc_location p)) = true ->
                 geoOk = false).
  { subst geoOk. intros [-> | [Hacc | Hage]].
    - apply andb_false_r.
    - rewrite (ltb_leb_false _ _ Hacc), andb_false_r. reflexivity.
    - rewrite (ltb_leb_false _ _ Hage), andb_false_r. reflexivity. }
  clearbody geoOk. frames. rewrite Hins. do 2 eexists. split; [reflexivity|].
  cbn [c_id c_status c_cleanupProof c_resolvedAt c_verification
       cp_id cp_imageHash cp_fraudFlags cp_aiCleanVerified].
  repeat (split; [reflexivity|]).
  cbn [cp_fraudFlags cp_aiCleanVerified].
  rewrite !In_pushIf. cbn [In]. unfold validateCleanupConsistency.
  rewrite !negb_involutive, !negb_false_iff, !negb_true_iff.
  split; [|split; [|split; [|split; [|split]]]].
  - intros Hgeo. destruct geoOk; [|reflexivity]. intuition discriminate.
  - intros Hgeo. destruct geoOk; [reflexivity|]. exfalso. apply Hgeo. tauto.
  - intros Hflag. assert (Hg : geoOk = false) by (apply Hbad; intuition discriminate).
    tauto.
  - intuition discriminate.
  - rewrite String.eqb_eq. split; intros Heq; congruence.
  - repeat split; reflexivity.
Qed.

Example scenario_reported_complaint :
  complaints afterReport = ([] ++ reportedComplaint :: [])%list.
Proof. vm_compute. reflexivity. Qed.

(** X15 on the cleanup of the reported complaint with a photo of its own. *)
Lemma X15_witness_cleanup :
  exists c' proof,
    complaints afterCleanup = [c']
    /\ c_cleanupProof c' = Some proof /\ cp_id proof = "cleanup-e2".
Proof.
  destruct (X15_cleanup_proof_attached smallAngleMath (sampleEnv (T0 + oneHour))
              afterReport (cleanupAction "file:///data/after-001.jpg")
              {| sc_complaintId := "complaint-e1";
                 sc_photoUri := "file:///data/after-001.jpg";
                 sc_location := atBinOne (T0 + oneHour - 1000);
                 sc_userId := "demo-worker-001";
                 sc_createdAt := T0 + oneHour |}
              [] [] reportedComplaint eq_refl scenario_reported_complaint
              (List.Forall_nil _) eq_refl)
    as (c' & proof & Hc & Hproof & Hid & _).
  exists c', proof. split; [exact Hc|]. split; [exact Hproof|exact Hid].
Defined.

(** X16. A verification of a complaint of the state decides the first
    complaint with that id, whether or not a cleanup proof was submitted:
    accepted, the complaint is resolved at the time of the verification;
    rejected, it is open again without resolution time.  The verification
    is recorded on the complaint, the proof is kept, the other complaints
    stay as they were, and nothing else than the log changes: no points,
    no alert. *)
Theorem X16_verification_decides
    (M : MathLib) (env : Env) (state : AppState) (a : PendingAction)
    (p : VerifyCleanupPayload) (before after : list Complaint) (c : Complaint) :
  pa_payload a = verify_cleanup p ->
  complaints state = (before ++ c :: after)%list ->
  Forall (fun c' => c_id c' <> vc_complaintId p) before ->
  c_id c = vc_complaintId p ->
  let state' := applyAction M env state a in
  exists c' v,
    complaints state' = (before ++ c' :: after)%list
    /\ c_verification c' = Some v
    /\ v_accepted v = vc_accepted p
    /\ v_verifiedBy v = vc_verifiedBy p
    /\ v_verifiedAt v = vc_createdAt p
    /\ c_status c'
       = (if vc_accepted p then complaint_resolved else complaint_open)
    /\ c_resolvedAt c' = (if vc_accepted p then Some (vc_createdAt p) else None)
    /\ c_cleanupProof c' = c_cleanupProof c
    /\ c_id c' = c_id c
    /\ wallet state' = wallet state /\ disposals state' = disposals state
    /\ fraudAlerts state' = fraudAlerts state
    /\ usedImageHashes state' = usedImageHashes state
    /\ lastActionByUser state' = lastActionByUser state
    /\ bins state' = bins state.
Proof.
  intros Hpayload Hsplit Hbefore Hid. cbv zeta.
  destruct (first_complaint state (vc_complaintId p) before after c Hsplit Hbefore Hid)
    as (Hfind & Hlook & Hins).
  unfold applyAction. rewrite Hpayload. unfold applyVerifyCleanup.
  rewrite Hfind, Hlook. cbv zeta. frames. rewrite Hins.
  do 2 eexists. split; [reflexivity|].
  cbn [c_id c_status c_cleanupProof c_resolvedAt c_verification
       v_accepted v_verifiedBy v_verifiedAt].
  repeat split; reflexivity.
Qed.

(** X16 on the reported complaint, accepted before any cleanup proof. *)
Lemma X16_witness_resolved_without_proof :
  exists c',
    complaints (applyAction smallAngleMath (sampleEnv (T0 + 2 * oneHour)) afterReport
                  (verifyAction true)) = [c']
    /\ c_status c' = complaint_resolved
    /\ c_resolvedAt c' = Some (T0 + 2 * oneHour)
    /\ c_cleanupProof c' = None.
Proof.
  destruct (X16_verification_decides smallAngleMath (sampleEnv (T0 + 2 * oneHour))
              afterReport (verifyAction true)
              {| vc_complaintId := "complaint-e1"; vc_accepted := true;
                 vc_notes := None; vc_verifiedBy := "demo-admin-001";
                 vc_createdAt := T0 + 2 * oneHour |}
              [] [] reportedComplaint eq_refl scenario_reported_complaint
              (List.Forall_nil _) eq_refl)
    as (c' & v & Hc & _ & _ & _ & _ & Hstatus & Hres & Hproof & _).
  exists c'. split; [exact Hc|]. split; [exact Hstatus|]. split; [exact Hres|exact Hproof].
Defined.

(* ================================================================== *)
(** ** Further properties: what an applied action leaves alone *)
(* ================================================================== *)

(** X17. An action that is dropped changes nothing but the log: a
    disposal whose bin id is not in the state, a cleanup proof or a
    verification whose complaint id is not in the state, and a redemption
    that the balance does not cover, only add one line to the log. *)
Theorem X17_dropped_action_only_logs
    (M : MathLib) (env : Env) (state : AppState) (a : PendingAction) :
  dropped state a ->
  exists message, applyAction M env state a = addLog env state message.
Proof.
  unfold dropped, applyAction. destruct (pa_payload a) as [p|p|p|p|p|p]; intros Hdrop.
  - eexists. apply applyDispose_missing. exact Hdrop.
  - destruct Hdrop.
  - unfold applySubmitCleanup. cbv zeta.
    assert (Hnone : findIndex (fun item => String.eqb (c_id item) (sc_complaintId p))
                      (complaints state) = None).
    { apply findIndex_None. intros c Hc. apply String.eqb_neq, Hdrop, Hc. }
    rewrite Hnone. eexists. reflexivity.
  - unfold applyVerifyCleanup. cbv zeta.
    assert (Hnone : findIndex (fun item => String.eqb (c_id item) (vc_complaintId p))
                      (complaints state) = None).
    { apply findIndex_None. intros c Hc. apply String.eqb_neq, Hdrop, Hc. }
    rewrite Hnone. eexists. reflexivity.
  - unfold applyRedeemReward. apply Z.ltb_lt in Hdrop. rewrite Hdrop.
    eexists. reflexivity.
  - destruct Hdrop.
Qed.

(** X17 on a reward of 100 points asked with a balance of 70. *)
Lemma X17_witness_redeem_hundred :
  exists message,
    applyAction smallAngleMath (sampleEnv (T0 + 4 * oneHour)) walletOfSeventy redeemHundred
    = addLog (sampleEnv (T0 + 4 * oneHour)) walletOfSeventy message.
Proof.
  apply (X17_dropped_action_only_logs smallAngleMath (sampleEnv (T0 + 4 * oneHour))
           walletOfSeventy redeemHundred).
  vm_compute. reflexivity.
Defined.

Lemma bins_applyAction
    (M : MathLib) (env : Env) (state : AppState) (a : PendingAction) :
  exists f,
    bins (applyAction M env state a) = map f (bins state)
    /\ forall b, bin_id (f b) = bin_id b
                 /\ bin_qrCodeId (f b) = bin_qrCodeId b
                 /\ bin_location (f b) = bin_location b
                 /\ (bin_status (f b) = bin_status b
                     \/ bin_status (f b) = reported_full).
Proof.
  assert (Hsame : forall s : AppState,
             bins s = bins state ->
             exists f,
               bins s = map f (bins state)
               /\ forall b, bin_id (f b) = bin_id b
                            /\ bin_qrCodeId (f b) = bin_qrCodeId b
                            /\ bin_location (f b) = bin_location b
                            /\ (bin_status (f b) = bin_status b
                                \/ bin_status (f b) = reported_full)).
  { intros s ->. exists (fun b => b). split; [symmetry; apply map_id|].
    intros b. repeat split. left. reflexivity. }
  unfold applyAction. destruct (pa_payload a) as [p|p|p|p|p|p].
  - unfold applyDispose. destruct (List.find _ (bins state)) as [found|];
      [|apply Hsame; reflexivity].
    cbv zeta. frames. eexists. split; [reflexivity|].
    intros x. cbv beta. destruct (_ && _); cbn; repeat split; left; reflexivity.
  - apply Hsame. unfold applyReportIssue. cbv zeta. frames. reflexivity.
  - apply Hsame. open_branch; reflexivity.
  - apply Hsame. open_branch; reflexivity.
  - apply Hsame. open_branch; reflexivity.
  - unfold applyReportBinFull. cbv zeta. frames. eexists. split; [reflexivity|].
    intros x. cbv beta. destruct (String.eqb _ _); cbn; repeat split;
      (left; reflexivity) || (right; reflexivity).
Qed.

Lemma suffix_grown_used (used : list string) (hash : string) :
  used `suffix_of` (if isDuplicateImage used hash then used else hash :: used).
Proof.
  destruct (isDuplicateImage used hash); [reflexivity|]. exists [hash]. reflexivity.
Qed.

Lemma complaint_ids_insert (cs : list Complaint) (i : nat) (c c' : Complaint) :
  cs !! i = Some c -> c_id c' = c_id c ->
  map c_id (<[i := c']> cs) = map c_id cs.
Proof.
  intros Hc Hid. change (map c_id) with (fmap (M := list) c_id).
  rewrite list_fmap_insert, Hid. apply list_insert_id.
  rewrite list_lookup_fmap, Hc. reflexivity.
Qed.

Ltac dispose_cases M env state a p :=
  let bin := fresh "bin" in
  let Hbin := fresh "Hbin" in
  let d := fresh "d" in
  let entries := fresh "entries" in
  let Hfound := fresh "Hfound" in
  destruct (resolveBin state (dp_binId p)) as [bin|] eqn:Hbin;
  [destruct (applyDispose_found M env state a p bin Hbin) as (d & entries & Hfound);
   cbv zeta in Hfound
  |rewrite (applyDispose_missing M env state a p Hbin); state_proj].

Lemma recordsExtend_applyAction
    (M : MathLib) (env : Env) (state : AppState) (a : PendingAction) :
  recordsExtend state (applyAction M env state a).
Proof.
  unfold recordsExtend.
  split.
  { pose proof (disposals_kept M env state a) as Hkept.
    unfold applyAction in *. destruct (pa_payload a) as [p|p|p|p|p|p];
      try (rewrite Hkept; reflexivity).
    dispose_cases M env state a p; [|reflexivity].
    destruct Hfound as (-> & _). exists [d]. reflexivity. }
  split.
  { pose proof (redemptions_kept M env state a) as Hkept.
    unfold applyAction in *. destruct (pa_payload a) as [p|p|p|p|p|p];
      try (rewrite Hkept; reflexivity).
    open_branch; [reflexivity|]. eexists [_]. reflexivity. }
  split.
  { pose proof (wallet_kept M env state a) as Hkept.
    unfold applyAction in *. destruct (pa_payload a) as [p|p|p|p|p|p];
      try (rewrite Hkept; reflexivity).
    - dispose_cases M env state a p; [|reflexivity].
      destruct Hfound as (_ & _ & _ & -> & _). exists entries. reflexivity.
    - open_branch; [reflexivity|]. eexists [_]. reflexivity. }
  split.
  { destruct (alerts_added M env state a) as (types & messages & ->).
    eexists. reflexivity. }
  split.
  { unfold applyAction. destruct (pa_payload a) as [p|p|p|p|p|p].
    - dispose_cases M env state a p; [|reflexivity].
      destruct Hfound as (_ & -> & _). apply suffix_grown_used.
    - unfold applyReportIssue. cbv zeta. frames. apply suffix_grown_used.
    - open_branch; try reflexivity. apply suffix_grown_used.
    - open_branch; reflexivity.
    - open_branch; reflexivity.
    - open_branch; reflexivity. }
  split.
  { unfold applyAction. destruct (pa_payload a) as [p|p|p|p|p|p].
    - dispose_cases M env state a p; [|reflexivity].
      destruct Hfound as (_ & _ & _ & _ & _ & _ & _ & _ & -> & _). reflexivity.
    - unfold applyReportIssue. cbv zeta. frames. eexists [_]. reflexivity.
    - open_branch; try reflexivity.
      erewrite complaint_ids_insert; [reflexivity|eassumption|reflexivity].
    - open_branch; try reflexivity.
      erewrite complaint_ids_insert; [reflexivity|eassumption|reflexivity].
    - open_branch; reflexivity.
    - open_branch; reflexivity. }
  destruct (bins_applyAction M env state a) as (f & -> & Hf).
  rewrite map_map. apply map_ext. intros b. apply Hf.
Qed.

Lemma recordsExtend_trans (s1 s2 s3 : AppState) :
  recordsExtend s1 s2 -> recordsExtend s2 s3 -> recordsExtend s1 s3.
Proof.
  unfold recordsExtend.
  intros (H1 & H2 & H3 & H4 & H5 & H6 & H7) (K1 & K2 & K3 & K4 & K5 & K6 & K7).
  split; [etrans; eassumption|]. split; [etrans; eassumption|].
  split; [etrans; eassumption|]. split; [etrans; eassumption|].
  split; [etrans; eassumption|]. split; [etrans; eassumption|].
  congruence.
Qed.

(** X18. The records only grow under applied actions.  After any sequence
    of applied actions the disposals, the redemptions, the ledger entries,
    the fraud alerts and the used hashes of the state before are the
    tails of the lists after, every complaint is still in its place under
    its id, and the bins are the same ones in the same order. *)
Theorem X18_records_only_grow
    (M : MathLib) (state : AppState) (steps : list (Env * PendingAction)) :
  recordsExtend state (applyAll M state steps).
Proof.
  unfold applyAll. revert state.
  induction steps as [|[env a] steps IH]; intros state; cbn [fold_left fst snd].
  - unfold recordsExtend. repeat (split; [reflexivity|]). reflexivity.
  - eapply recordsExtend_trans; [apply recordsExtend_applyAction|apply IH].
Qed.

Lemma find_map_bin (f : Bin -> Bin) (binId : string) (l : list Bin) :
  (forall b, bin_id (f b) = bin_id b) ->
  List.find (fun item => String.eqb (bin_id item) binId) (map f l)
  = option_map f (List.find (fun item => String.eqb (bin_id item) binId) l).
Proof.
  intros Hid. induction l as [|b l IH]; [reflexivity|].
  cbn [map List.find]. rewrite Hid. destruct (String.eqb (bin_id b) binId); [reflexivity|].
  exact IH.
Qed.

Lemma binFull_applyAction
    (M : MathLib) (env : Env) (state : AppState) (a : PendingAction) (binId : string) :
  binFull state binId -> binFull (applyAction M env state a) binId.
Proof.
  unfold binFull, resolveBin. intros Hfull bin'.
  destruct (bins_applyAction M env state a) as (f & -> & Hf).
  rewrite find_map_bin by (intros b; apply Hf).
  destruct (List.find _ (bins state)) as [bin|]; [|discriminate].
  cbn [option_map]. intros [= <-].
  specialize (Hfull bin eq_refl).
  destruct (Hf bin) as (_ & _ & _ & [Hstatus|Hstatus]); congruence.
Qed.

Lemma binFull_applyAll
    (M : MathLib) (state : AppState) (steps : list (Env * PendingAction))
    (binId : string) :
  binFull state binId -> binFull (applyAll M state steps) binId.
Proof.
  unfold applyAll. revert state.
  induction steps as [|[env a] steps IH]; intros state Hfull; cbn [fold_left fst snd].
  - exact Hfull.
  - apply IH, binFull_applyAction, Hfull.
Qed.

Lemma binFull_reported
    (M : MathLib) (env : Env) (state : AppState) (a : PendingAction)
    (p : ReportBinFullPayload) :
  pa_payload a = report_bin_full p ->
  binFull (applyAction M env state a) (bf_binId p).
Proof.
  intros Hpayload. unfold applyAction. rewrite Hpayload.
  unfold binFull, resolveBin, applyReportBinFull. cbv zeta. frames.
  intros bin Hbin. apply find_some in Hbin as [Hin Hid].
  apply in_map_iff in Hin as (b & <- & _).
  destruct (String.eqb (bin_id b) (bf_binId p)) eqn:Hb; [reflexivity|].
  cbv beta in Hid. rewrite Hb in Hid. discriminate.
Qed.

(** X19. A bin reported full earns nothing until the bins are refreshed:
    after a report_bin_full for a bin id, and whatever actions are applied
    afterwards, a disposal at that bin id leaves the wallet as it was; it
    is either dropped, when the bin is not in the state, or recorded as
    not verified with 0 points. *)
Theorem X19_full_bin_earns_nothing
    (M : MathLib) (env0 env : Env) (state : AppState) (a0 a : PendingAction)
    (full : ReportBinFullPayload) (steps : list (Env * PendingAction))
    (p : DisposePayload) :
  pa_payload a0 = report_bin_full full ->
  pa_payload a = dispose p ->
  dp_binId p = bf_binId full ->
  let later := applyAll M (applyAction M env0 state a0) steps in
  let state' := applyAction M env later a in
  wallet state' = wallet later
  /\ (disposals state' = disposals later
      \/ exists d, disposals state' = d :: disposals later
                   /\ d_id d = pa_id a
                   /\ d_verified d = false /\ d_pointsAwarded d = 0).
Proof.
  intros Hfull Hpayload Hbin. cbv zeta.
  set (later := applyAll M (applyAction M env0 state a0) steps).
  assert (Hlater : binFull later (dp_binId p)).
  { rewrite Hbin. apply binFull_applyAll, binFull_reported, Hfull. }
  assert (Happ : applyAction M env later a = applyDispose M env later a p)
    by (unfold applyAction; rewrite Hpayload; reflexivity).
  rewrite Happ. clear Happ.
  destruct (resolveBin later (dp_binId p)) as [bin|] eqn:Hres.
  - specialize (Hlater bin Hres).
    destruct (applyDispose_found M env later a p bin Hres) as (d & entries & H).
    cbv zeta in H.
    destruct H as (Hdisp & _ & _ & _ & _ & _ & _ & _ & _ & _ & _ & _ & Hid & _
                   & _ & _ & _ & _ & _ & _ & _ & Hverified & Hpoints & _).
    assert (Hv : d_verified d = false).
    { rewrite Hverified, Hlater. reflexivity. }
    split.
    + apply (unverified_changes_no_balance M env later a p bin Hres d);
        [rewrite Hdisp; reflexivity|exact Hv].
    + right. exists d. rewrite Hv in Hpoints. repeat split; assumption.
  - rewrite applyDispose_missing by exact Hres. split; [reflexivity|left; reflexivity].
Qed.

Example scenario_full_bin_disposal :
  disposals (applyAction smallAngleMath (sampleEnv (T0 + oneHour)) binOneFull
               (disposeAction "dispose-f1" "MMC-BIN-001" "file:///data/photo-001.jpg"
                  medium (T0 + oneHour)))
  <> disposals binOneFull.
Proof. vm_compute. discriminate. Qed.

(** X19 on bin B1 reported full in the initial state and a disposal there
    that passes every other check. *)
Lemma X19_witness_bin_one_full :
  wallet (applyAction smallAngleMath (sampleEnv (T0 + oneHour)) binOneFull
            (disposeAction "dispose-f1" "MMC-BIN-001" "file:///data/photo-001.jpg"
               medium (T0 + oneHour)))
  = wallet binOneFull.
Proof.
  apply (X19_full_bin_earns_nothing smallAngleMath (sampleEnv T0)
           (sampleEnv (T0 + oneHour)) (DEFAULT_STATE 0)
           {| pa_id := "binfull-c1"; pa_createdAt := T0;
              pa_payload :=
                report_bin_full
                  {| bf_binId := "bin-001";
                     bf_reason := "User reported full bin from disposal flow." |} |}
           (disposeAction "dispose-f1" "MMC-BIN-001" "file:///data/photo-001.jpg"
              medium (T0 + oneHour))
           {| bf_binId := "bin-001";
              bf_reason := "User reported full bin from disposal flow." |}
           []
           (disposePayload "MMC-BIN-001" "file:///data/photo-001.jpg" medium
              (T0 + oneHour))
           eq_refl eq_refl eq_refl).
Defined.

Lemma sameRecords_applyAction
    (M : MathLib) (env : Env) (s s' : AppState) (a : PendingAction) :
  sameRecords s s' ->
  sameRecords (applyAction M env s a) (applyAction M env s' a).
Proof.
  unfold sameRecords.
  intros (Hb & Hd & Hc & Hw & Hr & Hf & Hu & Hl & Ho).
  unfold applyAction. destruct (pa_payload a) as [p|p|p|p|p|p].
  - unfold applyDispose. rewrite Hb.
    destruct (List.find _ (bins s')) as [bin|];
      [|state_proj; repeat split; assumption].
    cbv zeta. rewrite Hd, Hu, Hl.
    set (first := forallb _ (disposals s')).
    set (verified := BinStatus_eqb _ _ && _ && _ && _ && _).
    set (flags := disposeFlags _ _ _ _ _ _ _ _).
    frames.
    rewrite ?Hb, ?Hd, ?Hc, ?Hw, ?Hr, ?Hf, ?Hu, ?Hl, ?Ho.
    repeat split; reflexivity.
  - unfold applyReportIssue. cbv zeta. rewrite Hu, Hl. frames.
    rewrite ?Hb, ?Hd, ?Hc, ?Hw, ?Hr, ?Hf, ?Hu, ?Hl, ?Ho.
    repeat split; reflexivity.
  - unfold applySubmitCleanup. cbv zeta. rewrite Hc.
    destruct (findIndex _ (complaints s')) as [i|];
      [|state_proj; repeat split; assumption].
    destruct (complaints s' !! i) as [c|];
      [|state_proj; repeat split; assumption].
    rewrite Hu. frames.
    rewrite ?Hb, ?Hd, ?Hc, ?Hw, ?Hr, ?Hf, ?Hu, ?Hl, ?Ho.
    repeat split; reflexivity.
  - unfold applyVerifyCleanup. cbv zeta. rewrite Hc.
    destruct (findIndex _ (complaints s')) as [i|];
      [|state_proj; repeat split; assumption].
    destruct (complaints s' !! i) as [c|];
      state_proj; repeat split; assumption.
  - unfold applyRedeemReward. rewrite Hw.
    destruct (_ <? _); state_proj; rewrite ?Hr, ?Hw; repeat split; assumption.
  - unfold applyReportBinFull. cbv zeta. state_proj. rewrite Hb.
    repeat split; assumption.
Qed.

Lemma sameRecords_queued (env : Env) (s : AppState) (a : PendingAction) :
  sameRecords (set_pendingActions (queueAction env s a) []) s.
Proof. unfold sameRecords, queueAction. state_proj. repeat split; reflexivity. Qed.

(** X20. An applied action reads neither the log nor the offline queue,
    and leaves the queue as it is: on two states with the same bins,
    disposals, complaints, wallet, redemptions, alerts, used hashes, last
    locations and online flag it gives two states with the same ones.
    So an action queued offline and replayed after the queue is emptied
    leaves the records that applying it directly at the time of the
    replay would leave. *)
Theorem X20_replay_as_applied_live
    (M : MathLib) (env : Env) (s s' : AppState) (a : PendingAction) :
  sameRecords s s' ->
  sameRecords (applyAction M env s a) (applyAction M env s' a)
  /\ pendingActions (applyAction M env s a) = pendingActions s.
Proof.
  intros Hsame. split; [apply sameRecords_applyAction; exact Hsame|].
  clear Hsame. unfold applyAction. destruct (pa_payload a) as [p|p|p|p|p|p].
  - destruct (resolveBin s (dp_binId p)) as [bin|] eqn:Hbin.
    + destruct (applyDispose_found M env s a p bin Hbin) as (d & entries & H).
      cbv zeta in H. tauto.
    + rewrite applyDispose_missing by exact Hbin. reflexivity.
  - unfold applyReportIssue. cbv zeta. frames. reflexivity.
  - open_branch; reflexivity.
  - open_branch; reflexivity.
  - open_branch; reflexivity.
  - open_branch. reflexivity.
Qed.

(** X20 on the second disposal, queued while offline and replayed. *)
Lemma X20_witness_queued_disposal :
  sameRecords
    (applyAction smallAngleMath (sampleEnv (T0 + 5 * oneHour))
       (set_pendingActions
          (queueAction (sampleEnv (T0 + oneHour)) afterFirst queuedDisposal) [])
       queuedDisposal)
    (applyAction smallAngleMath (sampleEnv (T0 + 5 * oneHour)) afterFirst
       queuedDisposal).
Proof.
  apply (X20_replay_as_applied_live smallAngleMath (sampleEnv (T0 + 5 * oneHour))
           (set_pendingActions
              (queueAction (sampleEnv (T0 + oneHour)) afterFirst queuedDisposal) [])
           afterFirst queuedDisposal).
  apply sameRecords_queued.
Defined.

(* ================================================================== *)
(** ** Further properties: the image checks (services/ai.ts) *)
(* ================================================================== *)

Lemma hashString_nonneg (value : string) : 0 <= hashString value.
Proof. unfold hashString. apply Z.abs_nonneg. Qed.

(** The confidence [0.6 + r / 100] in binary64, against the two
    thresholds, for each of the forty remainders. *)
Lemma confidence_thresholds (r : Z) :
  0 <= r < 40 ->
  PrimFloat.ltb 0.62 (PrimFloat.add 0.6 (PrimFloat.div (float_of_Z r) 100)) = (3 <=? r)
  /\ PrimFloat.ltb 0.68 (PrimFloat.add 0.6 (PrimFloat.div (float_of_Z r) 100)) = (9 <=? r).
Proof.
  intros Hr. destruct r as [|r|r]; [vm_compute; split; reflexivity| |lia].
  do 6 (try destruct r as [r|r|]); try lia; vm_compute; split; reflexivity.
Qed.

(** X21. The verdict of the disposal image check is a function of the
    hash of the photo URI and the QR code.  When the quality gate fails,
    nothing is detected and its reason is reported.  When it passes, with
    r the remainder of the hash of [photoUri:qrCodeId] by 40, the bin is
    detected exactly when r is at least 3 and the waste exactly when r is
    at least 9 (the confidence reaches the thresholds 0.62 and 0.68 at 2
    and 8 without exceeding them), so detected waste implies a detected
    bin, and no failure reason is given exactly when r is at least 9. *)
Theorem X21_image_verdict_from_hash (photoUri qrCodeId : string) :
  let verdict := validateDisposalImage photoUri qrCodeId in
  let r := Z.rem (hashString (photoUri ++ ":" ++ qrCodeId)) 40 in
  (fst (qualityCheck photoUri) = false ->
     qualityPassed verdict = false /\ binDetected verdict = false
     /\ wasteDetected verdict = false
     /\ failureReason verdict = snd (qualityCheck photoUri))
  /\ (fst (qualityCheck photoUri) = true ->
      qualityPassed verdict = true
      /\ binDetected verdict = (3 <=? r)
      /\ wasteDetected verdict = (9 <=? r)
      /\ (failureReason verdict = None <-> 9 <= r))
  /\ (wasteDetected verdict = true -> binDetected verdict = true)
  /\ 0 <= r < 40.
Proof.
  cbv zeta.
  assert (Hr : 0 <= Z.rem (hashString (photoUri ++ ":" ++ qrCodeId)) 40 < 40).
  { apply Z.rem_bound_pos; [apply hashString_nonneg|lia]. }
  destruct (confidence_thresholds _ Hr) as [Hbin Hwaste].
  unfold validateDisposalImage.
  destruct (fst (qualityCheck photoUri)); cbn [negb]; cbv zeta;
    cbn [qualityPassed binDetected wasteDetected failureReason].
  - split; [discriminate|]. rewrite Hbin, Hwaste.
    split; [|split; [|exact Hr]].
    + intros _. repeat (split; [reflexivity|]).
      destruct (Z.leb_spec 3 (Z.rem (hashString (photoUri ++ ":" ++ qrCodeId)) 40));
        destruct (Z.leb_spec 9 (Z.rem (hashString (photoUri ++ ":" ++ qrCodeId)) 40));
        cbn [negb]; split; intros; (reflexivity || discriminate || lia).
    + intros H9. apply Z.leb_le in H9. apply Z.leb_le. lia.
  - split; [intros _; repeat split; reflexivity|].
    split; [discriminate|]. split; [discriminate|exact Hr].
Qed.

Lemma toInt32_congruent (a b : Z) :
  a mod 2 ^ 32 = b mod 2 ^ 32 -> toInt32 a = toInt32 b.
Proof.
  intros Hab. unfold toInt32.
  rewrite (Z.add_mod a), (Z.add_mod b), Hab by lia. reflexivity.
Qed.

Lemma toInt32_mod (a : Z) : toInt32 a mod 2 ^ 32 = a mod 2 ^ 32.
Proof.
  unfold toInt32.
  rewrite <- (Zminus_mod_idemp_l ((a + 2 ^ 31) mod 2 ^ 32)), Z.mod_mod by lia.
  rewrite Zminus_mod_idemp_l. f_equal. lia.
Qed.

(** One round of the hash: [31 * hash + code] in 32 bits. *)
Lemma hash_round (hash code : Z) :
  toInt32 (shl32 hash 5 - hash + code) = toInt32 (31 * hash + code).
Proof.
  apply toInt32_congruent. unfold shl32.
  rewrite Z.shiftl_mul_pow2 by lia.
  rewrite <- Zplus_mod_idemp_l, <- Zminus_mod_idemp_l, toInt32_mod.
  rewrite <- Zmult_mod_idemp_l, toInt32_mod, Zmult_mod_idemp_l.
  rewrite Zminus_mod_idemp_l, Zplus_mod_idemp_l. f_equal. lia.
Qed.

Lemma hashLoop_app (s t : string) (hash : Z) :
  hashLoop (s ++ t) hash = hashLoop t (hashLoop s hash).
Proof.
  revert hash. induction s as [|c s IH]; intros hash; [reflexivity|].
  cbn [String.append hashLoop]. apply IH.
Qed.

Lemma hashLoop_Aa_BB (hash : Z) : hashLoop "Aa" hash = hashLoop "BB" hash.
Proof.
  cbn [hashLoop]. rewrite !hash_round. apply toInt32_congruent.
  rewrite <- Zplus_mod_idemp_l, <- Zmult_mod_idemp_r, toInt32_mod.
  rewrite Zmult_mod_idemp_r, Zplus_mod_idemp_l.
  symmetry.
  rewrite <- Zplus_mod_idemp_l, <- Zmult_mod_idemp_r, toInt32_mod.
  rewrite Zmult_mod_idemp_r, Zplus_mod_idemp_l.
  f_equal. change (charCode "A") with 65. change (charCode "a") with 97.
  change (charCode "B") with 66. lia.
Qed.

(** X22. The image identity is a 32-bit hash of the text of the URI, and
    it is not injective: two URIs that differ only by Aa against BB at
    some place have the same image hash.  So, once the first is used, the
    second is taken for a duplicate image, and a cleanup photo under the
    second fails the comparison with a complaint photo under the first. *)
Theorem X22_image_hash_collides (before after : string) (used : list string) :
  let first := before ++ "Aa" ++ after in
  let second := before ++ "BB" ++ after in
  first <> second
  /\ imageHash first = imageHash second
  /\ isDuplicateImage (imageHash first :: used) (imageHash second) = true
  /\ validateCleanupConsistency first second = false.
Proof.
  cbv zeta.
  assert (Hhash : imageHash (before ++ "Aa" ++ after)
                  = imageHash (before ++ "BB" ++ after)).
  { unfold imageHash, hashString.
    rewrite !hashLoop_app, hashLoop_Aa_BB. reflexivity. }
  split.
  - clear Hhash. induction before as [|c before IH]; cbn [String.append]; [discriminate|].
    intros [= Heq]. exact (IH Heq).
  - split; [exact Hhash|]. split.
    + apply isDuplicateImage_spec. left. exact Hhash.
    + unfold validateCleanupConsistency. rewrite Hhash, String.eqb_refl. reflexivity.
Qed.

(* ================================================================== *)
(** ** Further properties: the location capture *)
(* ================================================================== *)

(** [a <= 5] gives [a <= 10], read off the binary64 representation. *)
Lemma leb_5_leb_10 (a : float) :
  PrimFloat.leb a 5 = true -> PrimFloat.leb a 10 = true.
Proof.
  rewrite !FloatAxioms.leb_spec.
  replace (FloatOps.Prim2SF 5)
    with (SpecFloat.S754_finite false 5629499534213120 (-50))
    by (vm_compute; reflexivity).
  replace (FloatOps.Prim2SF 10)
    with (SpecFloat.S754_finite false 5629499534213120 (-49))
    by (vm_compute; reflexivity).
  unfold SpecFloat.SFleb.
  destruct (FloatOps.Prim2SF a) as [s|s| |s m e]; cbn [SpecFloat.SFcompare];
    try (intros H; exact H).
  destruct s; [intros _; reflexivity|].
  destruct (Z.compare_spec e (-50)) as [He|He|He];
    destruct (Z.compare_spec e (-49)) as [He'|He'|He']; try lia;
    intros H; (reflexivity || discriminate).
Qed.

Lemma leb_ltb_false (x y : float) :
  PrimFloat.leb x y = true -> PrimFloat.ltb y x = false.
Proof.
  intros Hle. destruct (PrimFloat.ltb y x) eqn:Hlt; [|reflexivity].
  apply ltb_leb_false in Hlt. congruence.
Qed.

Lemma strength_and_advisory (accuracy : float) :
  (resolveStrength accuracy = strong \/ resolveStrength accuracy = medium_strength ->
   PrimFloat.ltb MAX_ALLOWED_ACCURACY_METERS accuracy = false)
  /\ (PrimFloat.ltb MAX_ALLOWED_ACCURACY_METERS accuracy = true ->
      resolveStrength accuracy = weak \/ resolveStrength accuracy = none_strength).
Proof.
  unfold resolveStrength, PREFERRED_ACCURACY_METERS, MAX_ALLOWED_ACCURACY_METERS.
  destruct (PrimFloat.leb accuracy 5) eqn:H5.
  { apply leb_5_leb_10, leb_ltb_false in H5. rewrite H5.
    split; [reflexivity|discriminate]. }
  destruct (PrimFloat.leb accuracy 10) eqn:H10.
  { apply leb_ltb_false in H10. rewrite H10. split; [reflexivity|discriminate]. }
  destruct (PrimFloat.leb accuracy 40).
  - split; [intros [H|H]; discriminate|]. intros _. left. reflexivity.
  - split; [intros [H|H]; discriminate|]. intros _. right. reflexivity.
Qed.

(** X23. Whatever the permission answer, the outcome of the device and the
    clock, the capture never fails silently and never hands out a mocked
    fix: when no snapshot is returned an error is; without the permission
    there is no snapshot; a returned snapshot is not flagged as mocked,
    has a valid time and the signal strength of its accuracy; a snapshot
    of strength strong or medium comes without error, and an error beside
    a snapshot only with strength weak or none. *)
Theorem X23_capture_outcomes
    (status : PermissionStatus) (fetched : option Position) (now : Z) :
  let result := getHighAccuracyLocation status fetched now in
  (snapshot result = None -> error result <> None)
  /\ (status <> granted ->
      snapshot result = None
      /\ error result = Some "Location access is required to continue.")
  /\ (fetched = None -> snapshot result = None)
  /\ (forall snap, snapshot result = Some snap ->
        ls_isMocked snap = false
        /\ validTime (ls_timestamp snap) = true
        /\ ls_strength snap = resolveStrength (ls_accuracyMeters snap)
        /\ (ls_strength snap = strong \/ ls_strength snap = medium_strength ->
            error result = None)
        /\ (error result <> None ->
            ls_strength snap = weak \/ ls_strength snap = none_strength)).
Proof.
  cbv zeta. unfold getHighAccuracyLocation.
  destruct status; cbn [requestLocationPermission fst snd negb snapshot error];
    try (split; [discriminate|]; split; [intros _; split; reflexivity|];
         split; [reflexivity|discriminate]).
  destruct fetched as [position|]; cbn [snapshot error];
    [|split; [discriminate|]; split; [congruence|];
      split; [reflexivity|discriminate]].
  destruct (validTime _) eqn:Hvalid; cbn [negb snapshot error];
    [|split; [discriminate|]; split; [congruence|];
      split; [discriminate|discriminate]].
  cbv zeta. cbn [ls_isMocked ls_accuracyMeters].
  destruct (default false (pos_mocked position)) eqn:Hmock; cbn [snapshot error];
    [split; [discriminate|]; split; [congruence|];
     split; [discriminate|discriminate]|].
  set (accuracy := Math_max (default 999%float (pos_accuracy position)) 0).
  destruct (strength_and_advisory accuracy) as [Hgood Hweak].
  destruct (PrimFloat.ltb MAX_ALLOWED_ACCURACY_METERS accuracy) eqn:Hacc;
    cbn [snapshot error].
  - split; [discriminate|]. split; [congruence|]. split; [discriminate|].
    intros snap [= <-]. cbn [ls_isMocked ls_timestamp ls_strength ls_accuracyMeters].
    split; [reflexivity|]. split; [exact Hvalid|]. split; [reflexivity|].
    split; [|intros _; apply Hweak; reflexivity].
    intros Hs. apply Hgood in Hs. discriminate.
  - split; [discriminate|]. split; [congruence|]. split; [discriminate|].
    intros snap [= <-]. cbn [ls_isMocked ls_timestamp ls_strength ls_accuracyMeters].
    split; [reflexivity|]. split; [exact Hvalid|]. split; [reflexivity|].
    split; [reflexivity|]. intros Herr. congruence.
Qed.


Example scenario_capture_good_fix :
  resolveBin (DEFAULT_STATE 0) "bin-001" = Some binOne
  /\ snapshot (getHighAccuracyLocation granted (Some goodPosition) T0)
     = Some (atBinOne (T0 - 1000))
  /\ error (getHighAccuracyLocation granted (Some goodPosition) T0) = None.
Proof. repeat split; vm_compute; reflexivity. Qed.


(* ================================================================== *)
(** ** Further properties: the backend services *)
(* ================================================================== *)

Lemma insertBy_Permutation {A : Type} (compare : A -> A -> float) (x : A) (l : list A) :
  insertBy compare x l ≡ₚ x :: l.
Proof.
  induction l as [|y l IH]; cbn [insertBy]; [reflexivity|].
  destruct (PrimFloat.ltb 0 (compare x y)); [|reflexivity].
  rewrite IH. apply Permutation_swap.
Qed.

Lemma insertionSort_Permutation (A : Type) (compare : A -> A -> float) (l : list A) :
  insertionSort A compare l ≡ₚ l.
Proof.
  unfold insertionSort. induction l as [|x l IH]; cbn [foldr]; [reflexivity|].
  rewrite insertBy_Permutation, IH. reflexivity.
Qed.

(** X25. The bin suggested after a full-bin report is never the current
    bin and is always an available bin of the list; none is suggested
    exactly when every bin of the list is the current one or not
    available; without an origin the suggestion is the first such bin of
    the list.  (The sort is any rearrangement.) *)
Theorem X25_suggested_bin_is_available
    (M : MathLib)
    (Array_sort : forall A : Type, (A -> A -> float) -> list A -> list A)
    (bins : list Bin) (currentBinId : string) (origin : option Coordinates) :
  (forall A compare l, Array_sort A compare l ≡ₚ l) ->
  let result := suggestNextAvailableBin M Array_sort bins currentBinId origin in
  (forall bin, result = Some bin ->
     In bin bins /\ bin_id bin <> currentBinId /\ bin_status bin = available)
  /\ (result = None <->
      forall bin, In bin bins ->
        bin_id bin = currentBinId \/ bin_status bin <> available)
  /\ (origin = None ->
      result = List.find
                 (fun item =>
                    negb (String.eqb (bin_id item) currentBinId)
                    && BinStatus_eqb (bin_status item) available)
                 bins).
Proof.
  intros Hsort. cbv zeta. unfold suggestNextAvailableBin.
  set (keep := fun item : Bin =>
                 negb (String.eqb (bin_id item) currentBinId)
                 && BinStatus_eqb (bin_status item) available).
  assert (Hkeep : forall bin, In bin (List.filter keep bins) <->
                    In bin bins /\ bin_id bin <> currentBinId
                    /\ bin_status bin = available).
  { intros bin. rewrite filter_In. subst keep. cbv beta.
    rewrite andb_true_iff, negb_true_iff, String.eqb_neq, BinStatus_eqb_eq.
    reflexivity. }
  assert (Hnone : List.filter keep bins = [] <->
                  forall bin, In bin bins ->
                    bin_id bin = currentBinId \/ bin_status bin <> available).
  { split.
    - intros Hnil bin Hin.
      destruct (String.eqb_spec (bin_id bin) currentBinId) as [Heq|Hneq];
        [left; exact Heq|right].
      intros Hav. assert (Hbin : In bin (List.filter keep bins))
        by (apply Hkeep; repeat split; assumption).
      rewrite Hnil in Hbin. exact Hbin.
    - intros Hall. destruct (List.filter keep bins) as [|bin rest] eqn:Hf;
        [reflexivity|].
      assert (Hbin : In bin (bin :: rest)) by (left; reflexivity).
      apply Hkeep in Hbin as (Hin & Hid & Hav). destruct (Hall bin Hin); contradiction. }
  assert (Hfirst : head (List.filter keep bins) = List.find keep bins).
  { clear. induction bins as [|b bins IH]; [reflexivity|].
    cbn [List.filter List.find]. destruct (keep b); [reflexivity|exact IH]. }
  destruct (List.filter keep bins) as [|first rest] eqn:Hcandidates;
    cbn [List.length Nat.eqb].
  - split; [discriminate|]. split; [|intros _; rewrite <- Hfirst; reflexivity].
    split; [intros _; apply Hnone; reflexivity|reflexivity].
  - assert (Hsome : forall bin,
              match origin with
              | Some origin0 =>
                  option_map fst
                    (head
                       (Array_sort (Bin * float)%type
                          (fun left right => PrimFloat.sub (snd left) (snd right))
                          (map (fun item =>
                                  (item, distanceMeters M (bin_location item) origin0))
                               (first :: rest))))
              | None => head (first :: rest)
              end = Some bin -> In bin (first :: rest)).
    { intros bin. destruct origin as [origin0|].
      - destruct (head (Array_sort _ _ _)) as [[b dist]|] eqn:Hhead;
          cbn [option_map fst]; [|discriminate].
        intros [= Hb]. subst b. apply head_Some_elem_of in Hhead.
        rewrite Hsort in Hhead. apply list_elem_of_In in Hhead.
        apply in_map_iff in Hhead as (item & [= Hitem' _] & Hitem).
        subst item. exact Hitem.
      - cbn [head]. intros [= Hb]. left. exact Hb. }
    split; [intros bin Hbin; apply Hkeep, Hsome, Hbin|].
    split; [|intros ->; rewrite <- Hfirst; reflexivity].
    split.
    + intros Hres. exfalso. destruct origin as [origin0|]; [|discriminate].
      destruct (head (Array_sort _ _ _)) as [[b dist]|] eqn:Hhead;
        cbn [option_map] in Hres; [discriminate|].
      apply head_None in Hhead.
      pose proof (Hsort _ (fun left right : Bin * float =>
                             PrimFloat.sub (snd left) (snd right))
                    (map (fun item =>
                            (item, distanceMeters M (bin_location item) origin0))
                         (first :: rest))) as Hperm.
      rewrite Hhead in Hperm. apply Permutation_nil_l in Hperm. discriminate.
    + intros Hall. apply Hnone in Hall. discriminate.
Qed.

(** X25 on the bins of the app, with bin B1 reported full. *)
Lemma X25_witness_madurai_bins :
  exists bin,
    suggestNextAvailableBin smallAngleMath insertionSort (MADURAI_BINS 0) "bin-001"
      (Some (bin_location binOne)) = Some bin
    /\ bin_id bin <> "bin-001" /\ bin_status bin = available.
Proof.
  destruct (X25_suggested_bin_is_available smallAngleMath insertionSort (MADURAI_BINS 0)
              "bin-001" (Some (bin_location binOne)) insertionSort_Permutation)
    as (Hsome & _).
  destruct (suggestNextAvailableBin smallAngleMath insertionSort (MADURAI_BINS 0)
              "bin-001" (Some (bin_location binOne))) as [bin|] eqn:Hres;
    [|vm_compute in Hres; discriminate].
  exists bin. split; [reflexivity|].
  destruct (Hsome bin eq_refl) as (_ & Hid & Hav). split; [exact Hid|exact Hav].
Defined.

Lemma SFcompare_antisym (a b : SpecFloat.spec_float) (c : comparison) :
  SpecFloat.SFcompare a b = Some c -> SpecFloat.SFcompare b a = Some (CompOpp c).
Proof.
  destruct a as [s|s| |s m e], b as [s'|s'| |s' m' e']; cbn;
    try discriminate;
    try (intros [= <-]; try destruct s; try destruct s'; reflexivity).
  pose proof (Pos.compare_cont_antisym m m' Eq) as Hm. cbn [CompOpp] in Hm.
  rewrite (Z.compare_antisym e e'), <- Hm.
  intros [= <-].
  destruct s, s'; try reflexivity;
    destruct (e ?= e')%Z; cbn; try reflexivity;
    destruct (Pos.compare_cont Eq m m'); reflexivity.
Qed.

Lemma SFcompare_defined (a b : SpecFloat.spec_float) :
  SpecFloat.SFcompare a a <> None -> SpecFloat.SFcompare b b <> None ->
  exists c, SpecFloat.SFcompare a b = Some c.
Proof.
  destruct a as [s|s| |s m e], b as [s'|s'| |s' m' e']; cbn; intros Ha Hb;
    try congruence; eexists; reflexivity.
Qed.

(** Among numbers, [not (y < x)] is [x <= y]. *)
Lemma not_ltb_leb (x y : float) :
  PrimFloat.is_nan x = false -> PrimFloat.is_nan y = false ->
  PrimFloat.ltb y x = false -> PrimFloat.leb x y = true.
Proof.
  unfold PrimFloat.is_nan.
  rewrite !negb_false_iff, !FloatAxioms.eqb_spec, FloatAxioms.ltb_spec,
    FloatAxioms.leb_spec.
  unfold SpecFloat.SFeqb, SpecFloat.SFltb, SpecFloat.SFleb.
  intros Hx Hy.
  destruct (SFcompare_defined (FloatOps.Prim2SF y) (FloatOps.Prim2SF x)) as [c Hc].
  - destruct (SpecFloat.SFcompare (FloatOps.Prim2SF y) (FloatOps.Prim2SF y));
      [discriminate|discriminate].
  - destruct (SpecFloat.SFcompare (FloatOps.Prim2SF x) (FloatOps.Prim2SF x));
      [discriminate|discriminate].
  - rewrite Hc, (SFcompare_antisym _ _ _ Hc).
    destruct c; cbn [CompOpp]; intros H; (reflexivity || discriminate).
Qed.

Lemma applyDispose_measures
    (M : MathLib) (env : Env) (state : AppState) (a : PendingAction)
    (p : DisposePayload) (bin : Bin) :
  resolveBin state (dp_binId p) = Some bin ->
  forall d, hd_error (disposals (applyDispose M env state a p)) = Some d ->
  d_binId d = dp_binId p
  /\ d_location d = ls_location (dp_location p)
  /\ d_accuracyMeters d = ls_accuracyMeters (dp_location p)
  /\ d_distanceMeters d
     = distanceMeters M (ls_location (dp_location p)) (bin_location bin)
  /\ d_geoVerified d
     = (PrimFloat.leb (d_distanceMeters d) 5
        && negb (PrimFloat.ltb MAX_LOCATION_AGE_SECONDS (ls_ageSeconds (dp_location p)))
        && negb (PrimFloat.ltb MAX_ALLOWED_ACCURACY_METERS (d_accuracyMeters d))
        && negb (ls_isMocked (dp_location p))).
Proof.
  intros Hbin. unfold resolveBin in Hbin. unfold applyDispose. rewrite Hbin.
  cbv zeta.
  set (first := forallb _ (disposals state)).
  set (verified := BinStatus_eqb _ _ && _ && _ && _ && _).
  set (flags := disposeFlags _ _ _ _ _ _ _ _).
  frames. intros d [= <-].
  cbn [d_binId d_location d_accuracyMeters d_distanceMeters d_geoVerified].
  repeat split; reflexivity.
Qed.

(** X26. When the server gives no reply (no client, a failed call or an
    empty answer), the revalidation of a recorded disposal falls back to
    a local check of the distance against 5 m and of the accuracy against
    10 m only; the age sent is 0 and the mock flag is not sent.  It is
    made against the same bin location as the client check, so, for an
    accuracy that is a number, it passes every disposal whose geo check
    passed on the client, and it fails only disposals that already carry
    the geo_fence_failure flag. *)
Theorem X26_fallback_revalidation
    (M : MathLib) (env : Env) (state : AppState) (a : PendingAction)
    (p : DisposePayload) (bin : Bin)
    (invoke : option (GeoValidationPayload -> option GeoValidationReply)) :
  pa_payload a = dispose p ->
  resolveBin state (dp_binId p) = Some bin ->
  exists d bin',
    disposals (applyAction M env state a) = d :: disposals state
    /\ resolveBin (applyAction M env state a) (d_binId d) = Some bin'
    /\ (noReply invoke (revalidationPayload d bin') ->
        let valid := fst (validateGeoOnServer M invoke (revalidationPayload d bin')) in
        (valid = true <->
         PrimFloat.leb (d_accuracyMeters d) 10 = true
         /\ PrimFloat.leb (d_distanceMeters d) 5 = true)
        /\ (PrimFloat.is_nan (d_accuracyMeters d) = false ->
            d_geoVerified d = true -> valid = true)
        /\ (PrimFloat.is_nan (d_accuracyMeters d) = false ->
            valid = false -> In geo_fence_failure (d_fraudFlags d))).
Proof.
  intros Hpayload Hbin.
  assert (Happ : applyAction M env state a = applyDispose M env state a p)
    by (unfold applyAction; rewrite Hpayload; reflexivity).
  destruct (applyDispose_flagged M env state a p bin Hbin) as (d & H).
  cbv zeta in H. destruct H as (Hdisp & _ & _ & _ & _ & _ & Hex & _).
  destruct Hex as (_ & _ & Hgeoflag & _).
  assert (Hhd : hd_error (disposals (applyDispose M env state a p)) = Some d)
    by (rewrite Hdisp; reflexivity).
  destruct (applyDispose_measures M env state a p bin Hbin d Hhd)
    as (Hid & Hloc & Hacc & Hdist & Hgeo).
  destruct (bins_applyAction M env state a) as (f & Hbins & Hf).
  exists d, (f bin). rewrite Happ in *. split; [exact Hdisp|].
  split.
  { unfold resolveBin in *. rewrite Hbins, Hid, find_map_bin by (intros b; apply Hf).
    rewrite Hbin. reflexivity. }
  intros Hno. cbv zeta.
  assert (Hvalid : fst (validateGeoOnServer M invoke (revalidationPayload d (f bin)))
                   = (PrimFloat.leb (d_accuracyMeters d) 10
                      && PrimFloat.leb (d_distanceMeters d) 5)).
  { assert (Hlocation : bin_location (f bin) = bin_location bin) by apply Hf.
    unfold validateGeoOnServer, noReply in *. cbv zeta.
    cbn [revalidationPayload gv_binLocation gv_userLocation gv_allowedRadiusMeters
         gv_accuracyMeters gv_locationAgeSeconds] in *.
    rewrite Hlocation, Hloc, <- Hdist.
    replace (PrimFloat.leb 0 30) with true by (vm_compute; reflexivity).
    rewrite andb_true_r.
    destruct invoke as [call|]; [rewrite Hno|]; reflexivity. }
  rewrite Hvalid. split; [apply andb_true_iff|].
  assert (Hpass : PrimFloat.is_nan (d_accuracyMeters d) = false ->
                  d_geoVerified d = true ->
                  PrimFloat.leb (d_accuracyMeters d) 10
                  && PrimFloat.leb (d_distanceMeters d) 5 = true).
  { intros Hnan Hv. rewrite Hgeo, !andb_true_iff, !negb_true_iff in Hv.
    destruct Hv as (((Hd5 & _) & Hlow) & _).
    rewrite Hd5, andb_true_r. apply not_ltb_leb; [exact Hnan|reflexivity|exact Hlow]. }
  split; [exact Hpass|].
  intros Hnan Hfail. apply Hgeoflag.
  destruct (d_geoVerified d); [|reflexivity].
  rewrite (Hpass Hnan eq_refl) in Hfail. discriminate.
Qed.

(** X26 on the first disposal, with no Supabase client. *)
Lemma X26_witness_first_disposal :
  exists d bin',
    disposals afterFirst = d :: disposals (DEFAULT_STATE 0)
    /\ resolveBin afterFirst (d_binId d) = Some bin'.
Proof.
  destruct scenario_capture_good_fix as (Hbin & _).
  destruct (X26_fallback_revalidation smallAngleMath (sampleEnv T0) (DEFAULT_STATE 0)
              firstDisposal
              (disposePayload "MMC-BIN-001" "file:///data/photo-001.jpg" medium T0)
              binOne None eq_refl Hbin)
    as (d & bin' & Hd & Hres & _).
  exists d, bin'. split; [exact Hd|exact Hres].
Defined.

(* ================================================================== *)
(** ** Further properties: the analytics (services/analytics.ts) *)
(* ================================================================== *)

Lemma pointsOfType_app (t : WalletEntryType) (l1 l2 : list WalletEntry) :
  pointsOfType t (l1 ++ l2) = pointsOfType t l1 + pointsOfType t l2.
Proof.
  unfold pointsOfType. induction l1 as [|e l1 IH]; cbn [app foldr]; [lia|].
  destruct t, (we_type e); lia.
Qed.

Lemma earned_applyAction
    (M : MathLib) (env : Env) (state : AppState) (a : PendingAction) :
  pointsOfType earn (history (wallet state)) = totalAwarded (disposals state) ->
  pointsOfType earn (history (wallet (applyAction M env state a)))
  = totalAwarded (disposals (applyAction M env state a)).
Proof.
  intros Hinv.
  pose proof (wallet_kept M env state a) as Hw.
  pose proof (disposals_kept M env state a) as Hd.
  unfold applyAction in *. destruct (pa_payload a) as [p|p|p|p|p|p];
    try (rewrite Hw, Hd; exact Hinv).
  - dispose_cases M env state a p; [|exact Hinv].
    destruct Hfound as (-> & _ & _ & -> & _ & Hearned & _).
    rewrite pointsOfType_app, Hearned, Hinv. reflexivity.
  - rewrite Hd. clear Hw Hd. open_branch; exact Hinv.
Qed.

Lemma rewards_distributed (entries : list WalletEntry) (start : Z) :
  fold_left (fun sum entry => sum + we_points entry) (List.filter isEarn entries) start
  = start + pointsOfType earn entries.
Proof.
  unfold pointsOfType, isEarn. revert start.
  induction entries as [|e entries IH]; intros start; cbn [List.filter fold_left foldr];
    [lia|].
  destruct (we_type e); cbn [fold_left]; rewrite IH; lia.
Qed.

Lemma filter_split_length {A : Type} (f : A -> bool) (l : list A) :
  (List.length (List.filter (fun x => negb (f x)) l) + List.length (List.filter f l)
   = List.length l)%nat.
Proof.
  induction l as [|x l IH]; [reflexivity|].
  cbn [List.filter]. destruct (f x); cbn [negb List.length]; lia.
Qed.

Lemma filter_length_bound {A : Type} (f : A -> bool) (l : list A) :
  (List.length (List.filter f l) <= List.length l)%nat.
Proof.
  induction l as [|x l IH]; [reflexivity|].
  cbn [List.filter]. destruct (f x); cbn [List.length]; lia.
Qed.

Lemma filter_length_mono {A : Type} (f g : A -> bool) (l : list A) :
  Forall (fun x => f x = true -> g x = true) l ->
  (List.length (List.filter f l) <= List.length (List.filter g l))%nat.
Proof.
  induction 1 as [|x l Hx _ IH]; [reflexivity|].
  cbn [List.filter]. destruct (f x) eqn:Hf.
  - rewrite (Hx eq_refl). cbn [List.length]. lia.
  - destruct (g x); cbn [List.length]; lia.
Qed.

Lemma remove_dups_length_bound (l : list string) :
  (List.length (remove_dups l) <= List.length l)%nat.
Proof.
  induction l as [|x l IH]; [reflexivity|].
  cbn [remove_dups]. destruct (decide_rel elem_of x l); cbn [List.length]; lia.
Qed.

(** X27. In every reachable state the totals of the dashboard agree with
    the wallet: the rewards distributed are the sum of the points awarded
    on the recorded disposals, and the balance is the rewards distributed
    less the points used by the redemptions.  Open and resolved complaints
    add up to all complaints, the verified disposals are at most all
    disposals, and the active users at most disposals plus complaints. *)
Theorem X27_dashboard_totals
    (M : MathLib) (loadedAt : Z)
    (Array_sort : forall A : Type, (A -> A -> float) -> list A -> list A)
    (state : AppState) :
  reachable M loadedAt state ->
  let analytics := analyticsOf Array_sort state in
  an_totalRewardsDistributed analytics = totalAwarded (disposals state)
  /\ points (wallet state)
     = an_totalRewardsDistributed analytics - totalUsed (redemptions state)
  /\ (an_openComplaints analytics + an_resolvedComplaints analytics
      = an_totalComplaints analytics)%nat
  /\ (an_verifiedDisposals analytics <= an_totalDisposals analytics)%nat
  /\ (an_activeUsers analytics
      <= an_totalDisposals analytics + an_totalComplaints analytics)%nat.
Proof.
  intros Hreach. cbv zeta.
  assert (Hinv : pointsOfType earn (history (wallet state))
                 = totalAwarded (disposals state)
                 /\ points (wallet state)
                    = totalAwarded (disposals state) - totalUsed (redemptions state)).
  { revert state Hreach. apply reachable_invariant; [split; reflexivity|].
    intros s s' Hstep [Hearn Hbal]. destruct Hstep; try (split; assumption).
    - split; [apply earned_applyAction, Hearn|apply balance_records_applyAction, Hbal].
    - split; reflexivity. }
  destruct Hinv as [Hearn Hbal].
  unfold analyticsOf, buildAnalytics. cbv zeta.
  cbn [an_totalRewardsDistributed an_openComplaints an_resolvedComplaints
       an_totalComplaints an_verifiedDisposals an_totalDisposals an_activeUsers].
  rewrite rewards_distributed, Hearn.
  split; [lia|]. split; [lia|]. split; [apply filter_split_length|].
  split; [apply filter_length_bound|].
  etrans; [apply remove_dups_length_bound|].
  rewrite length_app, !length_map. reflexivity.
Qed.

(** X27 on the state reached by two verified disposals and a redemption. *)
Lemma X27_witness_after_redeem :
  an_totalRewardsDistributed (analyticsOf insertionSort afterRedeem)
  = totalAwarded (disposals afterRedeem)
  /\ points (wallet afterRedeem)
     = an_totalRewardsDistributed (analyticsOf insertionSort afterRedeem)
       - totalUsed (redemptions afterRedeem).
Proof.
  destruct (X27_dashboard_totals smallAngleMath 0 insertionSort afterRedeem)
    as (Hrewards & Hbalance & _).
  - apply sample_states_reachable.
  - split; [exact Hrewards|exact Hbalance].
Defined.

(** X28. In every reachable state the bin usage of the dashboard has one
    row for each bin of the state: the total of a row is the number of
    disposals recorded at its bin, at most the number of all disposals,
    and its count of verified disposals, which is the count of disposals
    at the bin that passed the image and geo checks, is at most that
    total and at least the number of verified disposals at the bin.
    (The sort is any rearrangement.) *)
Theorem X28_bin_usage_rows
    (M : MathLib) (loadedAt : Z)
    (Array_sort : forall A : Type, (A -> A -> float) -> list A -> list A)
    (state : AppState) :
  reachable M loadedAt state ->
  (forall A compare l, Array_sort A compare l ≡ₚ l) ->
  let analytics := analyticsOf Array_sort state in
  List.length (an_binUsage analytics) = List.length (bins state)
  /\ Forall (fun row => exists bin, In bin (bins state) /\ rowOfBin state row bin)
       (an_binUsage analytics).
Proof.
  intros Hreach Hsort. cbv zeta.
  assert (Hex : Forall recordExplained (disposals state)).
  { revert state Hreach. apply reachable_invariant; [constructor|].
    intros s s' Hstep Hs. destruct Hstep; try exact Hs.
    - apply recordExplained_applyAction, Hs.
    - constructor. }
  unfold analyticsOf, buildAnalytics. cbv zeta. cbn [an_binUsage].
  rewrite Hsort. split; [apply length_map|].
  apply Forall_forall. intros row Hrow. apply list_elem_of_In in Hrow.
  apply in_map_iff in Hrow as (bin & <- & Hbin).
  exists bin. split; [exact Hbin|].
  unfold rowOfBin. cbv zeta.
  cbn [bu_binId bu_totalDisposals bu_verifiedDisposals].
  split; [reflexivity|]. split; [reflexivity|].
  split; [|split; apply filter_length_bound].
  apply filter_length_mono. apply Forall_forall. intros d Hd Hv.
  apply list_elem_of_In, filter_In in Hd as [Hd _].
  rewrite Forall_forall in Hex. apply list_elem_of_In in Hd.
  destruct (Hex d Hd) as [Hverified _].
  destruct (Hverified Hv) as (_ & Hgeo & Hai & _). rewrite Hgeo, Hai. reflexivity.
Qed.

(** X28 on the state reached by two verified disposals and a redemption. *)
Lemma X28_witness_after_redeem :
  List.length (an_binUsage (analyticsOf insertionSort afterRedeem))
  = List.length (bins afterRedeem).
Proof.
  apply (X28_bin_usage_rows smallAngleMath 0 insertionSort afterRedeem).
  - apply sample_states_reachable.
  - apply insertionSort_Permutation.
Defined.

(* ================================================================== *)
(** ** Further properties: the first-time bonus *)
(* ================================================================== *)

Lemma firstVerified_spec (d : DisposalRecord) (earlier : list DisposalRecord) :
  forallb (fun item => negb (String.eqb (d_userId item) (d_userId d) && d_verified item))
          earlier = true
  <-> ~ verifiedBefore d earlier.
Proof.
  unfold verifiedBefore. rewrite forallb_forall. split.
  - intros Hall (d' & Hin & Hu & Hv).
    specialize (Hall d' Hin). rewrite Hv, andb_true_r in Hall.
    apply negb_true_iff, String.eqb_neq in Hall. congruence.
  - intros Hnone d' Hin. apply negb_true_iff.
    destruct (String.eqb_spec (d_userId d') (d_userId d)) as [Hu|Hu]; [|reflexivity].
    destruct (d_verified d') eqn:Hv; [|reflexivity].
    exfalso. apply Hnone. exists d'. repeat split; assumption.
Qed.

Lemma bonusRule_applyAction
    (M : MathLib) (env : Env) (state : AppState) (a : PendingAction) :
  bonusRule (disposals state) -> bonusRule (disposals (applyAction M env state a)).
Proof.
  intros Hs. pose proof (disposals_kept M env state a) as Hkept.
  unfold applyAction in *. destruct (pa_payload a) as [p|p|p|p|p|p];
    try (rewrite Hkept; exact Hs).
  dispose_cases M env state a p; [|exact Hs].
  destruct Hfound as (Hdisp & _ & _ & _ & _ & _ & _ & _ & _ & _ & _ & _ & _ & Huser
                      & _ & _ & _ & Hsize & _ & _ & _ & _ & Hpoints & _).
  rewrite Hdisp. cbn [bonusRule]. split; [|exact Hs].
  intros Hv. unfold bonusPaid. rewrite Hv, Hsize, Hpoints, Hv. cbn [andb].
  rewrite <- firstVerified_spec, Huser.
  destruct (forallb _ (disposals state)).
  - rewrite Z.eqb_refl. tauto.
  - unfold FIRST_TIME_USER_BONUS_POINTS.
    destruct (Z.eqb_spec (REGULAR_REWARD_POINTS (dp_wasteSize p) + 0)
                (REGULAR_REWARD_POINTS (dp_wasteSize p) + 50)) as [Heq|Hneq]; [lia|].
    split; discriminate.
Qed.

Lemma bonus_once (ds : list DisposalRecord) (userId : string) :
  bonusRule ds ->
  (List.length
     (List.filter (fun d => String.eqb (d_userId d) userId && bonusPaid d) ds) <= 1)%nat.
Proof.
  induction ds as [|d earlier IH]; [intros _; cbn; lia|].
  cbn [bonusRule List.filter]. intros [Hd Hrest]. specialize (IH Hrest).
  destruct (String.eqb (d_userId d) userId && bonusPaid d) eqn:Hpaid; [|exact IH].
  apply andb_true_iff in Hpaid as [Huser Hbonus]. apply String.eqb_eq in Huser.
  assert (Hv : d_verified d = true)
    by (unfold bonusPaid in Hbonus; apply andb_true_iff in Hbonus; tauto).
  destruct (List.filter _ earlier) as [|d' rest] eqn:Hfilter; [cbn; lia|].
  exfalso. apply (proj1 (Hd Hv) Hbonus).
  assert (Hin : In d' (List.filter
                         (fun d => String.eqb (d_userId d) userId && bonusPaid d)
                         earlier))
    by (rewrite Hfilter; left; reflexivity).
  apply filter_In in Hin as [Hin Hd'].
  apply andb_true_iff in Hd' as [Huser' Hbonus']. apply String.eqb_eq in Huser'.
  exists d'. split; [exact Hin|]. split; [congruence|].
  unfold bonusPaid in Hbonus'. apply andb_true_iff in Hbonus'. tauto.
Qed.

(** X29. The first-time bonus is paid once.  In every reachable state,
    along the recorded disposals, a verified disposal carries the bonus of
    50 exactly when its user has no verified disposal recorded before it;
    so no user has more than one disposal with the bonus. *)
Theorem X29_bonus_paid_once
    (M : MathLib) (loadedAt : Z) (state : AppState) :
  reachable M loadedAt state ->
  bonusRule (disposals state)
  /\ forall userId,
       (List.length
          (List.filter (fun d => String.eqb (d_userId d) userId && bonusPaid d)
                       (disposals state)) <= 1)%nat.
Proof.
  intros Hreach.
  assert (Hrule : bonusRule (disposals state)).
  { revert state Hreach. apply reachable_invariant; [exact I|].
    intros s s' Hstep Hs. destruct Hstep; try exact Hs.
    - apply bonusRule_applyAction, Hs.
    - exact I. }
  split; [exact Hrule|]. intros userId. apply bonus_once, Hrule.
Qed.

(** X29 on the state reached by two verified disposals of one user. *)
Lemma X29_witness_wallet_of_seventy :
  (List.length
     (List.filter (fun d => String.eqb (d_userId d) "demo-user-001" && bonusPaid d)
                  (disposals walletOfSeventy)) <= 1)%nat.
Proof.
  apply (X29_bonus_paid_once smallAngleMath 0 walletOfSeventy).
  apply sample_states_reachable.
Defined.

Example scenario_bonus_once :
  map bonusPaid (disposals walletOfSeventy) = [false; true].
Proof. vm_compute. reflexivity. Qed.

(* ================================================================== *)
(** ** Further properties: the image verdict at a disposal *)
(* ================================================================== *)

Lemma quality_reason (photoUri : string) :
  fst (qualityCheck photoUri) = false -> exists reason, snd (qualityCheck photoUri) = Some reason.
Proof.
  unfold qualityCheck. destruct (_ <? _)%nat; cbn [fst snd]; [eauto|].
  destruct (_ || _); cbn [fst snd]; [eauto|].
  destruct (_ =? _)%nat; cbn [fst snd]; [eauto|discriminate].
Qed.

Lemma verdict_fields (photoUri qrCodeId : string) :
  let verdict := validateDisposalImage photoUri qrCodeId in
  let r := Z.rem (hashString (photoUri ++ ":" ++ qrCodeId)) 40 in
  qualityPassed verdict && binDetected verdict && wasteDetected verdict
  = fst (qualityCheck photoUri) && (9 <=? r)
  /\ failureReason verdict
     = (if fst (qualityCheck photoUri)
        then if r <? 3 then Some "Dustbin not detected."
             else if r <? 9 then Some "Waste not detected."
             else None
        else snd (qualityCheck photoUri)).
Proof.
  cbv zeta.
  assert (Hr : 0 <= Z.rem (hashString (photoUri ++ ":" ++ qrCodeId)) 40 < 40).
  { apply Z.rem_bound_pos; [apply hashString_nonneg|lia]. }
  destruct (confidence_thresholds _ Hr) as [Hbin Hwaste].
  unfold validateDisposalImage.
  destruct (fst (qualityCheck photoUri)); cbn [negb]; cbv zeta;
    cbn [qualityPassed binDetected wasteDetected failureReason andb];
    [|split; reflexivity].
  rewrite Hbin, Hwaste.
  destruct (Z.leb_spec 3 (Z.rem (hashString (photoUri ++ ":" ++ qrCodeId)) 40));
    destruct (Z.leb_spec 9 (Z.rem (hashString (photoUri ++ ":" ++ qrCodeId)) 40));
    destruct (Z.ltb_spec (Z.rem (hashString (photoUri ++ ":" ++ qrCodeId)) 40) 3);
    destruct (Z.ltb_spec (Z.rem (hashString (photoUri ++ ":" ++ qrCodeId)) 40) 9);
    try lia; cbn [negb andb]; split; reflexivity.
Qed.

Lemma applyDispose_image
    (M : MathLib) (env : Env) (state : AppState) (a : PendingAction)
    (p : DisposePayload) (bin : Bin) :
  resolveBin state (dp_binId p) = Some bin ->
  forall d, hd_error (disposals (applyDispose M env state a p)) = Some d ->
  let verdict := validateDisposalImage (dp_photoUri p) (dp_qrCodeId p) in
  d_aiVerified d
  = qualityPassed verdict && binDetected verdict && wasteDetected verdict
  /\ d_rejectionReason d
     = (if d_verified d then None
        else Some (default "Validation failed" (failureReason verdict)))
  /\ (d_aiVerified d = false -> d_verified d = false).
Proof.
  intros Hbin. unfold resolveBin in Hbin. unfold applyDispose. rewrite Hbin.
  cbv zeta.
  set (first := forallb _ (disposals state)).
  set (flags := disposeFlags _ _ _ _ _ _ _ _).
  frames. intros d [= <-].
  cbn [d_aiVerified d_rejectionReason d_verified].
  split; [reflexivity|]. split; [reflexivity|].
  intros ->. rewrite andb_false_r. reflexivity.
Qed.

(** X30. The image verdict decides a disposal and names its rejection.
    With r the remainder by 40 of the hash of [photoUri:qrCodeId], the
    record passes the image check exactly when the quality gate passes and
    r is at least 9.  When it does not pass, the record is not verified,
    awards 0 points and leaves the wallet as it was, and its rejection
    reason is the reason of the quality gate, or that the dustbin (r below
    3) or the waste (r from 3 to 8) was not detected.  A record that
    passes the image check and is rejected for another cause carries the
    reason Validation failed. *)
Theorem X30_image_verdict_at_disposal
    (M : MathLib) (env : Env) (state : AppState) (a : PendingAction)
    (p : DisposePayload) (bin : Bin) :
  pa_payload a = dispose p ->
  resolveBin state (dp_binId p) = Some bin ->
  let state' := applyAction M env state a in
  let r := Z.rem (hashString (dp_photoUri p ++ ":" ++ dp_qrCodeId p)) 40 in
  exists d,
    disposals state' = d :: disposals state
    /\ d_aiVerified d = fst (qualityCheck (dp_photoUri p)) && (9 <=? r)
    /\ (d_aiVerified d = false ->
        d_verified d = false /\ d_pointsAwarded d = 0 /\ wallet state' = wallet state)
    /\ (fst (qualityCheck (dp_photoUri p)) = false ->
        d_rejectionReason d = snd (qualityCheck (dp_photoUri p)))
    /\ (fst (qualityCheck (dp_photoUri p)) = true -> r < 3 ->
        d_rejectionReason d = Some "Dustbin not detected.")
    /\ (fst (qualityCheck (dp_photoUri p)) = true -> 3 <= r < 9 ->
        d_rejectionReason d = Some "Waste not detected.")
    /\ (d_aiVerified d = true -> d_verified d = false ->
        d_rejectionReason d = Some "Validation failed").
Proof.
  intros Hpayload Hbin. cbv zeta.
  assert (Happ : applyAction M env state a = applyDispose M env state a p)
    by (unfold applyAction; rewrite Hpayload; reflexivity).
  rewrite Happ. clear Happ.
  destruct (applyDispose_found M env state a p bin Hbin) as (d & entries & H).
  cbv zeta in H.
  destruct H as (Hdisp & _ & _ & _ & _ & _ & _ & _ & _ & _ & _ & _ & _ & _
                 & _ & _ & _ & _ & _ & _ & _ & _ & Hpoints & _).
  assert (Hhd : hd_error (disposals (applyDispose M env state a p)) = Some d)
    by (rewrite Hdisp; reflexivity).
  destruct (applyDispose_image M env state a p bin Hbin d Hhd) as (Hai & Hreason & Hfail).
  cbv zeta in Hai, Hreason.
  destruct (verdict_fields (dp_photoUri p) (dp_qrCodeId p)) as [Hverdict Hwhy].
  cbv zeta in Hverdict, Hwhy. rewrite Hverdict in Hai. rewrite Hwhy in Hreason.
  exists d. split; [exact Hdisp|]. split; [exact Hai|].
  split.
  { intros Hno. specialize (Hfail Hno). split; [exact Hfail|].
    rewrite Hfail in Hpoints. split; [exact Hpoints|].
    apply (unverified_changes_no_balance M env state a p bin Hbin d Hhd Hfail). }
  split.
  { intros Hq. rewrite Hq in Hai, Hreason. cbn [andb] in Hai.
    rewrite (Hfail Hai) in Hreason.
    destruct (quality_reason _ Hq) as [reason Hsome].
    rewrite Hsome in Hreason |- *. exact Hreason. }
  split.
  { intros Hq Hr. rewrite Hq in Hai, Hreason. cbn [andb] in Hai.
    assert (Hno : d_aiVerified d = false)
      by (rewrite Hai; apply Z.leb_gt; lia).
    rewrite (Hfail Hno) in Hreason. rewrite Hreason.
    destruct (Z.ltb_spec (Z.rem (hashString (dp_photoUri p ++ ":" ++ dp_qrCodeId p)) 40) 3);
      [reflexivity|lia]. }
  split.
  { intros Hq Hr. rewrite Hq in Hai, Hreason. cbn [andb] in Hai.
    assert (Hno : d_aiVerified d = false)
      by (rewrite Hai; apply Z.leb_gt; lia).
    rewrite (Hfail Hno) in Hreason. rewrite Hreason.
    destruct (Z.ltb_spec (Z.rem (hashString (dp_photoUri p ++ ":" ++ dp_qrCodeId p)) 40) 3);
      [lia|].
    destruct (Z.ltb_spec (Z.rem (hashString (dp_photoUri p ++ ":" ++ dp_qrCodeId p)) 40) 9);
      [reflexivity|lia]. }
  intros Hyes Hv. rewrite Hv in Hreason. rewrite Hyes in Hai.
  symmetry in Hai. apply andb_true_iff in Hai as [Hq Hr]. apply Z.leb_le in Hr.
  rewrite Hq in Hreason. rewrite Hreason.
  destruct (Z.ltb_spec (Z.rem (hashString (dp_photoUri p ++ ":" ++ dp_qrCodeId p)) 40) 3);
    [lia|].
  destruct (Z.ltb_spec (Z.rem (hashString (dp_photoUri p ++ ":" ++ dp_qrCodeId p)) 40) 9);
    [lia|reflexivity].
Qed.

(** X30 on a photo whose URI names a screenshot. *)
Lemma X30_witness_screenshot :
  exists d,
    disposals (applyAction smallAngleMath (sampleEnv T0) (DEFAULT_STATE 0)
                 (disposeAction "dispose-s1" "MMC-BIN-001"
                    "file:///data/Screenshot-7.jpg" medium T0))
    = d :: disposals (DEFAULT_STATE 0)
    /\ d_rejectionReason d
       = Some "Screenshot-like image rejected. Use live camera only.".
Proof.
  destruct scenario_capture_good_fix as (Hbin & _).
  destruct (X30_image_verdict_at_disposal smallAngleMath (sampleEnv T0) (DEFAULT_STATE 0)
              (disposeAction "dispose-s1" "MMC-BIN-001"
                 "file:///data/Screenshot-7.jpg" medium T0)
              (disposePayload "MMC-BIN-001" "file:///data/Screenshot-7.jpg" medium T0)
              binOne eq_refl Hbin)
    as (d & Hd & _ & _ & Hquality & _).
  exists d. split; [exact Hd|]. apply Hquality. vm_compute. reflexivity.
Defined.
